(** * TinyG2 configuration table and its application-specific helpers

    A shallow embedding of [config_app.cpp]: the descriptor table
    [cfgArray], the boundary constants derived from its size, the index
    classifiers, the unit-conversion helpers [set_flu] and
    [preprocess_float], the group-prefix rule, the uber-group handlers and
    the baud-rate setter, followed by the properties established for them. *)

From Stdlib Require Import ZArith String Ascii Bool List Lia.
From Stdlib Require Import Floats.SpecFloat.
Import ListNotations.
Local Open Scope string_scope.
Local Open Scope list_scope.
Local Open Scope Z_scope.

(** ** Build configuration

    Every preprocessor symbol that config_app.cpp tests with [#if] or
    [#ifdef], and the constants it takes from other headers
    ([NV_STATUS_REPORT_LEN] from report.h, [NV_MAX_OBJECTS] and [TOKEN_LEN]
    from config.h). *)

Record build : Type := mk_build {
  MOTORS : Z;
  D_IN_CHANNELS : Z;
  __ARM : bool;
  __AVR : bool;
  __TEXT_MODE : bool;
  __HELP_SCREENS : bool;
  __USER_DATA : bool;
  __DIAGNOSTIC_PARAMETERS : bool;
  NV_STATUS_REPORT_LEN : Z;
  NV_MAX_OBJECTS : Z;
  TOKEN_LEN : nat
}.

Definition with_MOTORS (m : Z) (b : build) : build :=
  {| MOTORS := m;
     D_IN_CHANNELS := D_IN_CHANNELS b;
     __ARM := __ARM b;
     __AVR := __AVR b;
     __TEXT_MODE := __TEXT_MODE b;
     __HELP_SCREENS := __HELP_SCREENS b;
     __USER_DATA := __USER_DATA b;
     __DIAGNOSTIC_PARAMETERS := __DIAGNOSTIC_PARAMETERS b;
     NV_STATUS_REPORT_LEN := NV_STATUS_REPORT_LEN b;
     NV_MAX_OBJECTS := NV_MAX_OBJECTS b;
     TOKEN_LEN := TOKEN_LEN b |}.

(** An ARM build with [m] motors, nine input channels, text mode and help
    screens; the status-report length is the count the table's own comment
    gives for the [se00]..[se39] block, the token length the one the table's
    caveats name. *)
Definition arm_build (m : Z) : build :=
  {| MOTORS := m;
     D_IN_CHANNELS := 9;
     __ARM := true;
     __AVR := false;
     __TEXT_MODE := true;
     __HELP_SCREENS := true;
     __USER_DATA := false;
     __DIAGNOSTIC_PARAMETERS := false;
     NV_STATUS_REPORT_LEN := 40;
     NV_MAX_OBJECTS := 29;
     TOKEN_LEN := 6 |}.

(** The corresponding AVR build (the one in which [set_baud] exists). *)
Definition avr_build (m : Z) : build :=
  {| MOTORS := m;
     D_IN_CHANNELS := 8;
     __ARM := false;
     __AVR := true;
     __TEXT_MODE := true;
     __HELP_SCREENS := true;
     __USER_DATA := false;
     __DIAGNOSTIC_PARAMETERS := false;
     NV_STATUS_REPORT_LEN := 40;
     NV_MAX_OBJECTS := 29;
     TOKEN_LEN := 6 |}.

(** A build that stops group lists at seven objects, for the truncation
    case. *)
Definition short_list_build : build :=
  {| MOTORS := 4;
     D_IN_CHANNELS := 9;
     __ARM := true;
     __AVR := false;
     __TEXT_MODE := true;
     __HELP_SCREENS := true;
     __USER_DATA := false;
     __DIAGNOSTIC_PARAMETERS := false;
     NV_STATUS_REPORT_LEN := 40;
     NV_MAX_OBJECTS := 7;
     TOKEN_LEN := 6 |}.

(** ** Floating-point values

    [nv->value] and the cells behind [target] are C [float]s: IEEE-754
    binary32, here the specification floats of the standard library at
    precision 24 and maximal exponent 128. *)

Definition float : Type := spec_float.

Definition prec32 : Z := 24.
Definition emax32 : Z := 128.

Definition fmul (x y : float) : float := SFmul prec32 emax32 x y.
Definition fdiv (x y : float) : float := SFdiv prec32 emax32 x y.
Definition float_of_Z (z : Z) : float := binary_normalize prec32 emax32 z 0 false.

Definition isnan (x : float) : bool :=
  match x with S754_nan => true | _ => false end.

Definition isinf (x : float) : bool :=
  match x with S754_infinity _ => true | _ => false end.

(** Modelled from the spec: MM_PER_INCH, the inch-to-millimeter constant
    (25.4), a macro of a header config_app.cpp includes; taken as the
    binary32 value nearest to 254/10, so that [nv->value *= MM_PER_INCH] is
    one binary32 multiplication. *)
Definition MM_PER_INCH : float := fdiv (float_of_Z 254) (float_of_Z 10).

(** Modelled from the spec: INCHES_PER_MM, the millimeter-to-inch constant,
    the reciprocal of the one above. *)
Definition INCHES_PER_MM : float := fdiv (float_of_Z 1) MM_PER_INCH.

(** The cast [(uint8_t)x]: the value is truncated toward zero and kept
    modulo 256.  C defines the cast only when the truncated value fits in
    0..255; outside it the low byte is the modelling choice, and NaN and
    the infinities give 0. *)
Definition float_to_uint8 (x : float) : Z :=
  match x with
  | S754_finite s m e =>
      let mag := Z.shiftl (Zpos m) e in
      (if s then - mag else mag) mod 256
  | _ => 0
  end.

(** ** Status codes, value types, unit modes *)

Inductive stat_t : Type :=
  | STAT_OK
  | STAT_NOOP
  | STAT_COMPLETE
  | STAT_INPUT_VALUE_UNSUPPORTED.

(** Modelled from the spec: the value-type tags of the Transient Value
    Object (float, int, string, byte-blob, parent); config_app.cpp itself
    names [TYPE_FLOAT], [TYPE_INT] and [TYPE_PARENT]. *)
Inductive valueType : Type :=
  | TYPE_FLOAT
  | TYPE_INT
  | TYPE_STRING
  | TYPE_DATA
  | TYPE_PARENT.

(** Modelled from the spec: the active unit mode read by
    [cm_get_units_mode(MODEL)], inches or millimeters. *)
Inductive cmUnitsMode : Type :=
  | INCHES
  | MILLIMETERS.

Definition cmUnitsMode_eqb (a b : cmUnitsMode) : bool :=
  match a, b with
  | INCHES, INCHES | MILLIMETERS, MILLIMETERS => true
  | _, _ => false
  end.

Inductive textFormats : Type :=
  | TEXT_MULTILINE_FORMATTED.

Inductive jsonFormats : Type :=
  | JSON_RESPONSE_FORMAT.

(** ** Descriptors

    The fields of [cfgItem_t] that the functions of config_app.cpp read:
    group, token, flags, display precision and the target location, the
    last one named by the lvalue the table takes the address of.  The
    print, get and set bindings and the default value are left out. *)

Record cfgItem_t : Type := item {
  cfg_group : string;
  cfg_token : string;
  cfg_flags : Z;
  cfg_precision : Z;
  cfg_target : string
}.

(** Modelled from the spec: the capability bits of a descriptor and the
    flag combinations the table uses, macros of config.h; the letters of a
    combination name its bits (i initialize, p persist, n no-strip,
    c convert).  The bit positions are a modelling choice on which no
    property below depends. *)
Definition F_INITIALIZE : Z := 1.
Definition F_PERSIST : Z := 2.
Definition F_NOSTRIP : Z := 4.
Definition F_CONVERT : Z := 8.

Definition _f0 : Z := 0.
Definition _fi : Z := F_INITIALIZE.
Definition _fp : Z := F_PERSIST.
Definition _fn : Z := F_NOSTRIP.
Definition _fip : Z := Z.lor F_INITIALIZE F_PERSIST.
Definition _fic : Z := Z.lor F_INITIALIZE F_CONVERT.
Definition _fipc : Z := Z.lor (Z.lor F_INITIALIZE F_PERSIST) F_CONVERT.
Definition _fipn : Z := Z.lor (Z.lor F_INITIALIZE F_PERSIST) F_NOSTRIP.
Definition _fipnc : Z :=
  Z.lor (Z.lor (Z.lor F_INITIALIZE F_PERSIST) F_NOSTRIP) F_CONVERT.

(** ** The configuration table

    One [item] per table line, in table order; an [#if]/[#ifdef] block is a
    conditional segment. *)

Definition cfgArray (b : build) : list cfgItem_t :=
    [ item "sys" "fb" _fipn 2 "cs.fw_build";
      item "sys" "fbs" _fn 2 "cs.null";
      item "sys" "fv" _fipn 2 "cs.fw_version";
      item "sys" "hp" _fipn 0 "cs.hw_platform";
      item "sys" "hv" _fipn 0 "cs.hw_version";
      item "sys" "id" _fn 0 "cs.null";
      item "" "stat" _f0 0 "cs.null";
      item "" "n" _fi 0 "cm.gm.linenum";
      item "" "line" _fi 0 "cm.gm.linenum";
      item "" "vel" _f0 2 "cs.null";
      item "" "feed" _f0 2 "cs.null";
      item "" "macs" _f0 0 "cs.null";
      item "" "cycs" _f0 0 "cs.null";
      item "" "mots" _f0 0 "cs.null";
      item "" "hold" _f0 0 "cs.null";
      item "" "unit" _f0 0 "cs.null";
      item "" "coor" _f0 0 "cs.null";
      item "" "momo" _f0 0 "cs.null";
      item "" "plan" _f0 0 "cs.null";
      item "" "path" _f0 0 "cs.null";
      item "" "dist" _f0 0 "cs.null";
      item "" "admo" _f0 0 "cs.null";
      item "" "frmo" _f0 0 "cs.null";
      item "" "tool" _f0 0 "cs.null";
      item "" "g92e" _f0 0 "cm.gmx.origin_offset_enable";
      item "mpo" "mpox" _f0 3 "cs.null";
      item "mpo" "mpoy" _f0 3 "cs.null";
      item "mpo" "mpoz" _f0 3 "cs.null";
      item "mpo" "mpoa" _f0 3 "cs.null";
      item "mpo" "mpob" _f0 3 "cs.null";
      item "mpo" "mpoc" _f0 3 "cs.null";
      item "pos" "posx" _f0 3 "cs.null";
      item "pos" "posy" _f0 3 "cs.null";
      item "pos" "posz" _f0 3 "cs.null";
      item "pos" "posa" _f0 3 "cs.null";
      item "pos" "posb" _f0 3 "cs.null";
      item "pos" "posc" _f0 3 "cs.null";
      item "ofs" "ofsx" _f0 3 "cs.null";
      item "ofs" "ofsy" _f0 3 "cs.null";
      item "ofs" "ofsz" _f0 3 "cs.null";
      item "ofs" "ofsa" _f0 3 "cs.null";
      item "ofs" "ofsb" _f0 3 "cs.null";
      item "ofs" "ofsc" _f0 3 "cs.null";
      item "hom" "home" _f0 0 "cm.homing_state";
      item "hom" "homx" _f0 0 "cm.homed[AXIS_X]";
      item "hom" "homy" _f0 0 "cm.homed[AXIS_Y]";
      item "hom" "homz" _f0 0 "cm.homed[AXIS_Z]";
      item "hom" "homa" _f0 0 "cm.homed[AXIS_A]";
      item "hom" "homb" _f0 0 "cm.homed[AXIS_B]";
      item "hom" "homc" _f0 0 "cm.homed[AXIS_C]";
      item "prb" "prbe" _f0 0 "cm.probe_state";
      item "prb" "prbx" _f0 3 "cm.probe_results[AXIS_X]";
      item "prb" "prby" _f0 3 "cm.probe_results[AXIS_Y]";
      item "prb" "prbz" _f0 3 "cm.probe_results[AXIS_Z]";
      item "prb" "prba" _f0 3 "cm.probe_results[AXIS_A]";
      item "prb" "prbb" _f0 3 "cm.probe_results[AXIS_B]";
      item "prb" "prbc" _f0 3 "cm.probe_results[AXIS_C]";
      item "jog" "jogx" _f0 0 "cm.jogging_dest";
      item "jog" "jogy" _f0 0 "cm.jogging_dest";
      item "jog" "jogz" _f0 0 "cm.jogging_dest";
      item "jog" "joga" _f0 0 "cm.jogging_dest";
      item "1" "1ma" _fip 0 "st_cfg.mot[MOTOR_1].motor_map";
      item "1" "1sa" _fip 3 "st_cfg.mot[MOTOR_1].step_angle";
      item "1" "1tr" _fipc 4 "st_cfg.mot[MOTOR_1].travel_rev";
      item "1" "1mi" _fip 0 "st_cfg.mot[MOTOR_1].microsteps";
      item "1" "1po" _fip 0 "st_cfg.mot[MOTOR_1].polarity";
      item "1" "1pm" _fip 0 "st_cfg.mot[MOTOR_1].power_mode" ]
  ++
    (if __ARM b then
        [ item "1" "1pl" _fip 3 "st_cfg.mot[MOTOR_1].power_level" ]
     else [])
  ++
    (if MOTORS b >=? 2 then
        [ item "2" "2ma" _fip 0 "st_cfg.mot[MOTOR_2].motor_map";
          item "2" "2sa" _fip 3 "st_cfg.mot[MOTOR_2].step_angle";
          item "2" "2tr" _fipc 4 "st_cfg.mot[MOTOR_2].travel_rev";
          item "2" "2mi" _fip 0 "st_cfg.mot[MOTOR_2].microsteps";
          item "2" "2po" _fip 0 "st_cfg.mot[MOTOR_2].polarity";
          item "2" "2pm" _fip 0 "st_cfg.mot[MOTOR_2].power_mode" ]
      ++
        (if __ARM b then
            [ item "2" "2pl" _fip 3 "st_cfg.mot[MOTOR_2].power_level" ]
         else [])
     else [])
  ++
    (if MOTORS b >=? 3 then
        [ item "3" "3ma" _fip 0 "st_cfg.mot[MOTOR_3].motor_map";
          item "3" "3sa" _fip 3 "st_cfg.mot[MOTOR_3].step_angle";
          item "3" "3tr" _fipc 4 "st_cfg.mot[MOTOR_3].travel_rev";
          item "3" "3mi" _fip 0 "st_cfg.mot[MOTOR_3].microsteps";
          item "3" "3po" _fip 0 "st_cfg.mot[MOTOR_3].polarity";
          item "3" "3pm" _fip 0 "st_cfg.mot[MOTOR_3].power_mode" ]
      ++
        (if __ARM b then
            [ item "3" "3pl" _fip 3 "st_cfg.mot[MOTOR_3].power_level" ]
         else [])
     else [])
  ++
    (if MOTORS b >=? 4 then
        [ item "4" "4ma" _fip 0 "st_cfg.mot[MOTOR_4].motor_map";
          item "4" "4sa" _fip 3 "st_cfg.mot[MOTOR_4].step_angle";
          item "4" "4tr" _fipc 4 "st_cfg.mot[MOTOR_4].travel_rev";
          item "4" "4mi" _fip 0 "st_cfg.mot[MOTOR_4].microsteps";
          item "4" "4po" _fip 0 "st_cfg.mot[MOTOR_4].polarity";
          item "4" "4pm" _fip 0 "st_cfg.mot[MOTOR_4].power_mode" ]
      ++
        (if __ARM b then
            [ item "4" "4pl" _fip 3 "st_cfg.mot[MOTOR_4].power_level" ]
         else [])
     else [])
  ++
    (if MOTORS b >=? 5 then
        [ item "5" "5ma" _fip 0 "st_cfg.mot[MOTOR_5].motor_map";
          item "5" "5sa" _fip 3 "st_cfg.mot[MOTOR_5].step_angle";
          item "5" "5tr" _fipc 4 "st_cfg.mot[MOTOR_5].travel_rev";
          item "5" "5mi" _fip 0 "st_cfg.mot[MOTOR_5].microsteps";
          item "5" "5po" _fip 0 "st_cfg.mot[MOTOR_5].polarity";
          item "5" "5pm" _fip 0 "st_cfg.mot[MOTOR_5].power_mode" ]
      ++
        (if __ARM b then
            [ item "5" "5pl" _fip 3 "st_cfg.mot[MOTOR_5].power_level" ]
         else [])
     else [])
  ++
    (if MOTORS b >=? 6 then
        [ item "6" "6ma" _fip 0 "st_cfg.mot[MOTOR_6].motor_map";
          item "6" "6sa" _fip 3 "st_cfg.mot[MOTOR_6].step_angle";
          item "6" "6tr" _fipc 4 "st_cfg.mot[MOTOR_6].travel_rev";
          item "6" "6mi" _fip 0 "st_cfg.mot[MOTOR_6].microsteps";
          item "6" "6po" _fip 0 "st_cfg.mot[MOTOR_6].polarity";
          item "6" "6pm" _fip 0 "st_cfg.mot[MOTOR_6].power_mode" ]
      ++
        (if __ARM b then
            [ item "6" "6pl" _fip 3 "st_cfg.mot[MOTOR_6].power_level" ]
         else [])
     else [])
  ++
    [ item "x" "xam" _fip 0 "cm.a[AXIS_X].axis_mode";
      item "x" "xvm" _fipc 0 "cm.a[AXIS_X].velocity_max";
      item "x" "xfr" _fipc 0 "cm.a[AXIS_X].feedrate_max";
      item "x" "xtn" _fipc 3 "cm.a[AXIS_X].travel_min";
      item "x" "xtm" _fipc 3 "cm.a[AXIS_X].travel_max";
      item "x" "xjm" _fipc 0 "cm.a[AXIS_X].jerk_max";
      item "x" "xjh" _fipc 0 "cm.a[AXIS_X].jerk_high";
      item "x" "xjd" _fipc 4 "cs.null";
      item "x" "xhi" _fip 0 "cm.a[AXIS_X].homing_input";
      item "x" "xhd" _fip 0 "cm.a[AXIS_X].homing_dir";
      item "x" "xsv" _fipc 0 "cm.a[AXIS_X].search_velocity";
      item "x" "xlv" _fipc 2 "cm.a[AXIS_X].latch_velocity";
      item "x" "xlb" _fipc 3 "cm.a[AXIS_X].latch_backoff";
      item "x" "xzb" _fipc 3 "cm.a[AXIS_X].zero_backoff";
      item "y" "yam" _fip 0 "cm.a[AXIS_Y].axis_mode";
      item "y" "yvm" _fipc 0 "cm.a[AXIS_Y].velocity_max";
      item "y" "yfr" _fipc 0 "cm.a[AXIS_Y].feedrate_max";
      item "y" "ytn" _fipc 3 "cm.a[AXIS_Y].travel_min";
      item "y" "ytm" _fipc 3 "cm.a[AXIS_Y].travel_max";
      item "y" "yjm" _fipc 0 "cm.a[AXIS_Y].jerk_max";
      item "y" "yjh" _fipc 0 "cm.a[AXIS_Y].jerk_high";
      item "y" "yjd" _fipc 4 "cs.null";
      item "y" "yhi" _fip 0 "cm.a[AXIS_Y].homing_input";
      item "y" "yhd" _fip 0 "cm.a[AXIS_Y].homing_dir";
      item "y" "ysv" _fipc 0 "cm.a[AXIS_Y].search_velocity";
      item "y" "ylv" _fipc 2 "cm.a[AXIS_Y].latch_velocity";
      item "y" "ylb" _fipc 3 "cm.a[AXIS_Y].latch_backoff";
      item "y" "yzb" _fipc 3 "cm.a[AXIS_Y].zero_backoff";
      item "z" "zam" _fip 0 "cm.a[AXIS_Z].axis_mode";
      item "z" "zvm" _fipc 0 "cm.a[AXIS_Z].velocity_max";
      item "z" "zfr" _fipc 0 "cm.a[AXIS_Z].feedrate_max";
      item "z" "ztn" _fipc 3 "cm.a[AXIS_Z].travel_min";
      item "z" "ztm" _fipc 3 "cm.a[AXIS_Z].travel_max";
      item "z" "zjm" _fipc 0 "cm.a[AXIS_Z].jerk_max";
      item "z" "zjh" _fipc 0 "cm.a[AXIS_Z].jerk_high";
      item "z" "zjd" _fipc 4 "cs.null";
      item "z" "zhi" _fip 0 "cm.a[AXIS_Z].homing_input";
      item "z" "zhd" _fip 0 "cm.a[AXIS_Z].homing_dir";
      item "z" "zsv" _fipc 0 "cm.a[AXIS_Z].search_velocity";
      item "z" "zlv" _fipc 2 "cm.a[AXIS_Z].latch_velocity";
      item "z" "zlb" _fipc 3 "cm.a[AXIS_Z].latch_backoff";
      item "z" "zzb" _fipc 3 "cm.a[AXIS_Z].zero_backoff";
      item "a" "aam" _fip 0 "cm.a[AXIS_A].axis_mode";
      item "a" "avm" _fip 0 "cm.a[AXIS_A].velocity_max";
      item "a" "afr" _fip 0 "cm.a[AXIS_A].feedrate_max";
      item "a" "atn" _fip 3 "cm.a[AXIS_A].travel_min";
      item "a" "atm" _fip 3 "cm.a[AXIS_A].travel_max";
      item "a" "ajm" _fip 0 "cm.a[AXIS_A].jerk_max";
      item "a" "ajh" _fip 0 "cm.a[AXIS_A].jerk_high";
      item "a" "ajd" _fipc 4 "cs.null";
      item "a" "ara" _fipc 3 "cm.a[AXIS_A].radius";
      item "a" "ahi" _fip 0 "cm.a[AXIS_A].homing_input";
      item "a" "ahd" _fip 0 "cm.a[AXIS_A].homing_dir";
      item "a" "asv" _fip 0 "cm.a[AXIS_A].search_velocity";
      item "a" "alv" _fip 2 "cm.a[AXIS_A].latch_velocity";
      item "a" "alb" _fip 3 "cm.a[AXIS_A].latch_backoff";
      item "a" "azb" _fip 3 "cm.a[AXIS_A].zero_backoff";
      item "b" "bam" _fip 0 "cm.a[AXIS_B].axis_mode";
      item "b" "bvm" _fip 0 "cm.a[AXIS_B].velocity_max";
      item "b" "bfr" _fip 0 "cm.a[AXIS_B].feedrate_max";
      item "b" "btn" _fip 3 "cm.a[AXIS_B].travel_min";
      item "b" "btm" _fip 3 "cm.a[AXIS_B].travel_max";
      item "b" "bjm" _fip 0 "cm.a[AXIS_B].jerk_max";
      item "b" "bjh" _fip 0 "cm.a[AXIS_B].jerk_high";
      item "b" "bra" _fipc 3 "cm.a[AXIS_B].radius" ]
  ++
    (if __ARM b then
        [ item "b" "bhi" _fip 0 "cm.a[AXIS_B].homing_input";
          item "b" "bhd" _fip 0 "cm.a[AXIS_B].homing_dir";
          item "b" "bsv" _fip 0 "cm.a[AXIS_B].search_velocity";
          item "b" "blv" _fip 2 "cm.a[AXIS_B].latch_velocity";
          item "b" "blb" _fip 3 "cm.a[AXIS_B].latch_backoff";
          item "b" "bzb" _fip 3 "cm.a[AXIS_B].zero_backoff" ]
     else [])
  ++
    [ item "c" "cam" _fip 0 "cm.a[AXIS_C].axis_mode";
      item "c" "cvm" _fip 0 "cm.a[AXIS_C].velocity_max";
      item "c" "cfr" _fip 0 "cm.a[AXIS_C].feedrate_max";
      item "c" "ctn" _fip 3 "cm.a[AXIS_C].travel_min";
      item "c" "ctm" _fip 3 "cm.a[AXIS_C].travel_max";
      item "c" "cjm" _fip 0 "cm.a[AXIS_C].jerk_max";
      item "c" "cjh" _fip 0 "cm.a[AXIS_C].jerk_high";
      item "c" "cra" _fipc 3 "cm.a[AXIS_C].radius" ]
  ++
    (if __ARM b then
        [ item "c" "chi" _fip 0 "cm.a[AXIS_C].homing_input";
          item "c" "chd" _fip 0 "cm.a[AXIS_C].homing_dir";
          item "c" "csv" _fip 0 "cm.a[AXIS_C].search_velocity";
          item "c" "clv" _fip 2 "cm.a[AXIS_C].latch_velocity";
          item "c" "clb" _fip 3 "cm.a[AXIS_C].latch_backoff";
          item "c" "czb" _fip 3 "cm.a[AXIS_C].zero_backoff" ]
     else [])
  ++
    [ item "di1" "di1mo" _fip 0 "d_in[0].mode";
      item "di1" "di1ac" _fip 0 "d_in[0].action";
      item "di1" "di1fn" _fip 0 "d_in[0].function";
      item "di2" "di2mo" _fip 0 "d_in[1].mode";
      item "di2" "di2ac" _fip 0 "d_in[1].action";
      item "di2" "di2fn" _fip 0 "d_in[1].function";
      item "di3" "di3mo" _fip 0 "d_in[2].mode";
      item "di3" "di3ac" _fip 0 "d_in[2].action";
      item "di3" "di3fn" _fip 0 "d_in[2].function";
      item "di4" "di4mo" _fip 0 "d_in[3].mode";
      item "di4" "di4ac" _fip 0 "d_in[3].action";
      item "di4" "di4fn" _fip 0 "d_in[3].function";
      item "di5" "di5mo" _fip 0 "d_in[4].mode";
      item "di5" "di5ac" _fip 0 "d_in[4].action";
      item "di5" "di5fn" _fip 0 "d_in[4].function";
      item "di6" "di6mo" _fip 0 "d_in[5].mode";
      item "di6" "di6ac" _fip 0 "d_in[5].action";
      item "di6" "di6fn" _fip 0 "d_in[5].function";
      item "di7" "di7mo" _fip 0 "d_in[6].mode";
      item "di7" "di7ac" _fip 0 "d_in[6].action";
      item "di7" "di7fn" _fip 0 "d_in[6].function";
      item "di8" "di8mo" _fip 0 "d_in[7].mode";
      item "di8" "di8ac" _fip 0 "d_in[7].action";
      item "di8" "di8fn" _fip 0 "d_in[7].function" ]
  ++
    (if D_IN_CHANNELS b >=? 9 then
        [ item "di9" "di9mo" _fip 0 "d_in[8].mode";
          item "di9" "di9ac" _fip 0 "d_in[8].action";
          item "di9" "di9fn" _fip 0 "d_in[8].function" ]
     else [])
  ++
    [ item "in" "in1" _f0 0 "cs.null";
      item "in" "in2" _f0 0 "cs.null";
      item "in" "in3" _f0 0 "cs.null";
      item "in" "in4" _f0 0 "cs.null";
      item "in" "in5" _f0 0 "cs.null";
      item "in" "in6" _f0 0 "cs.null";
      item "in" "in7" _f0 0 "cs.null";
      item "in" "in8" _f0 0 "cs.null" ]
  ++
    (if D_IN_CHANNELS b >=? 9 then
        [ item "in" "in9" _f0 0 "cs.null" ]
     else [])
  ++
    [ item "p1" "p1frq" _fip 0 "pwm.c[PWM_1].frequency";
      item "p1" "p1csl" _fip 0 "pwm.c[PWM_1].cw_speed_lo";
      item "p1" "p1csh" _fip 0 "pwm.c[PWM_1].cw_speed_hi";
      item "p1" "p1cpl" _fip 3 "pwm.c[PWM_1].cw_phase_lo";
      item "p1" "p1cph" _fip 3 "pwm.c[PWM_1].cw_phase_hi";
      item "p1" "p1wsl" _fip 0 "pwm.c[PWM_1].ccw_speed_lo";
      item "p1" "p1wsh" _fip 0 "pwm.c[PWM_1].ccw_speed_hi";
      item "p1" "p1wpl" _fip 3 "pwm.c[PWM_1].ccw_phase_lo";
      item "p1" "p1wph" _fip 3 "pwm.c[PWM_1].ccw_phase_hi";
      item "p1" "p1pof" _fip 3 "pwm.c[PWM_1].phase_off";
      item "g54" "g54x" _fipc 3 "cm.offset[G54][AXIS_X]";
      item "g54" "g54y" _fipc 3 "cm.offset[G54][AXIS_Y]";
      item "g54" "g54z" _fipc 3 "cm.offset[G54][AXIS_Z]";
      item "g54" "g54a" _fip 3 "cm.offset[G54][AXIS_A]";
      item "g54" "g54b" _fip 3 "cm.offset[G54][AXIS_B]";
      item "g54" "g54c" _fip 3 "cm.offset[G54][AXIS_C]";
      item "g55" "g55x" _fipc 3 "cm.offset[G55][AXIS_X]";
      item "g55" "g55y" _fipc 3 "cm.offset[G55][AXIS_Y]";
      item "g55" "g55z" _fipc 3 "cm.offset[G55][AXIS_Z]";
      item "g55" "g55a" _fip 3 "cm.offset[G55][AXIS_A]";
      item "g55" "g55b" _fip 3 "cm.offset[G55][AXIS_B]";
      item "g55" "g55c" _fip 3 "cm.offset[G55][AXIS_C]";
      item "g56" "g56x" _fipc 3 "cm.offset[G56][AXIS_X]";
      item "g56" "g56y" _fipc 3 "cm.offset[G56][AXIS_Y]";
      item "g56" "g56z" _fipc 3 "cm.offset[G56][AXIS_Z]";
      item "g56" "g56a" _fip 3 "cm.offset[G56][AXIS_A]";
      item "g56" "g56b" _fip 3 "cm.offset[G56][AXIS_B]";
      item "g56" "g56c" _fip 3 "cm.offset[G56][AXIS_C]";
      item "g57" "g57x" _fipc 3 "cm.offset[G57][AXIS_X]";
      item "g57" "g57y" _fipc 3 "cm.offset[G57][AXIS_Y]";
      item "g57" "g57z" _fipc 3 "cm.offset[G57][AXIS_Z]";
      item "g57" "g57a" _fip 3 "cm.offset[G57][AXIS_A]";
      item "g57" "g57b" _fip 3 "cm.offset[G57][AXIS_B]";
      item "g57" "g57c" _fip 3 "cm.offset[G57][AXIS_C]";
      item "g58" "g58x" _fipc 3 "cm.offset[G58][AXIS_X]";
      item "g58" "g58y" _fipc 3 "cm.offset[G58][AXIS_Y]";
      item "g58" "g58z" _fipc 3 "cm.offset[G58][AXIS_Z]";
      item "g58" "g58a" _fip 3 "cm.offset[G58][AXIS_A]";
      item "g58" "g58b" _fip 3 "cm.offset[G58][AXIS_B]";
      item "g58" "g58c" _fip 3 "cm.offset[G58][AXIS_C]";
      item "g59" "g59x" _fipc 3 "cm.offset[G59][AXIS_X]";
      item "g59" "g59y" _fipc 3 "cm.offset[G59][AXIS_Y]";
      item "g59" "g59z" _fipc 3 "cm.offset[G59][AXIS_Z]";
      item "g59" "g59a" _fip 3 "cm.offset[G59][AXIS_A]";
      item "g59" "g59b" _fip 3 "cm.offset[G59][AXIS_B]";
      item "g59" "g59c" _fip 3 "cm.offset[G59][AXIS_C]";
      item "g92" "g92x" _fic 3 "cm.gmx.origin_offset[AXIS_X]";
      item "g92" "g92y" _fic 3 "cm.gmx.origin_offset[AXIS_Y]";
      item "g92" "g92z" _fic 3 "cm.gmx.origin_offset[AXIS_Z]";
      item "g92" "g92a" _fi 3 "cm.gmx.origin_offset[AXIS_A]";
      item "g92" "g92b" _fi 3 "cm.gmx.origin_offset[AXIS_B]";
      item "g92" "g92c" _fi 3 "cm.gmx.origin_offset[AXIS_C]";
      item "g28" "g28x" _fic 3 "cm.gmx.g28_position[AXIS_X]";
      item "g28" "g28y" _fic 3 "cm.gmx.g28_position[AXIS_Y]";
      item "g28" "g28z" _fic 3 "cm.gmx.g28_position[AXIS_Z]";
      item "g28" "g28a" _fi 3 "cm.gmx.g28_position[AXIS_A]";
      item "g28" "g28b" _fi 3 "cm.gmx.g28_position[AXIS_B]";
      item "g28" "g28c" _fi 3 "cm.gmx.g28_position[AXIS_C]";
      item "g30" "g30x" _fic 3 "cm.gmx.g30_position[AXIS_X]";
      item "g30" "g30y" _fic 3 "cm.gmx.g30_position[AXIS_Y]";
      item "g30" "g30z" _fic 3 "cm.gmx.g30_position[AXIS_Z]";
      item "g30" "g30a" _fi 3 "cm.gmx.g30_position[AXIS_A]";
      item "g30" "g30b" _fi 3 "cm.gmx.g30_position[AXIS_B]";
      item "g30" "g30c" _fi 3 "cm.gmx.g30_position[AXIS_C]";
      item "jid" "jida" _f0 0 "cfg.job_id[0]";
      item "jid" "jidb" _f0 0 "cfg.job_id[1]";
      item "jid" "jidc" _f0 0 "cfg.job_id[2]";
      item "jid" "jidd" _f0 0 "cfg.job_id[3]";
      item "sys" "ja" _fipn 2 "cm.junction_aggression";
      item "sys" "ct" _fipnc 4 "cm.chordal_tolerance";
      item "sys" "sl" _fipn 0 "cm.soft_limit_enable";
      item "sys" "lim" _fipn 0 "cm.limit_enable";
      item "sys" "saf" _fipn 0 "cm.safety_interlock_enable";
      item "sys" "mt" _fipn 2 "st_cfg.motor_power_timeout";
      item "sys" "m48e" _fipn 0 "cm.gmx.m48_enable";
      item "sys" "mfoe" _fipn 0 "cm.gmx.mfo_enable";
      item "sys" "mfo" _fipn 3 "cm.gmx.mfo_factor";
      item "sys" "mtoe" _fipn 0 "cm.gmx.mto_enable";
      item "sys" "mto" _fipn 3 "cm.gmx.mto_factor";
      item "sys" "spep" _fipn 0 "spindle.enable_polarity";
      item "sys" "spdp" _fipn 0 "spindle.dir_polarity";
      item "sys" "spph" _fipn 0 "spindle.pause_on_hold";
      item "sys" "spdw" _fipn 2 "spindle.dwell_seconds";
      item "sys" "ssoe" _fipn 0 "spindle.sso_enable";
      item "sys" "sso" _fipn 3 "spindle.sso_factor";
      item "" "spe" _f0 0 "spindle.enable";
      item "" "spd" _f0 0 "spindle.direction";
      item "" "sps" _f0 0 "spindle.speed";
      item "sys" "cofp" _fipn 0 "coolant.flood_polarity";
      item "sys" "comp" _fipn 0 "coolant.mist_polarity";
      item "sys" "coph" _fipn 0 "coolant.pause_on_hold";
      item "" "com" _f0 0 "coolant.mist_enable";
      item "" "cof" _f0 0 "coolant.flood_enable" ]
  ++
    (if __TEXT_MODE b then
        [ item "sys" "tv" _fipn 0 "txt.text_verbosity" ]
     else [])
  ++
    [ item "sys" "ej" _fipn 0 "cs.comm_mode";
      item "sys" "jv" _fipn 0 "js.json_verbosity";
      item "sys" "js" _fipn 0 "js.json_syntax";
      item "sys" "qv" _fipn 0 "qr.queue_report_verbosity";
      item "sys" "sv" _fipn 0 "sr.status_report_verbosity";
      item "sys" "si" _fipn 0 "sr.status_report_interval" ]
  ++
    (if __AVR b then
        [ item "sys" "ec" _fipn 0 "cfg.enable_cr";
          item "sys" "ee" _fipn 0 "cfg.enable_echo";
          item "sys" "ex" _fipn 0 "cfg.enable_flow_control";
          item "sys" "baud" _fn 0 "cfg.usb_baud_rate" ]
     else [])
  ++
    [ item "sys" "gpl" _fipn 0 "cm.default_select_plane";
      item "sys" "gun" _fipn 0 "cm.default_units_mode";
      item "sys" "gco" _fipn 0 "cm.default_coord_system";
      item "sys" "gpa" _fipn 0 "cm.default_path_control";
      item "sys" "gdi" _fipn 0 "cm.default_distance_mode";
      item "" "gc" _f0 0 "cs.null";
      item "" "sr" _f0 0 "cs.null";
      item "" "qr" _f0 0 "cs.null";
      item "" "qi" _f0 0 "cs.null";
      item "" "qo" _f0 0 "cs.null";
      item "" "er" _f0 0 "cs.null";
      item "" "qf" _f0 0 "cs.null";
      item "" "rx" _f0 0 "cs.null";
      item "" "msg" _f0 0 "cs.null";
      item "" "alarm" _f0 0 "cs.null";
      item "" "panic" _f0 0 "cs.null";
      item "" "shutd" _f0 0 "cs.null";
      item "" "clear" _f0 0 "cs.null";
      item "" "clr" _f0 0 "cs.null";
      item "" "tick" _f0 0 "cs.null";
      item "" "me" _f0 0 "cs.null";
      item "" "md" _f0 0 "cs.null";
      item "" "test" _f0 0 "cs.null";
      item "" "defa" _f0 0 "cs.null" ]
  ++
    (if __ARM b then
        [ item "" "flash" _f0 0 "cs.null" ]
     else
        [ item "" "boot" _f0 0 "cs.null" ])
  ++
    (if __HELP_SCREENS b then
        [ item "" "help" _f0 0 "cs.null";
          item "" "h" _f0 0 "cs.null" ]
     else [])
  ++
    (if __USER_DATA b then
        [ item "uda" "uda0" _fip 0 "cfg.user_data_a[0]";
          item "uda" "uda1" _fip 0 "cfg.user_data_a[1]";
          item "uda" "uda2" _fip 0 "cfg.user_data_a[2]";
          item "uda" "uda3" _fip 0 "cfg.user_data_a[3]";
          item "udb" "udb0" _fip 0 "cfg.user_data_b[0]";
          item "udb" "udb1" _fip 0 "cfg.user_data_b[1]";
          item "udb" "udb2" _fip 0 "cfg.user_data_b[2]";
          item "udb" "udb3" _fip 0 "cfg.user_data_b[3]";
          item "udc" "udc0" _fip 0 "cfg.user_data_c[0]";
          item "udc" "udc1" _fip 0 "cfg.user_data_c[1]";
          item "udc" "udc2" _fip 0 "cfg.user_data_c[2]";
          item "udc" "udc3" _fip 0 "cfg.user_data_c[3]";
          item "udd" "udd0" _fip 0 "cfg.user_data_d[0]";
          item "udd" "udd1" _fip 0 "cfg.user_data_d[1]";
          item "udd" "udd2" _fip 0 "cfg.user_data_d[2]";
          item "udd" "udd3" _fip 0 "cfg.user_data_d[3]" ]
     else [])
  ++
    (if __DIAGNOSTIC_PARAMETERS b then
        [ item "" "clc" _f0 0 "cs.null";
          item "" "_dam" _f0 0 "cs.null";
          item "_te" "_tex" _f0 2 "mr.target[AXIS_X]";
          item "_te" "_tey" _f0 2 "mr.target[AXIS_Y]";
          item "_te" "_tez" _f0 2 "mr.target[AXIS_Z]";
          item "_te" "_tea" _f0 2 "mr.target[AXIS_A]";
          item "_te" "_teb" _f0 2 "mr.target[AXIS_B]";
          item "_te" "_tec" _f0 2 "mr.target[AXIS_C]";
          item "_tr" "_trx" _f0 2 "mr.gm.target[AXIS_X]";
          item "_tr" "_try" _f0 2 "mr.gm.target[AXIS_Y]";
          item "_tr" "_trz" _f0 2 "mr.gm.target[AXIS_Z]";
          item "_tr" "_tra" _f0 2 "mr.gm.target[AXIS_A]";
          item "_tr" "_trb" _f0 2 "mr.gm.target[AXIS_B]";
          item "_tr" "_trc" _f0 2 "mr.gm.target[AXIS_C]" ]
      ++
        (if MOTORS b >=? 1 then
            [ item "_ts" "_ts1" _f0 2 "mr.target_steps[MOTOR_1]";
              item "_ps" "_ps1" _f0 2 "mr.position_steps[MOTOR_1]";
              item "_cs" "_cs1" _f0 2 "mr.commanded_steps[MOTOR_1]";
              item "_es" "_es1" _f0 2 "mr.encoder_steps[MOTOR_1]";
              item "_xs" "_xs1" _f0 2 "st_pre.mot[MOTOR_1].corrected_steps";
              item "_fe" "_fe1" _f0 2 "mr.following_error[MOTOR_1]" ]
         else [])
      ++
        (if MOTORS b >=? 2 then
            [ item "_ts" "_ts2" _f0 2 "mr.target_steps[MOTOR_2]";
              item "_ps" "_ps2" _f0 2 "mr.position_steps[MOTOR_2]";
              item "_cs" "_cs2" _f0 2 "mr.commanded_steps[MOTOR_2]";
              item "_es" "_es2" _f0 2 "mr.encoder_steps[MOTOR_2]";
              item "_xs" "_xs2" _f0 2 "st_pre.mot[MOTOR_2].corrected_steps";
              item "_fe" "_fe2" _f0 2 "mr.following_error[MOTOR_2]" ]
         else [])
      ++
        (if MOTORS b >=? 3 then
            [ item "_ts" "_ts3" _f0 2 "mr.target_steps[MOTOR_3]";
              item "_ps" "_ps3" _f0 2 "mr.position_steps[MOTOR_3]";
              item "_cs" "_cs3" _f0 2 "mr.commanded_steps[MOTOR_3]";
              item "_es" "_es3" _f0 2 "mr.encoder_steps[MOTOR_3]";
              item "_xs" "_xs3" _f0 2 "st_pre.mot[MOTOR_3].corrected_steps";
              item "_fe" "_fe3" _f0 2 "mr.following_error[MOTOR_3]" ]
         else [])
      ++
        (if MOTORS b >=? 4 then
            [ item "_ts" "_ts4" _f0 2 "mr.target_steps[MOTOR_4]";
              item "_ps" "_ps4" _f0 2 "mr.position_steps[MOTOR_4]";
              item "_cs" "_cs4" _f0 2 "mr.commanded_steps[MOTOR_4]";
              item "_es" "_es4" _f0 2 "mr.encoder_steps[MOTOR_4]";
              item "_xs" "_xs4" _f0 2 "st_pre.mot[MOTOR_4].corrected_steps";
              item "_fe" "_fe4" _f0 2 "mr.following_error[MOTOR_4]" ]
         else [])
      ++
        (if MOTORS b >=? 5 then
            [ item "_ts" "_ts5" _f0 2 "mr.target_steps[MOTOR_5]";
              item "_ps" "_ps5" _f0 2 "mr.position_steps[MOTOR_5]";
              item "_cs" "_cs5" _f0 2 "mr.commanded_steps[MOTOR_5]";
              item "_es" "_es5" _f0 2 "mr.encoder_steps[MOTOR_5]";
              item "_xs" "_xs6" _f0 2 "st_pre.mot[MOTOR_5].corrected_steps";
              item "_fe" "_fe5" _f0 2 "mr.following_error[MOTOR_5]" ]
         else [])
      ++
        (if MOTORS b >=? 6 then
            [ item "_ts" "_ts6" _f0 2 "mr.target_steps[MOTOR_6]";
              item "_ps" "_ps6" _f0 2 "mr.position_steps[MOTOR_6]";
              item "_cs" "_cs6" _f0 2 "mr.commanded_steps[MOTOR_6]";
              item "_es" "_es6" _f0 2 "mr.encoder_steps[MOTOR_6]";
              item "_xs" "_xs5" _f0 2 "st_pre.mot[MOTOR_6].corrected_steps";
              item "_fe" "_fe6" _f0 2 "mr.following_error[MOTOR_6]" ]
         else [])
     else [])
  ++
    [ item "" "se00" _fp 0 "sr.status_report_list[0]";
      item "" "se01" _fp 0 "sr.status_report_list[1]";
      item "" "se02" _fp 0 "sr.status_report_list[2]";
      item "" "se03" _fp 0 "sr.status_report_list[3]";
      item "" "se04" _fp 0 "sr.status_report_list[4]";
      item "" "se05" _fp 0 "sr.status_report_list[5]";
      item "" "se06" _fp 0 "sr.status_report_list[6]";
      item "" "se07" _fp 0 "sr.status_report_list[7]";
      item "" "se08" _fp 0 "sr.status_report_list[8]";
      item "" "se09" _fp 0 "sr.status_report_list[9]";
      item "" "se10" _fp 0 "sr.status_report_list[10]";
      item "" "se11" _fp 0 "sr.status_report_list[11]";
      item "" "se12" _fp 0 "sr.status_report_list[12]";
      item "" "se13" _fp 0 "sr.status_report_list[13]";
      item "" "se14" _fp 0 "sr.status_report_list[14]";
      item "" "se15" _fp 0 "sr.status_report_list[15]";
      item "" "se16" _fp 0 "sr.status_report_list[16]";
      item "" "se17" _fp 0 "sr.status_report_list[17]";
      item "" "se18" _fp 0 "sr.status_report_list[18]";
      item "" "se19" _fp 0 "sr.status_report_list[19]";
      item "" "se20" _fp 0 "sr.status_report_list[20]";
      item "" "se21" _fp 0 "sr.status_report_list[21]";
      item "" "se22" _fp 0 "sr.status_report_list[22]";
      item "" "se23" _fp 0 "sr.status_report_list[23]";
      item "" "se24" _fp 0 "sr.status_report_list[24]";
      item "" "se25" _fp 0 "sr.status_report_list[25]";
      item "" "se26" _fp 0 "sr.status_report_list[26]";
      item "" "se27" _fp 0 "sr.status_report_list[27]";
      item "" "se28" _fp 0 "sr.status_report_list[28]";
      item "" "se29" _fp 0 "sr.status_report_list[29]";
      item "" "se30" _fp 0 "sr.status_report_list[30]";
      item "" "se31" _fp 0 "sr.status_report_list[31]";
      item "" "se32" _fp 0 "sr.status_report_list[32]";
      item "" "se33" _fp 0 "sr.status_report_list[33]";
      item "" "se34" _fp 0 "sr.status_report_list[34]";
      item "" "se35" _fp 0 "sr.status_report_list[35]";
      item "" "se36" _fp 0 "sr.status_report_list[36]";
      item "" "se37" _fp 0 "sr.status_report_list[37]";
      item "" "se38" _fp 0 "sr.status_report_list[38]";
      item "" "se39" _fp 0 "sr.status_report_list[39]";
      item "" "sys" _f0 0 "cs.null";
      item "" "p1" _f0 0 "cs.null";
      item "" "1" _f0 0 "cs.null";
      item "" "2" _f0 0 "cs.null";
      item "" "3" _f0 0 "cs.null";
      item "" "4" _f0 0 "cs.null" ]
  ++
    (if MOTORS b >=? 5 then
        [ item "" "5" _f0 0 "cs.null" ]
     else [])
  ++
    (if MOTORS b >=? 6 then
        [ item "" "6" _f0 0 "cs.null" ]
     else [])
  ++
    [ item "" "x" _f0 0 "cs.null";
      item "" "y" _f0 0 "cs.null";
      item "" "z" _f0 0 "cs.null";
      item "" "a" _f0 0 "cs.null";
      item "" "b" _f0 0 "cs.null";
      item "" "c" _f0 0 "cs.null";
      item "" "in" _f0 0 "cs.null";
      item "" "di1" _f0 0 "cs.null";
      item "" "di2" _f0 0 "cs.null";
      item "" "di3" _f0 0 "cs.null";
      item "" "di4" _f0 0 "cs.null";
      item "" "di5" _f0 0 "cs.null";
      item "" "di6" _f0 0 "cs.null";
      item "" "di7" _f0 0 "cs.null";
      item "" "di8" _f0 0 "cs.null";
      item "" "di9" _f0 0 "cs.null";
      item "" "g54" _f0 0 "cs.null";
      item "" "g55" _f0 0 "cs.null";
      item "" "g56" _f0 0 "cs.null";
      item "" "g57" _f0 0 "cs.null";
      item "" "g58" _f0 0 "cs.null";
      item "" "g59" _f0 0 "cs.null";
      item "" "g92" _f0 0 "cs.null";
      item "" "g28" _f0 0 "cs.null";
      item "" "g30" _f0 0 "cs.null";
      item "" "mpo" _f0 0 "cs.null";
      item "" "pos" _f0 0 "cs.null";
      item "" "ofs" _f0 0 "cs.null";
      item "" "hom" _f0 0 "cs.null";
      item "" "prb" _f0 0 "cs.null";
      item "" "pwr" _f0 0 "cs.null";
      item "" "jog" _f0 0 "cs.null";
      item "" "jid" _f0 0 "cs.null" ]
  ++
    (if __USER_DATA b then
        [ item "" "uda" _f0 0 "cs.null";
          item "" "udb" _f0 0 "cs.null";
          item "" "udc" _f0 0 "cs.null";
          item "" "udd" _f0 0 "cs.null" ]
     else [])
  ++
    (if __DIAGNOSTIC_PARAMETERS b then
        [ item "" "_te" _f0 0 "cs.null";
          item "" "_tr" _f0 0 "cs.null";
          item "" "_ts" _f0 0 "cs.null";
          item "" "_ps" _f0 0 "cs.null";
          item "" "_cs" _f0 0 "cs.null";
          item "" "_es" _f0 0 "cs.null";
          item "" "_xs" _f0 0 "cs.null";
          item "" "_fe" _f0 0 "cs.null" ]
     else [])
  ++
    [ item "" "m" _f0 0 "cs.null";
      item "" "q" _f0 0 "cs.null";
      item "" "o" _f0 0 "cs.null";
      item "" "di" _f0 0 "cs.null";
      item "" "$" _f0 0 "cs.null" ].

(** ** Boundary constants derived from the table *)

Definition NV_COUNT_UBER_GROUPS : Z := 5.
Definition FIXED_GROUPS : Z := 39.

Definition MOTOR_GROUP_5 (b : build) : Z := if MOTORS b >=? 5 then 1 else 0.
Definition MOTOR_GROUP_6 (b : build) : Z := if MOTORS b >=? 6 then 1 else 0.
Definition USER_DATA_GROUPS (b : build) : Z := if __USER_DATA b then 4 else 0.
Definition DIAGNOSTIC_GROUPS (b : build) : Z :=
  if __DIAGNOSTIC_PARAMETERS b then 8 else 0.

Definition NV_COUNT_GROUPS (b : build) : Z :=
  FIXED_GROUPS + MOTOR_GROUP_5 b + MOTOR_GROUP_6 b
  + USER_DATA_GROUPS b + DIAGNOSTIC_GROUPS b.

(** [sizeof] yields a [size_t], so the subtractions below are unsigned and
    wrap at its width: 16 bits on the AVR, 32 bits otherwise. *)
Definition size_t_bits (b : build) : Z := if __AVR b then 16 else 32.
Definition size_t_wrap (b : build) (z : Z) : Z := z mod 2 ^ size_t_bits b.

(** [index_t] is the 16-bit unsigned type the table's caveats ask for. *)
Definition index_t_wrap (z : Z) : Z := z mod 2 ^ 16.

Definition NV_INDEX_MAX (b : build) : Z := Z.of_nat (length (cfgArray b)).

Definition NV_INDEX_END_SINGLES (b : build) : Z :=
  size_t_wrap b
    (NV_INDEX_MAX b - NV_COUNT_UBER_GROUPS - NV_COUNT_GROUPS b
     - NV_STATUS_REPORT_LEN b).

Definition NV_INDEX_START_GROUPS (b : build) : Z :=
  size_t_wrap b (NV_INDEX_MAX b - NV_COUNT_UBER_GROUPS - NV_COUNT_GROUPS b).

Definition NV_INDEX_START_UBER_GROUPS (b : build) : Z :=
  size_t_wrap b (NV_INDEX_MAX b - NV_COUNT_UBER_GROUPS).

Definition nv_index_max (b : build) : Z := index_t_wrap (NV_INDEX_MAX b).

Definition nv_index_is_single (b : build) (index : Z) : bool :=
  if index <=? NV_INDEX_END_SINGLES b then true else false.

Definition nv_index_is_group (b : build) (index : Z) : bool :=
  if (index >=? NV_INDEX_START_GROUPS b)
     && (index <? NV_INDEX_START_UBER_GROUPS b)
  then true else false.

Definition nv_index_lt_groups (b : build) (index : Z) : bool :=
  if index <=? NV_INDEX_START_GROUPS b then true else false.

(** ** Transient value objects and the machine state *)

Record nvObj_t : Type := mk_nvObj {
  index : Z;
  valuetype : valueType;
  precision : Z;
  value : float;
  group : string;
  token : string
}.

Definition set_index (i : Z) (o : nvObj_t) : nvObj_t :=
  mk_nvObj i (valuetype o) (precision o) (value o) (group o) (token o).
Definition set_valuetype (t : valueType) (o : nvObj_t) : nvObj_t :=
  mk_nvObj (index o) t (precision o) (value o) (group o) (token o).
Definition set_precision (p : Z) (o : nvObj_t) : nvObj_t :=
  mk_nvObj (index o) (valuetype o) p (value o) (group o) (token o).
Definition set_value (v : float) (o : nvObj_t) : nvObj_t :=
  mk_nvObj (index o) (valuetype o) (precision o) v (group o) (token o).
Definition set_token (t : string) (o : nvObj_t) : nvObj_t :=
  mk_nvObj (index o) (valuetype o) (precision o) (value o) (group o) t.

(** An [nvObj_t *] is an address; the objects live in a pool indexed by
    address. *)
Definition ptr : Type := Z.
Definition pool : Type := ptr -> nvObj_t.

Definition pool_set (p : ptr) (o : nvObj_t) (l : pool) : pool :=
  fun q => if q =? p then o else l q.

(** Backing storage: the cells the table's targets point to, by lvalue. *)
Definition storage : Type := string -> float.

Definition storage_set (t : string) (v : float) (s : storage) : storage :=
  fun u => if String.eqb u t then v else s u.

(** Calls into the other modules, in the order they are made.  A fetch
    records the token (and index) of the object it is handed. *)
Inductive call : Type :=
  | Call_nv_reset_nv_list
  | Call_nv_get_index (grp tok : string)
  | Call_nv_get_nvObj (tok : string) (idx : Z)
  | Call_get_grp (tok : string)
  | Call_nv_print_list (status : stat_t) (text_flags : textFormats)
      (json_flags : jsonFormats)
  | Call_nv_add_conditional_message (msg : string).

Record world : Type := mk_world {
  nvl : pool;
  mem : storage;
  units_mode : cmUnitsMode;
  xio_usb_baud_rate : Z;
  xio_usb_baud_flag : bool;
  calls : list call
}.

Definition set_nvl (l : pool) (w : world) : world :=
  mk_world l (mem w) (units_mode w) (xio_usb_baud_rate w)
    (xio_usb_baud_flag w) (calls w).
Definition set_mem (s : storage) (w : world) : world :=
  mk_world (nvl w) s (units_mode w) (xio_usb_baud_rate w)
    (xio_usb_baud_flag w) (calls w).
Definition set_xio_usb_baud_rate (r : Z) (w : world) : world :=
  mk_world (nvl w) (mem w) (units_mode w) r (xio_usb_baud_flag w) (calls w).
Definition set_xio_usb_baud_flag (f : bool) (w : world) : world :=
  mk_world (nvl w) (mem w) (units_mode w) (xio_usb_baud_rate w) f (calls w).
Definition add_call (c : call) (w : world) : world :=
  mk_world (nvl w) (mem w) (units_mode w) (xio_usb_baud_rate w)
    (xio_usb_baud_flag w) (calls w ++ [c]).

(** The functions of the generic configuration module (config.cpp) that
    config_app.cpp calls, and the address [nv_body] of the first body
    object.  Each function may rewrite the object pool (the fetches after
    reading the whole state); none of them touches backing storage, the
    unit mode or the serial settings.  The wrappers below record every
    call. *)
Class Collaborators : Type := {
  nv_body : ptr;
  nv_get_index_fx : string -> string -> Z;
  nv_reset_nv_list_fx : pool -> pool;
  nv_get_nvObj_fx : ptr -> world -> pool;
  get_grp_fx : ptr -> world -> pool;
  nv_add_conditional_message_fx : string -> pool -> pool
}.

(** ** A state monad with undefined behaviour and fuel *)

Inductive outcome (A : Type) : Type :=
  | Ok (a : A) (w : world)
  | Undefined
  | OutOfFuel.

Arguments Ok {A} a w.
Arguments Undefined {A}.
Arguments OutOfFuel {A}.

Definition M (A : Type) : Type := world -> outcome A.

Definition ret {A : Type} (a : A) : M A := fun w => Ok a w.

Definition bind {A B : Type} (m : M A) (f : A -> M B) : M B :=
  fun w =>
    match m w with
    | Ok a w' => f a w'
    | Undefined => Undefined
    | OutOfFuel => OutOfFuel
    end.

Declare Scope monad_scope.
Delimit Scope monad_scope with monad.
Notation "x <- m ;; k" := (bind m (fun x => k))
  (at level 61, m at next level, right associativity) : monad_scope.
Notation "m ;; k" := (bind m (fun _ => k))
  (at level 61, right associativity) : monad_scope.
Local Open Scope monad_scope.

Definition undefined {A : Type} : M A := fun _ => Undefined.

Definition load (nv : ptr) : M nvObj_t := fun w => Ok (nvl w nv) w.

Definition modify (nv : ptr) (f : nvObj_t -> nvObj_t) : M unit :=
  fun w => Ok tt (set_nvl (pool_set nv (f (nvl w nv)) (nvl w)) w).

Definition write_target (t : string) (v : float) : M unit :=
  fun w => Ok tt (set_mem (storage_set t v (mem w)) w).

Definition cm_get_units_mode : M cmUnitsMode := fun w => Ok (units_mode w) w.

(** [GET_TABLE_WORD]/[GET_TABLE_BYTE]: the descriptor at [nv->index]; the
    table is read without a bounds check. *)
Definition descriptor_at (b : build) (i : Z) : option cfgItem_t :=
  if i <? 0 then None else nth_error (cfgArray b) (Z.to_nat i).

Definition GET_TABLE (b : build) (nv : ptr) : M cfgItem_t :=
  fun w =>
    match descriptor_at b (index (nvl w nv)) with
    | Some d => Ok d w
    | None => Undefined
    end.

Section Calls.
Context {C : Collaborators}.

Definition nv_reset_nv_list : M unit :=
  fun w => Ok tt (add_call Call_nv_reset_nv_list
                    (set_nvl (nv_reset_nv_list_fx (nvl w)) w)).

Definition nv_get_nvObj (nv : ptr) : M unit :=
  fun w =>
    let o := nvl w nv in
    Ok tt (add_call (Call_nv_get_nvObj (token o) (index o))
             (set_nvl (nv_get_nvObj_fx nv w) w)).

Definition get_grp (nv : ptr) : M unit :=
  fun w =>
    Ok tt (add_call (Call_get_grp (token (nvl w nv)))
             (set_nvl (get_grp_fx nv w) w)).

Definition nv_print_list (status : stat_t) (text_flags : textFormats)
    (json_flags : jsonFormats) : M unit :=
  fun w => Ok tt (add_call (Call_nv_print_list status text_flags json_flags) w).

Definition nv_add_conditional_message (msg : string) : M unit :=
  fun w =>
    Ok tt (add_call (Call_nv_add_conditional_message msg)
             (set_nvl (nv_add_conditional_message_fx msg (nvl w)) w)).

Definition nv_get_index (grp tok : string) : M Z :=
  fun w =>
    Ok (nv_get_index_fx grp tok) (add_call (Call_nv_get_index grp tok) w).
End Calls.

(** ** C strings *)

Definition NUL : ascii := "000"%char.

(** The characters of a C string: those before the first NUL. *)
Fixpoint cstring (s : string) : string :=
  match s with
  | EmptyString => EmptyString
  | String c s' => if (c =? NUL)%char then EmptyString else String c (cstring s')
  end.

Definition uchar (c : ascii) : Z := Z.of_N (N_of_ascii c).

Fixpoint strcmp (a b : string) : Z :=
  match a, b with
  | EmptyString, EmptyString => 0
  | EmptyString, String d _ => 0 - uchar d
  | String c _, EmptyString => uchar c - 0
  | String c a', String d b' =>
      if (c =? d)%char
      then if (c =? NUL)%char then 0 else strcmp a' b'
      else uchar c - uchar d
  end.

(** [strncpy(dst, src, n)] into a zeroed buffer of more than [n] bytes:
    the first [n] characters of the source string. *)
Fixpoint strncpy (src : string) (n : nat) : string :=
  match n, src with
  | O, _ => EmptyString
  | S _, EmptyString => EmptyString
  | S n', String c s' =>
      if (c =? NUL)%char then EmptyString else String c (strncpy s' n')
  end.

(** [list[i][0] == NUL] *)
Definition first_is_NUL (s : string) : bool :=
  match s with
  | EmptyString => true
  | String c _ => (c =? NUL)%char
  end.

(** ** Unit conversion *)

Definition set_flu (b : build) (nv : ptr) : M stat_t :=
  units <- cm_get_units_mode ;;
  (if cmUnitsMode_eqb units INCHES
   then modify nv (fun o => set_value (fmul (value o) MM_PER_INCH) o)
   else ret tt) ;;
  d <- GET_TABLE b nv ;;
  o <- load nv ;;
  write_target (cfg_target d) (value o) ;;
  modify nv (set_precision (cfg_precision d)) ;;
  modify nv (set_valuetype TYPE_FLOAT) ;;
  ret STAT_OK.

Definition preprocess_float (b : build) (nv : ptr) : M unit :=
  o <- load nv ;;
  if isnan (value o) || isinf (value o) then ret tt
  else
    d <- GET_TABLE b nv ;;
    if negb (Z.land (cfg_flags d) F_CONVERT =? 0) then
      units <- cm_get_units_mode ;;
      if cmUnitsMode_eqb units INCHES
      then modify nv (fun o => set_value (fmul (value o) INCHES_PER_MM) o)
      else ret tt
    else ret tt.

(** ** Group-prefix exception rule *)

Definition nv_group_is_prefixed (group : string) : bool :=
  if strcmp "sr" group =? 0 then false
  else if strcmp "sys" group =? 0 then false
  else true.

(** ** Uber-group operations *)

Definition uint8_wrap (z : Z) : Z := z mod 2 ^ 8.

Section UberGroups.
Context {C : Collaborators}.
Variable b : build.

(** The [for] loop of [_do_group_list], from counter value [i]; the
    counter is a [uint8_t].  Reading [list[i]] past the end of the array
    is undefined. *)
Fixpoint _do_group_list_from (fuel : nat) (i : Z) (list : list string)
    : M stat_t :=
  match fuel with
  | O => fun _ => OutOfFuel
  | S fuel' =>
      if i <? NV_MAX_OBJECTS b then
        match nth_error list (Z.to_nat i) with
        | None => undefined
        | Some tok =>
            if first_is_NUL tok then ret STAT_COMPLETE
            else
              nv_reset_nv_list ;;
              let nv := nv_body in
              modify nv (set_token (strncpy tok (TOKEN_LEN b))) ;;
              o <- load nv ;;
              idx <- nv_get_index "" (token o) ;;
              modify nv (set_index idx) ;;
              nv_get_nvObj nv ;;
              nv_print_list STAT_OK TEXT_MULTILINE_FORMATTED
                JSON_RESPONSE_FORMAT ;;
              _do_group_list_from fuel' (uint8_wrap (i + 1)) list
        end
      else ret STAT_COMPLETE
  end.

Definition _do_group_list (fuel : nat) (nv : ptr) (list : list string)
    : M stat_t :=
  _do_group_list_from fuel 0 list.

(** The member list of the motors uber-group; there is a declaration
    only for two to six motors. *)
Definition motors_list : option (list string) :=
  if MOTORS b =? 2 then Some ["1"; "2"; ""]
  else if MOTORS b =? 3 then Some ["1"; "2"; "3"; ""]
  else if MOTORS b =? 4 then Some ["1"; "2"; "3"; "4"; ""]
  else if MOTORS b =? 5 then Some ["1"; "2"; "3"; "4"; "5"; ""]
  else if MOTORS b =? 6 then Some ["1"; "2"; "3"; "4"; "5"; "6"; ""]
  else None.

Definition axes_list : list string := ["x"; "y"; "z"; "a"; "b"; "c"; ""].

Definition offsets_list : list string :=
  ["g54"; "g55"; "g56"; "g57"; "g58"; "g59"; "g92"; "g28"; "g30"; ""].

Definition inputs_list : list string :=
  if D_IN_CHANNELS b <? 9
  then ["di1"; "di2"; "di3"; "di4"; "di5"; "di6"; "di7"; "di8"; ""]
  else ["di1"; "di2"; "di3"; "di4"; "di5"; "di6"; "di7"; "di8"; "di9"; ""].

Definition _do_motors (fuel : nat) (nv : ptr) : M stat_t :=
  match motors_list with
  | Some list => _do_group_list fuel nv list
  | None => undefined
  end.

Definition _do_axes (fuel : nat) (nv : ptr) : M stat_t :=
  _do_group_list fuel nv axes_list.

Definition _do_offsets (fuel : nat) (nv : ptr) : M stat_t :=
  _do_group_list fuel nv offsets_list.

Definition _do_inputs (fuel : nat) (nv : ptr) : M stat_t :=
  _do_group_list fuel nv inputs_list.

Definition _do_all (fuel : nat) (nv : ptr) : M stat_t :=
  modify nv (set_token "sys") ;;
  get_grp nv ;;
  nv_print_list STAT_OK TEXT_MULTILINE_FORMATTED JSON_RESPONSE_FORMAT ;;
  _do_motors fuel nv ;;
  _do_axes fuel nv ;;
  modify nv (set_token "p1") ;;
  get_grp nv ;;
  nv_print_list STAT_OK TEXT_MULTILINE_FORMATTED JSON_RESPONSE_FORMAT ;;
  _do_offsets fuel nv.
End UberGroups.

(** ** Baud rate *)

Definition msg_baud : list string :=
  ["0"; "9600"; "19200"; "38400"; "57600"; "115200"; "230400"].

Definition GET_TEXT_ITEM (table : list string) (i : Z) : string :=
  nth (Z.to_nat i) table "".

Section Communications.
Context {C : Collaborators}.

(** Compiled for the AVR only. *)
Definition set_baud (nv : ptr) : M stat_t :=
  o <- load nv ;;
  let baud := float_to_uint8 (value o) in
  if (baud <? 1) || (baud >? 6) then
    nv_add_conditional_message
      "*** WARNING *** Unsupported baud rate specified" ;;
    ret STAT_INPUT_VALUE_UNSUPPORTED
  else
    (fun w => Ok tt (set_xio_usb_baud_rate baud w)) ;;
    (fun w => Ok tt (set_xio_usb_baud_flag true w)) ;;
    let message :=
      String.append "*** NOTICE *** Resetting baud rate to "
        (GET_TEXT_ITEM msg_baud baud) in
    nv_add_conditional_message message ;;
    ret STAT_OK.
End Communications.

(** ** Auxiliary definitions used to state the properties *)

Definition count (c : bool) (n : Z) : Z := if c then n else 0.

(** The number of single-valued table entries that precede the
    status-report persistence block, segment by segment in table order. *)
Definition singles_count (b : build) : Z :=
  67 + count (__ARM b) 1
  + count (MOTORS b >=? 2) (6 + count (__ARM b) 1)
  + count (MOTORS b >=? 3) (6 + count (__ARM b) 1)
  + count (MOTORS b >=? 4) (6 + count (__ARM b) 1)
  + count (MOTORS b >=? 5) (6 + count (__ARM b) 1)
  + count (MOTORS b >=? 6) (6 + count (__ARM b) 1)
  + 65 + count (__ARM b) 6
  + 8 + count (__ARM b) 6
  + 24 + count (D_IN_CHANNELS b >=? 9) 3
  + 8 + count (D_IN_CHANNELS b >=? 9) 1
  + 93 + count (__TEXT_MODE b) 1
  + 6 + count (__AVR b) 4
  + 24 + 1
  + count (__HELP_SCREENS b) 2
  + count (__USER_DATA b) 16
  + count (__DIAGNOSTIC_PARAMETERS b)
      (14 + count (MOTORS b >=? 1) 6 + count (MOTORS b >=? 2) 6
       + count (MOTORS b >=? 3) 6 + count (MOTORS b >=? 4) 6
       + count (MOTORS b >=? 5) 6 + count (MOTORS b >=? 6) 6).

(** The third classification of an index, for which config_app.cpp has
    no function: the index is at or above [NV_INDEX_START_UBER_GROUPS]. *)
Definition nv_index_is_uber_group (b : build) (index : Z) : bool :=
  index >=? NV_INDEX_START_UBER_GROUPS b.

(** The length of the [se00]..[se39] block as the table has it. *)
Definition status_report_entries : Z := 40.

(** Table entries one more motor adds among the single-valued items. *)
Definition singles_per_motor (b : build) : Z :=
  6 + count (__ARM b) 1 + count (__DIAGNOSTIC_PARAMETERS b) 6.

(** The status-report block declared by [NV_STATUS_REPORT_LEN] is not empty
    and lies inside the table, below the group markers. *)
Definition status_report_fits (b : build) : Prop :=
  1 <= NV_STATUS_REPORT_LEN b
  <= NV_INDEX_MAX b - NV_COUNT_UBER_GROUPS - NV_COUNT_GROUPS b.

(** The calls one iteration of [_do_group_list] makes for token [tok]. *)
Definition iteration_calls {C : Collaborators} (tok : string) : list call :=
  [ Call_nv_reset_nv_list;
    Call_nv_get_index "" tok;
    Call_nv_get_nvObj tok (nv_get_index_fx "" tok);
    Call_nv_print_list STAT_OK TEXT_MULTILINE_FORMATTED JSON_RESPONSE_FORMAT ].

Definition group_list_calls {C : Collaborators} (toks : list string)
    : list call :=
  flat_map iteration_calls toks.

(** The token as [strncpy] leaves it in the object. *)
Definition as_copied (b : build) (tok : string) : string :=
  strncpy tok (TOKEN_LEN b).

(** The calls that render one group directly, as [_do_all] does. *)
Definition direct_calls (tok : string) : list call :=
  [ Call_get_grp tok;
    Call_nv_print_list STAT_OK TEXT_MULTILINE_FORMATTED JSON_RESPONSE_FORMAT ].

(** The groups fetched for rendering, in order. *)
Fixpoint rendered (cs : list call) : list string :=
  match cs with
  | [] => []
  | Call_get_grp tok :: cs' => tok :: rendered cs'
  | Call_nv_get_nvObj tok _ :: cs' => tok :: rendered cs'
  | _ :: cs' => rendered cs'
  end.

(** The member tokens of the motors uber-group, without the sentinel. *)
Definition motor_tokens (b : build) : list string :=
  match motors_list b with
  | Some l => removelast l
  | None => []
  end.

Definition axis_tokens : list string := removelast axes_list.
Definition offset_tokens : list string := removelast offsets_list.

(** Sample collaborators and a sample state for the concrete instances:
    the fetches leave the pool as it is and every token resolves to 0. *)
Definition sample_collaborators : Collaborators :=
  {| nv_body := 1;
     nv_get_index_fx := fun _ _ => 0;
     nv_reset_nv_list_fx := fun l => l;
     nv_get_nvObj_fx := fun _ w => nvl w;
     get_grp_fx := fun _ w => nvl w;
     nv_add_conditional_message_fx := fun _ l => l |}.

Definition sample_object (i : Z) (v : float) : nvObj_t :=
  mk_nvObj i TYPE_INT 0 v "" "".

Definition sample_world (u : cmUnitsMode) (i : Z) (v : float) : world :=
  mk_world (fun _ => sample_object i v) (fun _ => S754_zero false) u 0 false [].

(** ** Builds that give the same table, and decidable checks on a table *)

(** The table depends on [MOTORS] only through the tests [MOTORS >= 1] to
    [MOTORS >= 6], on [D_IN_CHANNELS] only through [D_IN_CHANNELS >= 9];
    [canonical b] is the representative of [b] among the builds that pass
    the same tests. *)
Definition canonical (b : build) : build :=
  {| MOTORS := Z.max 0 (Z.min 6 (MOTORS b));
     D_IN_CHANNELS := if D_IN_CHANNELS b >=? 9 then 9 else 8;
     __ARM := __ARM b;
     __AVR := __AVR b;
     __TEXT_MODE := __TEXT_MODE b;
     __HELP_SCREENS := __HELP_SCREENS b;
     __USER_DATA := __USER_DATA b;
     __DIAGNOSTIC_PARAMETERS := __DIAGNOSTIC_PARAMETERS b;
     NV_STATUS_REPORT_LEN := 40;
     NV_MAX_OBJECTS := 29;
     TOKEN_LEN := 6 |}.

Definition bools : list bool := [true; false].

Definition canonical_builds : list build :=
  flat_map (fun m =>
  flat_map (fun d =>
  flat_map (fun arm =>
  flat_map (fun avr =>
  flat_map (fun text =>
  flat_map (fun help =>
  flat_map (fun user =>
  flat_map (fun diag =>
    [ mk_build m d arm avr text help user diag 40 29 6 ])
  bools) bools) bools) bools) bools) bools) [8; 9]) [0; 1; 2; 3; 4; 5; 6].

(** The build with every optional entry switched on, for either value of
    [__ARM]. *)
Definition full_build (arm : bool) : build :=
  mk_build 6 9 arm true true true true true 40 29 6.

Definition item_eqb (x y : cfgItem_t) : bool :=
  String.eqb (cfg_token x) (cfg_token y)
  && String.eqb (cfg_group x) (cfg_group y)
  && (cfg_flags x =? cfg_flags y)
  && (cfg_precision x =? cfg_precision y)
  && String.eqb (cfg_target x) (cfg_target y).

Fixpoint items_eqb (l1 l2 : list cfgItem_t) : bool :=
  match l1, l2 with
  | [], [] => true
  | x :: l1', y :: l2' => item_eqb x y && items_eqb l1' l2'
  | _, _ => false
  end.

(** [l1] can be obtained from [l2] by dropping entries. *)
Fixpoint subseqb (l1 l2 : list cfgItem_t) : bool :=
  match l2 with
  | [] => match l1 with [] => true | _ :: _ => false end
  | y :: l2' =>
      match l1 with
      | [] => true
      | x :: l1' => if item_eqb x y then subseqb l1' l2' else subseqb l1 l2'
      end
  end.

Fixpoint nodupb (l : list string) : bool :=
  match l with
  | [] => true
  | x :: l' => negb (existsb (String.eqb x) l') && nodupb l'
  end.

Definition memb (s : string) (l : list string) : bool :=
  existsb (String.eqb s) l.

(** A group or uber-group marker: no group, no flags, no storage. *)
Definition marker (tok : string) : cfgItem_t := item "" tok _f0 0 "cs.null".

(** The tokens of the group markers, as the group section of the table
    lists them. *)
Definition group_marker_tokens (b : build) : list string :=
  ["sys"; "p1"; "1"; "2"; "3"; "4"]
  ++ (if MOTORS b >=? 5 then ["5"] else [])
  ++ (if MOTORS b >=? 6 then ["6"] else [])
  ++ ["x"; "y"; "z"; "a"; "b"; "c";
      "in"; "di1"; "di2"; "di3"; "di4"; "di5"; "di6"; "di7"; "di8"; "di9";
      "g54"; "g55"; "g56"; "g57"; "g58"; "g59"; "g92"; "g28"; "g30";
      "mpo"; "pos"; "ofs"; "hom"; "prb"; "pwr"; "jog"; "jid"]
  ++ (if __USER_DATA b then ["uda"; "udb"; "udc"; "udd"] else [])
  ++ (if __DIAGNOSTIC_PARAMETERS b
      then ["_te"; "_tr"; "_ts"; "_ps"; "_cs"; "_es"; "_xs"; "_fe"] else []).

Definition uber_marker_tokens : list string := ["m"; "q"; "o"; "di"; "$"].

(** The token of the [k]-th status-report persistence slot. *)
Definition digit (n : nat) : ascii := ascii_of_nat (48 + n).

Definition se_token (k : nat) : string :=
  String "s" (String "e"
    (String (digit (k / 10)) (String (digit (k mod 10)) EmptyString))).

Definition status_report_item (k : nat) : cfgItem_t :=
  item "" (se_token k) _fp 0
    (String.append "sr.status_report_list["
       (String.append
          (if (k <? 10)%nat
           then String (digit k) EmptyString
           else String (digit (k / 10)) (String (digit (k mod 10)) EmptyString))
          "]")).

Definition status_report_items : list cfgItem_t :=
  map status_report_item (seq 0 40).

(** The table from the first status-report slot on. *)
Definition table_tail (b : build) : list cfgItem_t :=
  status_report_items
  ++ map marker (group_marker_tokens b)
  ++ map marker uber_marker_tokens.

(** The member tokens of the inputs uber-group, without the sentinel. *)
Definition input_tokens (b : build) : list string := removelast (inputs_list b).

(** The groups an uber-group handler of the build can name. *)
Definition uber_member_tokens (b : build) : list string :=
  "sys" :: "p1" :: motor_tokens b ++ axis_tokens ++ offset_tokens
  ++ input_tokens b.

(** Some table entry belongs to group [g]. *)
Definition has_members (b : build) (g : string) : bool :=
  existsb (fun d => String.eqb (cfg_group d) g) (cfgArray b).

(** A group marker for which a build with at least two motors has no
    member entries: [pwr], whose members are commented out, [di9] below
    nine input channels, and the motor groups 3 and 4 beyond the motor
    count. *)
Definition memberless_marker (b : build) (g : string) : bool :=
  String.eqb g "pwr"
  || (String.eqb g "di9" && negb (D_IN_CHANNELS b >=? 9))
  || (String.eqb g "3" && negb (MOTORS b >=? 3))
  || (String.eqb g "4" && negb (MOTORS b >=? 4)).

(** The checks made on every canonical build. *)
Definition layout_check (b : build) : bool :=
  items_eqb
    (skipn (Z.to_nat (NV_INDEX_START_GROUPS b - 40)) (cfgArray b))
    (table_tail b).

Definition subtable_check (b : build) : bool :=
  subseqb (cfgArray b) (cfgArray (full_build (__ARM b))).

Definition membership_check (b : build) : bool :=
  forallb (fun d => String.eqb (cfg_group d) ""
                    || memb (cfg_group d) (group_marker_tokens b))
    (cfgArray b)
  && (negb (MOTORS b >=? 2)
      || forallb (fun g => xorb (has_members b g) (memberless_marker b g))
           (group_marker_tokens b)).

Definition uber_check (b : build) : bool :=
  forallb (fun t => memb t (group_marker_tokens b) && has_members b t)
    (uber_member_tokens b).

Definition table_check (b : build) : bool :=
  layout_check b && subtable_check b && membership_check b && uber_check b.

(** The checks made on the two full tables. *)
Definition length_check (d : cfgItem_t) : bool :=
  (1 <=? String.length (cfg_token d))%nat
  && (String.length (cfg_token d) <=? 5)%nat
  && (String.length (cfg_group d) <=? 3)%nat
  && String.eqb (cstring (cfg_token d)) (cfg_token d).

Definition prefix_check (d : cfgItem_t) : bool :=
  String.eqb (cfg_group d) ""
  || (String.eqb (cfg_group d) "sys" && negb (nv_group_is_prefixed (cfg_group d)))
  || (String.prefix (cfg_group d) (cfg_token d)
      && nv_group_is_prefixed (cfg_group d)).

Definition full_table_check (arm : bool) : bool :=
  let t := cfgArray (full_build arm) in
  nodupb (map cfg_token t) && forallb length_check t && forallb prefix_check t.

(** ** Communications settings (AVR)

    The state the AVR-only setters work on: the machine state, the three
    communication fields of [cfg], and the calls made into the serial
    driver, in order. *)

Inductive xioDevNum : Type :=
  | XIO_DEV_USB.

Inductive xioFlag : Type :=
  | XIO_CRLF
  | XIO_NOCRLF
  | XIO_ECHO
  | XIO_NOECHO
  | XIO_XOFF
  | XIO_NOXOFF.

Inductive xio_call : Type :=
  | Call_xio_ctrl (dev : xioDevNum) (flags : xioFlag)
  | Call_xio_set_baud (dev : xioDevNum) (baud : Z).

Record avr_state : Type := mk_avr_state {
  base : world;
  cfg_enable_cr : Z;
  cfg_enable_echo : Z;
  cfg_enable_flow_control : Z;
  xio_calls : list xio_call
}.

Definition set_base (w : world) (s : avr_state) : avr_state :=
  mk_avr_state w (cfg_enable_cr s) (cfg_enable_echo s)
    (cfg_enable_flow_control s) (xio_calls s).
Definition set_cfg_enable_cr (v : Z) (s : avr_state) : avr_state :=
  mk_avr_state (base s) v (cfg_enable_echo s) (cfg_enable_flow_control s)
    (xio_calls s).
Definition set_cfg_enable_echo (v : Z) (s : avr_state) : avr_state :=
  mk_avr_state (base s) (cfg_enable_cr s) v (cfg_enable_flow_control s)
    (xio_calls s).
Definition set_cfg_enable_flow_control (v : Z) (s : avr_state) : avr_state :=
  mk_avr_state (base s) (cfg_enable_cr s) (cfg_enable_echo s) v (xio_calls s).
Definition add_xio_call (c : xio_call) (s : avr_state) : avr_state :=
  mk_avr_state (base s) (cfg_enable_cr s) (cfg_enable_echo s)
    (cfg_enable_flow_control s) (xio_calls s ++ [c]).

(** [x > y] on floats: false as soon as one side is a NaN. *)
Definition fgt (x y : float) : bool := SFltb y x.

Section CommSetters.
(** [fp_NOT_ZERO] is a macro of util.h and [FLOW_CONTROL_RTS] an
    enumerator of xio.h; both are taken as given. *)
Variable fp_NOT_ZERO : float -> bool.
Variable FLOW_CONTROL_RTS : Z.

Definition xio_ctrl (dev : xioDevNum) (flags : xioFlag)
    (s : avr_state) : avr_state :=
  add_xio_call (Call_xio_ctrl dev flags) s.

Definition _set_comm_helper (nv : ptr) (yes no : xioFlag)
    (s : avr_state) : stat_t * avr_state :=
  if fp_NOT_ZERO (value (nvl (base s) nv))
  then (STAT_OK, xio_ctrl XIO_DEV_USB yes s)
  else (STAT_OK, xio_ctrl XIO_DEV_USB no s).

Definition set_ec (nv : ptr) (s : avr_state) : stat_t * avr_state :=
  let v := value (nvl (base s) nv) in
  if fgt v (float_of_Z 1) then (STAT_INPUT_VALUE_UNSUPPORTED, s)
  else _set_comm_helper nv XIO_CRLF XIO_NOCRLF
         (set_cfg_enable_cr (float_to_uint8 v) s).

Definition set_ee (nv : ptr) (s : avr_state) : stat_t * avr_state :=
  let v := value (nvl (base s) nv) in
  if fgt v (float_of_Z 1) then (STAT_INPUT_VALUE_UNSUPPORTED, s)
  else _set_comm_helper nv XIO_ECHO XIO_NOECHO
         (set_cfg_enable_echo (float_to_uint8 v) s).

Definition set_ex (nv : ptr) (s : avr_state) : stat_t * avr_state :=
  let v := value (nvl (base s) nv) in
  if fgt v (float_of_Z FLOW_CONTROL_RTS) then (STAT_INPUT_VALUE_UNSUPPORTED, s)
  else _set_comm_helper nv XIO_XOFF XIO_NOXOFF
         (set_cfg_enable_flow_control (float_to_uint8 v) s).
End CommSetters.

Definition xio_set_baud (dev : xioDevNum) (baud : Z)
    (s : avr_state) : avr_state :=
  add_xio_call (Call_xio_set_baud dev baud) s.

Definition set_baud_callback (s : avr_state) : stat_t * avr_state :=
  if Bool.eqb (xio_usb_baud_flag (base s)) false then (STAT_NOOP, s)
  else
    let s1 := set_base (set_xio_usb_baud_flag false (base s)) s in
    (STAT_OK, xio_set_baud XIO_DEV_USB (xio_usb_baud_rate (base s1)) s1).

(** [set_baud] on the larger state. *)
Definition avr_set_baud {C : Collaborators} (nv : ptr) (s : avr_state)
    : option (stat_t * avr_state) :=
  match set_baud nv (base s) with
  | Ok st w' => Some (st, set_base w' s)
  | _ => None
  end.

(** A sample [fp_NOT_ZERO]: true of the finite values other than the
    zeros and of the infinities, false of the zeros and of NaN. *)
Definition sample_fp_NOT_ZERO (x : float) : bool :=
  match x with
  | S754_finite _ _ _ | S754_infinity _ => true
  | _ => false
  end.

Definition sample_avr_state (v : float) : avr_state :=
  mk_avr_state (sample_world MILLIMETERS 293 v) 0 0 0 [].

(** A build whose object bound does not fit the loop counter of
    [_do_group_list]. *)
Definition wide_list_build : build :=
  {| MOTORS := 4;
     D_IN_CHANNELS := 9;
     __ARM := true;
     __AVR := false;
     __TEXT_MODE := true;
     __HELP_SCREENS := true;
     __USER_DATA := false;
     __DIAGNOSTIC_PARAMETERS := false;
     NV_STATUS_REPORT_LEN := 40;
     NV_MAX_OBJECTS := 300;
     TOKEN_LEN := 6 |}.

(** * Properties *)

(** ** Sample evaluations of the embedding *)

Example table_sizes :
  NV_INDEX_MAX (arm_build 4) = 421
  /\ NV_INDEX_MAX (arm_build 6) = 437
  /\ NV_INDEX_MAX (avr_build 4) = 405.
Proof. vm_compute. repeat split. Qed.

Example table_first_and_last :
  descriptor_at (arm_build 4) 0 = Some (item "sys" "fb" _fipn 2 "cs.fw_build")
  /\ descriptor_at (arm_build 4) 420 = Some (item "" "$" _f0 0 "cs.null")
  /\ descriptor_at (arm_build 4) 421 = None.
Proof. vm_compute. repeat split. Qed.

Example boundaries_arm_4 :
  NV_INDEX_END_SINGLES (arm_build 4) = 337
  /\ option_map cfg_token (descriptor_at (arm_build 4) 337) = Some "se00"
  /\ NV_INDEX_START_GROUPS (arm_build 4) = 377
  /\ option_map cfg_token (descriptor_at (arm_build 4) 377) = Some "sys"
  /\ NV_INDEX_START_UBER_GROUPS (arm_build 4) = 416
  /\ option_map cfg_token (descriptor_at (arm_build 4) 416) = Some "m".
Proof. vm_compute. repeat split. Qed.

Example MM_PER_INCH_value : MM_PER_INCH = S754_finite false 13316915 (-19).
Proof. reflexivity. Qed.

Example float_to_uint8_values :
  float_to_uint8 (float_of_Z 5) = 5
  /\ float_to_uint8 (fdiv (float_of_Z 13) (float_of_Z 2)) = 6
  /\ float_to_uint8 (float_of_Z 0) = 0
  /\ float_to_uint8 (float_of_Z 300) = 44.
Proof. vm_compute. repeat split. Qed.

Example preprocess_float_inches :
  match preprocess_float (arm_build 4) 0 (sample_world INCHES 93 MM_PER_INCH)
  with
  | Ok _ w' => value (nvl w' 0) = float_of_Z 1
  | _ => False
  end.
Proof. vm_compute. reflexivity. Qed.

Example preprocess_float_without_conversion_flag :
  preprocess_float (arm_build 4) 0 (sample_world INCHES 89 MM_PER_INCH)
  = Ok tt (sample_world INCHES 89 MM_PER_INCH).
Proof. reflexivity. Qed.

Example preprocess_float_outside_table :
  preprocess_float (arm_build 4) 0 (sample_world INCHES 421 MM_PER_INCH)
  = Undefined.
Proof. reflexivity. Qed.

Example nv_group_is_prefixed_values :
  nv_group_is_prefixed "g54" = true
  /\ nv_group_is_prefixed "s" = true
  /\ nv_group_is_prefixed "srx" = true
  /\ nv_group_is_prefixed "" = true.
Proof. vm_compute. repeat split. Qed.

Example set_baud_115200 :
  match @set_baud sample_collaborators 0
          (sample_world MILLIMETERS 293 (float_of_Z 5)) with
  | Ok s w' =>
      s = STAT_OK
      /\ xio_usb_baud_rate w' = 5
      /\ xio_usb_baud_flag w' = true
      /\ calls w'
         = [Call_nv_add_conditional_message
              "*** NOTICE *** Resetting baud rate to 115200"]
  | _ => False
  end.
Proof. vm_compute. repeat split. Qed.

Example _do_inputs_renders :
  match @_do_inputs sample_collaborators (arm_build 4) 16 0
          (sample_world MILLIMETERS 0 (S754_zero false)) with
  | Ok s w' =>
      s = STAT_COMPLETE
      /\ rendered (calls w')
         = ["di1"; "di2"; "di3"; "di4"; "di5"; "di6"; "di7"; "di8"; "di9"]
  | _ => False
  end.
Proof. vm_compute. repeat split. Qed.

(** ** The table and its boundaries *)

Lemma length_if {A : Type} (c : bool) (l1 l2 : list A) :
  length (if c then l1 else l2) = if c then length l1 else length l2.
Proof. destruct c; reflexivity. Qed.

Lemma of_nat_if (c : bool) (n m : nat) :
  Z.of_nat (if c then n else m) = if c then Z.of_nat n else Z.of_nat m.
Proof. destruct c; reflexivity. Qed.

Lemma count_range (c : bool) (n : Z) : 0 <= n -> 0 <= count c n <= n.
Proof. unfold count; destruct c; lia. Qed.

(** Proof automation. *)

Ltac bound_counts :=
  repeat match goal with
    | |- context [count ?c ?n] =>
        lazymatch n with
        | context [count _ _] => fail
        | _ =>
            let H := fresh "Hcount" in
            pose proof (count_range c n ltac:(lia)) as H;
            generalize dependent (count c n); intros
        end
    end.

Ltac by_motor_cases H tac :=
  destruct H as [E | [E | [E | [E | E]]]]; rewrite E; tac.

Ltac nodup_strings :=
  repeat (constructor; [cbn [In]; intuition discriminate |]); constructor.


(** The table has exactly the shape the counting macros assume: the
    singles, forty status-report slots, [NV_COUNT_GROUPS] group markers and
    [NV_COUNT_UBER_GROUPS] uber-group markers. *)
Lemma NV_INDEX_MAX_shape (b : build) :
  NV_INDEX_MAX b
  = singles_count b + status_report_entries
    + NV_COUNT_GROUPS b + NV_COUNT_UBER_GROUPS.
Proof.
  unfold NV_INDEX_MAX, cfgArray.
  repeat rewrite ?length_app, ?length_if.
  cbn [length].
  repeat rewrite ?Nat2Z.inj_add, ?of_nat_if.
  cbn [Z.of_nat Pos.of_succ_nat Pos.succ].
  unfold singles_count, status_report_entries, NV_COUNT_GROUPS,
    NV_COUNT_UBER_GROUPS, FIXED_GROUPS, MOTOR_GROUP_5, MOTOR_GROUP_6,
    USER_DATA_GROUPS, DIAGNOSTIC_GROUPS, count.
  destruct (__ARM b), (__DIAGNOSTIC_PARAMETERS b); lia.
Qed.

Lemma singles_count_range (b : build) : 296 <= singles_count b <= 421.
Proof. unfold singles_count. bound_counts. lia. Qed.

Lemma NV_COUNT_GROUPS_range (b : build) : 39 <= NV_COUNT_GROUPS b <= 53.
Proof.
  unfold NV_COUNT_GROUPS, FIXED_GROUPS, MOTOR_GROUP_5, MOTOR_GROUP_6,
    USER_DATA_GROUPS, DIAGNOSTIC_GROUPS.
  destruct (MOTORS b >=? 5), (MOTORS b >=? 6), (__USER_DATA b),
    (__DIAGNOSTIC_PARAMETERS b); lia.
Qed.

Lemma size_t_wrap_small (b : build) (z : Z) :
  0 <= z < 65536 -> size_t_wrap b z = z.
Proof.
  intros Hz. unfold size_t_wrap, size_t_bits.
  apply Z.mod_small.
  destruct (__AVR b);
    [change (2 ^ 16) with 65536 | change (2 ^ 32) with 4294967296]; lia.
Qed.

Lemma nv_index_max_eq (b : build) : nv_index_max b = NV_INDEX_MAX b.
Proof.
  unfold nv_index_max, index_t_wrap. apply Z.mod_small.
  rewrite NV_INDEX_MAX_shape.
  pose proof (singles_count_range b). pose proof (NV_COUNT_GROUPS_range b).
  unfold status_report_entries, NV_COUNT_UBER_GROUPS.
  change (2 ^ 16) with 65536. lia.
Qed.

Lemma NV_INDEX_START_UBER_GROUPS_eq (b : build) :
  NV_INDEX_START_UBER_GROUPS b
  = singles_count b + status_report_entries + NV_COUNT_GROUPS b.
Proof.
  unfold NV_INDEX_START_UBER_GROUPS. rewrite NV_INDEX_MAX_shape.
  pose proof (singles_count_range b). pose proof (NV_COUNT_GROUPS_range b).
  unfold status_report_entries in *.
  rewrite size_t_wrap_small; lia.
Qed.

Lemma NV_INDEX_START_GROUPS_eq (b : build) :
  NV_INDEX_START_GROUPS b = singles_count b + status_report_entries.
Proof.
  unfold NV_INDEX_START_GROUPS. rewrite NV_INDEX_MAX_shape.
  pose proof (singles_count_range b).
  unfold status_report_entries in *.
  rewrite size_t_wrap_small; lia.
Qed.

Lemma NV_INDEX_END_SINGLES_eq (b : build) :
  status_report_fits b ->
  NV_INDEX_END_SINGLES b
  = singles_count b + status_report_entries - NV_STATUS_REPORT_LEN b.
Proof.
  unfold status_report_fits, NV_INDEX_END_SINGLES.
  rewrite NV_INDEX_MAX_shape.
  pose proof (singles_count_range b).
  unfold status_report_entries in *. intros Hfit.
  rewrite size_t_wrap_small; lia.
Qed.

Lemma singles_count_with_MOTORS (b : build) (m : Z) :
  2 <= m <= 6 ->
  singles_count (with_MOTORS m b)
  = singles_count (with_MOTORS 2 b) + (m - 2) * singles_per_motor b.
Proof.
  intros Hm.
  assert (Hcases : m = 2 \/ m = 3 \/ m = 4 \/ m = 5 \/ m = 6) by lia.
  unfold singles_count, singles_per_motor. cbn [with_MOTORS MOTORS __ARM
    __AVR D_IN_CHANNELS __TEXT_MODE __HELP_SCREENS __USER_DATA
    __DIAGNOSTIC_PARAMETERS].
  destruct Hcases as [-> | [-> | [-> | [-> | ->]]]];
    cbn [Z.geb Z.compare Pos.compare Pos.compare_cont];
    unfold count; destruct (__ARM b), (__DIAGNOSTIC_PARAMETERS b); lia.
Qed.

Lemma NV_COUNT_GROUPS_with_MOTORS (b : build) (m : Z) :
  NV_COUNT_GROUPS (with_MOTORS m b)
  = NV_COUNT_GROUPS (with_MOTORS 2 b) + count (m >=? 5) 1 + count (m >=? 6) 1.
Proof.
  unfold NV_COUNT_GROUPS, MOTOR_GROUP_5, MOTOR_GROUP_6, USER_DATA_GROUPS,
    DIAGNOSTIC_GROUPS, count.
  cbn [with_MOTORS MOTORS __USER_DATA __DIAGNOSTIC_PARAMETERS].
  change (2 >=? 5) with false. change (2 >=? 6) with false.
  destruct (m >=? 5), (m >=? 6); lia.
Qed.

(** ** Index classification *)

(** C2, as the code has it: for every build whose status-report block fits
    the table and every index in range, at most one of the three
    classifications (single, group, uber-group) holds, and the indices for
    which none holds are exactly those strictly between
    [NV_INDEX_END_SINGLES] and [NV_INDEX_START_GROUPS], inside the
    status-report persistence block. *)
Theorem nv_index_classification (b : build) (index : Z) :
  status_report_fits b ->
  0 <= index < nv_index_max b ->
  (nv_index_is_single b index = true ->
   nv_index_is_group b index = false
   /\ nv_index_is_uber_group b index = false)
  /\ (nv_index_is_group b index = true ->
      nv_index_is_single b index = false
      /\ nv_index_is_uber_group b index = false)
  /\ (nv_index_is_uber_group b index = true ->
      nv_index_is_single b index = false
      /\ nv_index_is_group b index = false)
  /\ (nv_index_is_single b index = false
      /\ nv_index_is_group b index = false
      /\ nv_index_is_uber_group b index = false
      <-> NV_INDEX_END_SINGLES b < index < NV_INDEX_START_GROUPS b).
Proof.
  intros Hfit Hrange.
  rewrite nv_index_max_eq, NV_INDEX_MAX_shape in Hrange.
  unfold nv_index_is_single, nv_index_is_group, nv_index_is_uber_group.
  rewrite NV_INDEX_END_SINGLES_eq by assumption.
  rewrite NV_INDEX_START_GROUPS_eq, NV_INDEX_START_UBER_GROUPS_eq.
  unfold status_report_fits in Hfit. rewrite NV_INDEX_MAX_shape in Hfit.
  pose proof (NV_COUNT_GROUPS_range b) as Hgroups.
  unfold status_report_entries, NV_COUNT_UBER_GROUPS in *.
  rewrite !Z.geb_leb.
  generalize dependent (singles_count b). intros s Hrange Hfit.
  generalize dependent (NV_COUNT_GROUPS b). intros g Hrange Hfit Hgroups.
  generalize dependent (NV_STATUS_REPORT_LEN b). intros r Hfit.
  destruct (index <=? s + 40 - r) eqn:E1;
    destruct (s + 40 <=? index) eqn:E2;
    destruct (index <? s + 40 + g) eqn:E3;
    destruct (s + 40 + g <=? index) eqn:E4;
    cbn [andb];
    repeat split; intros; try discriminate; try lia;
    repeat match goal with H : _ /\ _ |- _ => destruct H end;
    try discriminate; lia.
Qed.

(** An in-range index of the four-motor ARM build, inside the
    status-report block, at which the classification theorem applies. *)
Lemma nv_index_classification_witness :
  (nv_index_is_single (arm_build 4) 338 = false
   /\ nv_index_is_group (arm_build 4) 338 = false
   /\ nv_index_is_uber_group (arm_build 4) 338 = false
   <-> NV_INDEX_END_SINGLES (arm_build 4) < 338
       < NV_INDEX_START_GROUPS (arm_build 4)).
Proof.
  apply (nv_index_classification (arm_build 4) 338).
  - unfold status_report_fits. vm_compute. split; intro; discriminate.
  - vm_compute. split; [intro; discriminate | reflexivity].
Defined.

(** C2, as stated, fails: index 338 of the four-motor ARM build is in
    range, holds the table entry [se01], and is neither a single, nor a
    group, nor an uber-group. *)
Lemma nv_index_unclassified :
  (0 <=? 338) && (338 <? nv_index_max (arm_build 4)) = true
  /\ option_map cfg_token (nth_error (cfgArray (arm_build 4)) 338)
     = Some "se01"
  /\ nv_index_is_single (arm_build 4) 338 = false
  /\ nv_index_is_group (arm_build 4) 338 = false
  /\ nv_index_is_uber_group (arm_build 4) 338 = false.
Proof. vm_compute. repeat split. Qed.

(** ** Dependence of the boundaries on the motor count *)

(** C3, as the code has it: changing the configured motor count from [m]
    to [m'] (both between 2 and 6) changes the motors uber-group's member
    list and, through motors 5 and 6, [NV_COUNT_GROUPS]; it also changes
    the table size and with it every derived boundary: the end of the
    singles and the start of the groups move by the number of per-motor
    single entries, the start of the uber-groups and [NV_INDEX_MAX] by that
    number plus the change of the group count.  Unaffected are the inputs
    member list and the widths of the status-report block and of the
    uber-group region. *)
Theorem motor_count_effect (b : build) (m m' : Z) :
  2 <= m <= 6 ->
  2 <= m' <= 6 ->
  status_report_fits (with_MOTORS m b) ->
  status_report_fits (with_MOTORS m' b) ->
  let B := with_MOTORS m b in
  let B' := with_MOTORS m' b in
  let dgroups := count (m' >=? 5) 1 + count (m' >=? 6) 1
                 - (count (m >=? 5) 1 + count (m >=? 6) 1) in
  motor_tokens B = firstn (Z.to_nat m) ["1"; "2"; "3"; "4"; "5"; "6"]
  /\ motor_tokens B' = firstn (Z.to_nat m') ["1"; "2"; "3"; "4"; "5"; "6"]
  /\ NV_COUNT_GROUPS B' = NV_COUNT_GROUPS B + dgroups
  /\ NV_INDEX_END_SINGLES B'
     = NV_INDEX_END_SINGLES B + (m' - m) * singles_per_motor b
  /\ NV_INDEX_START_GROUPS B'
     = NV_INDEX_START_GROUPS B + (m' - m) * singles_per_motor b
  /\ NV_INDEX_START_UBER_GROUPS B'
     = NV_INDEX_START_UBER_GROUPS B + (m' - m) * singles_per_motor b + dgroups
  /\ NV_INDEX_MAX B'
     = NV_INDEX_MAX B + (m' - m) * singles_per_motor b + dgroups
  /\ 6 <= singles_per_motor b
  /\ inputs_list B' = inputs_list B
  /\ NV_INDEX_START_GROUPS B - NV_INDEX_END_SINGLES B = NV_STATUS_REPORT_LEN b
  /\ NV_INDEX_START_GROUPS B' - NV_INDEX_END_SINGLES B'
     = NV_STATUS_REPORT_LEN b
  /\ NV_INDEX_MAX B - NV_INDEX_START_UBER_GROUPS B = NV_COUNT_UBER_GROUPS
  /\ NV_INDEX_MAX B' - NV_INDEX_START_UBER_GROUPS B' = NV_COUNT_UBER_GROUPS.
Proof.
  intros Hm Hm' Hfit Hfit' B B' dgroups.
  assert (Htok : forall k, 2 <= k <= 6 ->
            motor_tokens (with_MOTORS k b)
            = firstn (Z.to_nat k) ["1"; "2"; "3"; "4"; "5"; "6"]).
  { intros k Hk.
    assert (Hcases : k = 2 \/ k = 3 \/ k = 4 \/ k = 5 \/ k = 6) by lia.
    destruct Hcases as [-> | [-> | [-> | [-> | ->]]]]; reflexivity. }
  assert (Hsp : 6 <= singles_per_motor b).
  { unfold singles_per_motor.
    pose proof (count_range (__ARM b) 1).
    pose proof (count_range (__DIAGNOSTIC_PARAMETERS b) 6). lia. }
  subst B B'.
  rewrite !NV_INDEX_END_SINGLES_eq by assumption.
  rewrite !NV_INDEX_START_GROUPS_eq, !NV_INDEX_START_UBER_GROUPS_eq.
  rewrite !NV_INDEX_MAX_shape.
  rewrite (singles_count_with_MOTORS b m), (singles_count_with_MOTORS b m')
    by assumption.
  rewrite (NV_COUNT_GROUPS_with_MOTORS b m), (NV_COUNT_GROUPS_with_MOTORS b m').
  subst dgroups.
  unfold status_report_entries.
  cbn [with_MOTORS NV_STATUS_REPORT_LEN].
  repeat split; try (apply Htok; assumption); try assumption; try lia.
Qed.

(** The change from four to six motors on the ARM build. *)
Lemma motor_count_effect_witness :
  NV_COUNT_GROUPS (with_MOTORS 6 (arm_build 2))
  = NV_COUNT_GROUPS (with_MOTORS 4 (arm_build 2)) + 2
  /\ NV_INDEX_END_SINGLES (with_MOTORS 6 (arm_build 2))
     = NV_INDEX_END_SINGLES (with_MOTORS 4 (arm_build 2)) + 14
  /\ NV_INDEX_START_GROUPS (with_MOTORS 6 (arm_build 2))
     = NV_INDEX_START_GROUPS (with_MOTORS 4 (arm_build 2)) + 14
  /\ NV_INDEX_START_UBER_GROUPS (with_MOTORS 6 (arm_build 2))
     = NV_INDEX_START_UBER_GROUPS (with_MOTORS 4 (arm_build 2)) + 16.
Proof.
  assert (Hfit : forall k, status_report_fits (with_MOTORS k (arm_build 2))).
  { intro k. unfold status_report_fits.
    rewrite NV_INDEX_MAX_shape.
    pose proof (singles_count_range (with_MOTORS k (arm_build 2))).
    unfold status_report_entries, NV_COUNT_UBER_GROUPS.
    cbn [with_MOTORS arm_build NV_STATUS_REPORT_LEN]. lia. }
  pose proof (motor_count_effect (arm_build 2) 4 6 ltac:(lia) ltac:(lia)
                (Hfit 4) (Hfit 6)) as H.
  cbv zeta in H.
  destruct H as (_ & _ & Hg & He & Hs & Hu & _).
  exact (conj Hg (conj He (conj Hs Hu))).
Defined.

(** C3, as stated, fails: from four to six motors on the ARM build every
    derived boundary moves. *)
Lemma motor_count_moves_boundaries :
  NV_INDEX_END_SINGLES (arm_build 4) = 337
  /\ NV_INDEX_END_SINGLES (with_MOTORS 6 (arm_build 4)) = 351
  /\ NV_INDEX_START_GROUPS (arm_build 4) = 377
  /\ NV_INDEX_START_GROUPS (with_MOTORS 6 (arm_build 4)) = 391
  /\ NV_INDEX_START_UBER_GROUPS (arm_build 4) = 416
  /\ NV_INDEX_START_UBER_GROUPS (with_MOTORS 6 (arm_build 4)) = 432.
Proof. vm_compute. repeat split. Qed.

(** ** Group expansion *)

Lemma pool_set_same (p : ptr) (o : nvObj_t) (l : pool) : pool_set p o l p = o.
Proof. unfold pool_set. now rewrite Z.eqb_refl. Qed.

Lemma uint8_wrap_small (z : Z) : 0 <= z < 256 -> uint8_wrap z = z.
Proof. intros Hz. unfold uint8_wrap. apply Z.mod_small. simpl. lia. Qed.

Section GroupList.
Context {C : Collaborators}.
Variable b : build.

(** The loop started at counter [length pre] on the array
    [pre ++ toks ++ rest], where the tokens [toks] are not empty and the
    loop ends right after them, either because the counter has reached
    [NV_MAX_OBJECTS] or because [rest] begins with the sentinel: it runs
    one iteration per token of [toks] and returns [STAT_COMPLETE]. *)
Lemma _do_group_list_from_runs (toks : list string) :
  forall (pre rest : list string) (fuel : nat) (w : world),
    Forall (fun t => first_is_NUL t = false) toks ->
    Z.of_nat (length pre + length toks) <= NV_MAX_OBJECTS b ->
    Z.of_nat (length pre + length toks) <= 255 ->
    (Z.of_nat (length pre + length toks) = NV_MAX_OBJECTS b
     \/ exists t rest', rest = t :: rest' /\ first_is_NUL t = true) ->
    (length toks < fuel)%nat ->
    exists w',
      _do_group_list_from b fuel (Z.of_nat (length pre))
        (pre ++ toks ++ rest) w = Ok STAT_COMPLETE w'
      /\ calls w' = calls w ++ group_list_calls (map (as_copied b) toks)
      /\ mem w' = mem w
      /\ units_mode w' = units_mode w
      /\ xio_usb_baud_rate w' = xio_usb_baud_rate w
      /\ xio_usb_baud_flag w' = xio_usb_baud_flag w.
Proof.
  induction toks as [| t toks IH]; intros pre rest fuel w Hne Hmax Hwrap Hstop Hfuel.
  - destruct fuel as [| fuel]; [simpl in Hfuel; lia |].
    exists w. cbn [_do_group_list_from app map group_list_calls flat_map].
    rewrite app_nil_r. cbn [length] in *. rewrite Nat.add_0_r in *.
    destruct Hstop as [Heq | (s & rest' & -> & Hs)].
    + rewrite (proj2 (Z.ltb_ge _ _)) by lia. unfold ret. tauto.
    + destruct (Z.of_nat (length pre) <? NV_MAX_OBJECTS b); [| unfold ret; tauto].
      rewrite Nat2Z.id, nth_error_app2 by lia.
      rewrite Nat.sub_diag. cbn [nth_error]. rewrite Hs. unfold ret. tauto.
  - destruct fuel as [| fuel]; [simpl in Hfuel; lia |].
    inversion Hne as [| ? ? Ht Hne']; subst.
    cbn [length] in *.
    cbn [_do_group_list_from].
    rewrite (proj2 (Z.ltb_lt _ _)) by lia.
    rewrite Nat2Z.id, nth_error_app2 by lia.
    rewrite Nat.sub_diag. cbn [nth_error app]. rewrite Ht.
    unfold bind at 1. unfold nv_reset_nv_list at 1.
    unfold bind at 1. unfold modify at 1.
    unfold bind at 1. unfold load at 1.
    unfold bind at 1. unfold nv_get_index at 1.
    unfold bind at 1. unfold modify at 1.
    unfold bind at 1. unfold nv_get_nvObj at 1.
    unfold bind at 1. unfold nv_print_list at 1.
    cbn [nvl set_nvl add_call mem units_mode xio_usb_baud_rate
           xio_usb_baud_flag calls].
    rewrite !pool_set_same.
    cbn [token index set_index set_token].
    rewrite uint8_wrap_small by lia.
    replace (Z.of_nat (length pre) + 1) with (Z.of_nat (length (pre ++ [t])))
      by (rewrite length_app; cbn [length]; lia).
    replace (pre ++ t :: toks ++ rest) with ((pre ++ [t]) ++ toks ++ rest)
      by (rewrite <- app_assoc; reflexivity).
    match goal with
    | |- exists w', _do_group_list_from _ _ _ _ ?w1 = _ /\ _ =>
        destruct (IH (pre ++ [t]) rest fuel w1) as (w' & Hrun & Hcalls & Hmem & Hu & Hr & Hf)
    end.
    + assumption.
    + rewrite length_app; cbn [length]; lia.
    + rewrite length_app; cbn [length]; lia.
    + destruct Hstop as [Heq | Hs]; [left | right; assumption].
      rewrite length_app; cbn [length]; lia.
    + lia.
    + exists w'. split; [exact Hrun |].
      cbn [calls mem units_mode xio_usb_baud_rate xio_usb_baud_flag
             add_call set_nvl nvl] in Hcalls, Hmem, Hu, Hr, Hf.
      rewrite Hcalls, Hmem, Hu, Hr, Hf.
      cbn [map group_list_calls flat_map iteration_calls].
      rewrite <- !app_assoc. cbn [app]. unfold as_copied. tauto.
Qed.
End GroupList.

Lemma strncpy_short (s : string) (n : nat) :
  cstring s = s -> (String.length s <= n)%nat -> strncpy s n = s.
Proof.
  revert n. induction s as [| c s IH]; intros n Hc Hlen.
  - destruct n; reflexivity.
  - destruct n as [| n]; [simpl in Hlen; lia |].
    cbn [cstring strncpy] in *.
    destruct (c =? NUL)%char; [discriminate |].
    injection Hc as Hc. rewrite IH; [reflexivity | assumption |].
    simpl in Hlen. lia.
Qed.

Lemma rendered_app (l1 l2 : list call) :
  rendered (l1 ++ l2) = rendered l1 ++ rendered l2.
Proof.
  induction l1 as [| c l1 IH]; [reflexivity |].
  destruct c; cbn [app rendered]; rewrite IH; reflexivity.
Qed.

Lemma rendered_group_list_calls {C : Collaborators} (toks : list string) :
  rendered (group_list_calls toks) = toks.
Proof.
  induction toks as [| t toks IH]; [reflexivity |].
  cbn [group_list_calls flat_map iteration_calls app rendered].
  unfold group_list_calls in IH. now rewrite IH.
Qed.

Lemma firstn_skipn_length {A : Type} (n : nat) (l : list A) :
  (n <= length l)%nat -> length (firstn n l) = n.
Proof. intros H. rewrite length_firstn. lia. Qed.

(** C5: applied to the axes list, group expansion performs exactly six
    fetch-and-render iterations, for x, y, z, a, b and c, each begun by a
    reset of the object list, and returns [STAT_COMPLETE] (at the sentinel,
    the seventh entry, or at the bound when [NV_MAX_OBJECTS] is 6); and on
    any list whose first [NV_MAX_OBJECTS] entries are all non-empty it
    performs [NV_MAX_OBJECTS] iterations and returns [STAT_COMPLETE] as
    well, with no error reported. *)
Theorem _do_group_list_complete {C : Collaborators} (b : build) (nv : ptr) :
  (forall (fuel : nat) (w : world),
      6 <= NV_MAX_OBJECTS b ->
      (1 <= TOKEN_LEN b)%nat ->
      (7 <= fuel)%nat ->
      exists w',
        _do_group_list b fuel nv ["x"; "y"; "z"; "a"; "b"; "c"; ""] w
        = Ok STAT_COMPLETE w'
        /\ _do_axes b fuel nv w = Ok STAT_COMPLETE w'
        /\ calls w'
           = calls w ++ group_list_calls ["x"; "y"; "z"; "a"; "b"; "c"])
  /\ (forall (fuel : nat) (w : world) (list : list string),
         0 <= NV_MAX_OBJECTS b <= 255 ->
         (Z.to_nat (NV_MAX_OBJECTS b) <= length list)%nat ->
         Forall (fun t => first_is_NUL t = false)
           (firstn (Z.to_nat (NV_MAX_OBJECTS b)) list) ->
         (Z.to_nat (NV_MAX_OBJECTS b) < fuel)%nat ->
         exists w',
           _do_group_list b fuel nv list w = Ok STAT_COMPLETE w'
           /\ calls w'
              = calls w
                ++ group_list_calls
                     (map (as_copied b)
                        (firstn (Z.to_nat (NV_MAX_OBJECTS b)) list))).
Proof.
  split.
  - intros fuel w Hmax Htok Hfuel.
    destruct (_do_group_list_from_runs b ["x"; "y"; "z"; "a"; "b"; "c"]
                [] [""] fuel w) as (w' & Hrun & Hcalls & _).
    + repeat constructor.
    + cbn [length]. lia.
    + cbn [length]. lia.
    + right. exists "", []. split; reflexivity.
    + cbn [length]. lia.
    + exists w'. unfold _do_axes, axes_list, _do_group_list.
      cbn [app length] in Hrun. change (Z.of_nat 0) with 0 in Hrun.
      split; [exact Hrun | split; [exact Hrun |]].
      rewrite Hcalls. cbn [map]. unfold as_copied.
      rewrite !strncpy_short; try reflexivity; cbn [String.length]; lia.
  - intros fuel w list Hmax Hlen Hne Hfuel.
    destruct (_do_group_list_from_runs b
                (firstn (Z.to_nat (NV_MAX_OBJECTS b)) list) []
                (skipn (Z.to_nat (NV_MAX_OBJECTS b)) list) fuel w)
      as (w' & Hrun & Hcalls & _).
    + assumption.
    + cbn [length]. rewrite firstn_skipn_length by assumption. lia.
    + cbn [length]. rewrite firstn_skipn_length by assumption. lia.
    + left. cbn [length]. rewrite firstn_skipn_length by assumption. lia.
    + rewrite firstn_skipn_length by assumption. assumption.
    + exists w'. unfold _do_group_list.
      cbn [app length] in Hrun. change (Z.of_nat 0) with 0 in Hrun.
      rewrite firstn_skipn in Hrun. split; assumption.
Qed.

(** The axes list on the ARM build, and a list of eight tokens without a
    sentinel on a build that stops at seven objects. *)
Lemma _do_group_list_complete_witness :
  (exists w',
      @_do_axes sample_collaborators (arm_build 4) 30 0
        (sample_world MILLIMETERS 0 (S754_zero false))
      = Ok STAT_COMPLETE w'
      /\ calls w'
         = @group_list_calls sample_collaborators
             ["x"; "y"; "z"; "a"; "b"; "c"])
  /\ (exists w',
         @_do_group_list sample_collaborators short_list_build 30 0
           ["1"; "2"; "3"; "4"; "5"; "6"; "7"; "8"]
           (sample_world MILLIMETERS 0 (S754_zero false))
         = Ok STAT_COMPLETE w'
         /\ calls w'
            = @group_list_calls sample_collaborators
                ["1"; "2"; "3"; "4"; "5"; "6"; "7"]).
Proof.
  split.
  - destruct (proj1 (@_do_group_list_complete sample_collaborators
                       (arm_build 4) 0) 30%nat
                (sample_world MILLIMETERS 0 (S754_zero false)))
      as (w' & _ & Hrun & Hcalls).
    + simpl. lia.
    + simpl. lia.
    + lia.
    + exists w'. split; [exact Hrun | exact Hcalls].
  - destruct (proj2 (@_do_group_list_complete sample_collaborators
                       short_list_build 0) 30%nat
                (sample_world MILLIMETERS 0 (S754_zero false))
                ["1"; "2"; "3"; "4"; "5"; "6"; "7"; "8"])
      as (w' & Hrun & Hcalls).
    + simpl. lia.
    + simpl. lia.
    + repeat constructor.
    + simpl. lia.
    + exists w'. split; [exact Hrun | exact Hcalls].
Defined.

(** ** The "all" uber-group *)

Lemma as_copied_short (b : build) (s : string) :
  cstring s = s -> (String.length s <= TOKEN_LEN b)%nat -> as_copied b s = s.
Proof. intros Hc Hl. now apply strncpy_short. Qed.

Lemma motor_tokens_cases (b : build) :
  2 <= MOTORS b <= 6 ->
  motors_list b = Some (motor_tokens b ++ [""])
  /\ (motor_tokens b = ["1"; "2"]
      \/ motor_tokens b = ["1"; "2"; "3"]
      \/ motor_tokens b = ["1"; "2"; "3"; "4"]
      \/ motor_tokens b = ["1"; "2"; "3"; "4"; "5"]
      \/ motor_tokens b = ["1"; "2"; "3"; "4"; "5"; "6"]).
Proof.
  intros Hm.
  assert (Hcases : MOTORS b = 2 \/ MOTORS b = 3 \/ MOTORS b = 4
                   \/ MOTORS b = 5 \/ MOTORS b = 6) by lia.
  unfold motor_tokens, motors_list.
  destruct Hcases as [E | [E | [E | [E | E]]]]; rewrite E;
    cbn [Z.eqb Pos.eqb removelast app]; split; try reflexivity; tauto.
Qed.

(** C1, as the code has it: [_do_all] renders "sys" directly, then runs
    the motors and the axes handlers, then renders "p1" directly, then runs
    the offsets handler, whose status it returns; no group is rendered
    twice. *)
Theorem _do_all_order {C : Collaborators} (b : build) (fuel : nat)
    (nv : ptr) (w : world) :
  2 <= MOTORS b <= 6 ->
  9 <= NV_MAX_OBJECTS b ->
  (3 <= TOKEN_LEN b)%nat ->
  (10 <= fuel)%nat ->
  exists w',
    _do_all b fuel nv w = Ok STAT_COMPLETE w'
    /\ calls w'
       = calls w
         ++ direct_calls "sys"
         ++ group_list_calls (motor_tokens b)
         ++ group_list_calls axis_tokens
         ++ direct_calls "p1"
         ++ group_list_calls offset_tokens
    /\ rendered (direct_calls "sys"
                 ++ group_list_calls (motor_tokens b)
                 ++ group_list_calls axis_tokens
                 ++ direct_calls "p1"
                 ++ group_list_calls offset_tokens)
       = "sys" :: motor_tokens b ++ axis_tokens ++ "p1" :: offset_tokens
    /\ NoDup ("sys" :: motor_tokens b ++ axis_tokens ++ "p1" :: offset_tokens).
Proof.
  intros Hm Hmax Htok Hfuel.
  destruct (motor_tokens_cases b Hm) as (Hlist & Hcases).
  assert (Hne : Forall (fun t => first_is_NUL t = false) (motor_tokens b)).
  { by_motor_cases Hcases ltac:(repeat constructor). }
  assert (Hlen : (length (motor_tokens b) <= 6)%nat).
  { by_motor_cases Hcases ltac:(cbn [length]; lia). }
  assert (Hcopy : map (as_copied b) (motor_tokens b) = motor_tokens b).
  { by_motor_cases Hcases
      ltac:(cbn [map];
            rewrite !as_copied_short
              by (try reflexivity; cbn [String.length]; lia);
            reflexivity). }
  assert (Hnodup : NoDup ("sys" :: motor_tokens b ++ axis_tokens
                          ++ "p1" :: offset_tokens)).
  { unfold axis_tokens, offset_tokens, axes_list, offsets_list.
    by_motor_cases Hcases ltac:(cbn [removelast app]; nodup_strings). }
  assert (Ha : map (as_copied b) axis_tokens = axis_tokens).
  { unfold axis_tokens, axes_list. cbn [removelast map].
    rewrite !as_copied_short by (try reflexivity; cbn [String.length]; lia).
    reflexivity. }
  assert (Ho : map (as_copied b) offset_tokens = offset_tokens).
  { unfold offset_tokens, offsets_list. cbn [removelast map].
    rewrite !as_copied_short by (try reflexivity; cbn [String.length]; lia).
    reflexivity. }
  unfold _do_all.
  unfold bind at 1. unfold modify at 1.
  unfold bind at 1. unfold get_grp at 1.
  unfold bind at 1. unfold nv_print_list at 1.
  unfold bind at 1. unfold _do_motors. rewrite Hlist. unfold _do_group_list.
  match goal with
  | |- context [_do_group_list_from b fuel 0 _ ?w1] =>
      destruct (_do_group_list_from_runs b (motor_tokens b) [] [""] fuel w1)
        as (w2 & Hrun2 & Hcalls2 & _)
  end.
  { assumption. }
  { cbn [length]. lia. }
  { cbn [length]. lia. }
  { right. exists "", []. split; reflexivity. }
  { lia. }
  cbn [app length] in Hrun2. change (Z.of_nat 0) with 0 in Hrun2.
  rewrite Hrun2.
  unfold bind at 1. unfold _do_axes, _do_group_list.
  destruct (_do_group_list_from_runs b axis_tokens [] [""] fuel w2)
    as (w3 & Hrun3 & Hcalls3 & _).
  { repeat constructor. }
  { cbn [length axis_tokens axes_list removelast]. lia. }
  { cbn [length axis_tokens axes_list removelast]. lia. }
  { right. exists "", []. split; reflexivity. }
  { cbn [length axis_tokens axes_list removelast]. lia. }
  cbn [app length] in Hrun3. change (Z.of_nat 0) with 0 in Hrun3.
  change (axis_tokens ++ [""]) with axes_list in Hrun3.
  rewrite Hrun3.
  unfold bind at 1. unfold modify at 1.
  unfold bind at 1. unfold get_grp at 1.
  unfold bind at 1. unfold nv_print_list at 1.
  unfold _do_offsets, _do_group_list.
  match goal with
  | |- context [_do_group_list_from b fuel 0 offsets_list ?w4] =>
      destruct (_do_group_list_from_runs b offset_tokens [] [""] fuel w4)
        as (w5 & Hrun5 & Hcalls5 & _)
  end.
  { repeat constructor. }
  { cbn [length offset_tokens offsets_list removelast]. lia. }
  { cbn [length offset_tokens offsets_list removelast]. lia. }
  { right. exists "", []. split; reflexivity. }
  { cbn [length offset_tokens offsets_list removelast]. lia. }
  cbn [app length] in Hrun5. change (Z.of_nat 0) with 0 in Hrun5.
  change (offset_tokens ++ [""]) with offsets_list in Hrun5.
  exists w5. split; [exact Hrun5 |].
  split; [| split; [| exact Hnodup]].
  - rewrite Hcalls5.
    cbn [calls add_call set_nvl nvl].
    rewrite Hcalls3, Hcalls2.
    cbn [calls add_call set_nvl nvl].
    rewrite !pool_set_same. cbn [token set_token].
    rewrite Hcopy, Ha, Ho. unfold direct_calls.
    rewrite <- !app_assoc. reflexivity.
  - rewrite !rendered_app, !rendered_group_list_calls. reflexivity.
Qed.

(** The four-motor ARM build with the sample collaborators. *)
Lemma _do_all_order_witness :
  exists w',
    @_do_all sample_collaborators (arm_build 4) 16 0
      (sample_world MILLIMETERS 0 (S754_zero false))
    = Ok STAT_COMPLETE w'
    /\ rendered (calls w')
       = ["sys"; "1"; "2"; "3"; "4"; "x"; "y"; "z"; "a"; "b"; "c"; "p1";
          "g54"; "g55"; "g56"; "g57"; "g58"; "g59"; "g92"; "g28"; "g30"].
Proof.
  destruct (@_do_all_order sample_collaborators (arm_build 4) 16 0
              (sample_world MILLIMETERS 0 (S754_zero false)))
    as (w' & Hrun & Hcalls & Hrendered & _).
  - simpl. lia.
  - simpl. lia.
  - simpl. lia.
  - lia.
  - exists w'. split; [exact Hrun |].
    rewrite Hcalls. exact Hrendered.
Defined.

(** C1, as stated, fails: on the four-motor ARM build the second group
    rendered is motor 1, and "p1" comes twelfth, after the axes; the order
    is not "sys", "p1", motors, axes, offsets. *)
Lemma _do_all_renders_p1_after_axes :
  match @_do_all sample_collaborators (arm_build 4) 16 0
          (sample_world MILLIMETERS 0 (S754_zero false)) with
  | Ok s w' =>
      s = STAT_COMPLETE
      /\ rendered (calls w')
         = ["sys"; "1"; "2"; "3"; "4"; "x"; "y"; "z"; "a"; "b"; "c"; "p1";
            "g54"; "g55"; "g56"; "g57"; "g58"; "g59"; "g92"; "g28"; "g30"]
      /\ rendered (calls w')
         <> "sys" :: "p1" :: motor_tokens (arm_build 4) ++ axis_tokens
              ++ offset_tokens
  | _ => False
  end.
Proof.
  vm_compute. split; [reflexivity |]. split; [reflexivity |]. discriminate.
Qed.

(** ** Unit conversion *)

Lemma set_flu_runs (b : build) (nv : ptr) (w : world) (d : cfgItem_t) :
  descriptor_at b (index (nvl w nv)) = Some d ->
  let v := if cmUnitsMode_eqb (units_mode w) INCHES
           then fmul (value (nvl w nv)) MM_PER_INCH
           else value (nvl w nv) in
  exists w',
    set_flu b nv w = Ok STAT_OK w'
    /\ mem w' = storage_set (cfg_target d) v (mem w)
    /\ nvl w' nv
       = set_valuetype TYPE_FLOAT
           (set_precision (cfg_precision d) (set_value v (nvl w nv)))
    /\ calls w' = calls w.
Proof.
  intros Hd v. subst v.
  unfold set_flu, bind, cm_get_units_mode, GET_TABLE, load, write_target,
    modify, ret.
  destruct (cmUnitsMode_eqb (units_mode w) INCHES);
    cbn [nvl set_nvl set_mem mem units_mode calls];
    rewrite ?pool_set_same; cbn [index set_value];
    rewrite Hd; cbn [nvl set_nvl set_mem mem units_mode calls];
    rewrite ?pool_set_same;
    eexists; (split; [reflexivity |]);
    cbn [nvl set_nvl set_mem mem units_mode calls];
    rewrite ?pool_set_same;
    destruct (nvl w nv); repeat split; reflexivity.
Qed.

Lemma storage_set_same (t : string) (v : float) (s : storage) :
  storage_set t v s t = v.
Proof. unfold storage_set. now rewrite String.eqb_refl. Qed.

(** C4: [set_flu] writes the input times [MM_PER_INCH] to the target cell
    and to the object's value when the unit mode is inches (1.0 gives 25.4
    in both), the input itself when the mode is millimeters; in both modes
    it sets the object's precision from the table and its value type to
    float and returns [STAT_OK]. *)
Theorem set_flu_converts (b : build) (nv : ptr) (w : world) (d : cfgItem_t) :
  descriptor_at b (index (nvl w nv)) = Some d ->
  exists w',
    set_flu b nv w = Ok STAT_OK w'
    /\ (units_mode w = INCHES ->
        mem w' (cfg_target d) = fmul (value (nvl w nv)) MM_PER_INCH
        /\ value (nvl w' nv) = fmul (value (nvl w nv)) MM_PER_INCH)
    /\ (units_mode w = INCHES ->
        value (nvl w nv) = float_of_Z 1 ->
        mem w' (cfg_target d) = MM_PER_INCH
        /\ value (nvl w' nv) = MM_PER_INCH)
    /\ (units_mode w = MILLIMETERS ->
        mem w' (cfg_target d) = value (nvl w nv)
        /\ value (nvl w' nv) = value (nvl w nv))
    /\ precision (nvl w' nv) = cfg_precision d
    /\ valuetype (nvl w' nv) = TYPE_FLOAT.
Proof.
  intros Hd.
  destruct (set_flu_runs b nv w d Hd) as (w' & Hrun & Hmem & Hnv & _).
  exists w'. split; [exact Hrun |].
  rewrite Hmem, Hnv, storage_set_same. cbn [value precision valuetype
    set_valuetype set_precision set_value].
  split; [intros Hin; rewrite Hin; split; reflexivity |].
  split; [intros Hin Hone; rewrite Hin, Hone; split; reflexivity |].
  split; [intros Hmm; rewrite Hmm; split; reflexivity |].
  split; reflexivity.
Qed.

(** Setting [xtm] (index 93 of the four-motor ARM build) to 1.0 in inches
    mode stores 25.4 in [cm.a[AXIS_X].travel_max] and in the object. *)
Lemma set_flu_converts_witness :
  exists w',
    set_flu (arm_build 4) 0 (sample_world INCHES 93 (float_of_Z 1))
    = Ok STAT_OK w'
    /\ mem w' "cm.a[AXIS_X].travel_max" = S754_finite false 13316915 (-19)
    /\ value (nvl w' 0) = S754_finite false 13316915 (-19)
    /\ precision (nvl w' 0) = 3
    /\ valuetype (nvl w' 0) = TYPE_FLOAT.
Proof.
  destruct (set_flu_converts (arm_build 4) 0
              (sample_world INCHES 93 (float_of_Z 1))
              (item "x" "xtm" _fipc 3 "cm.a[AXIS_X].travel_max")
              eq_refl)
    as (w' & Hrun & _ & Hone & _ & Hprec & Htype).
  destruct (Hone eq_refl eq_refl) as (Hmem & Hval).
  exists w'.
  exact (conj Hrun (conj Hmem (conj Hval (conj Hprec Htype)))).
Defined.

(** C10: [set_flu] validates nothing.  Whatever the input value and the
    unit mode, a call that returns returns [STAT_OK]; and for every object
    whose index lies in the table it does return, having written the
    (possibly converted) value to the target cell. *)
Theorem set_flu_never_fails (b : build) (nv : ptr) (w : world) :
  (forall (s : stat_t) (w' : world), set_flu b nv w = Ok s w' -> s = STAT_OK)
  /\ (forall d : cfgItem_t,
         descriptor_at b (index (nvl w nv)) = Some d ->
         exists w',
           set_flu b nv w = Ok STAT_OK w'
           /\ mem w' (cfg_target d)
              = (if cmUnitsMode_eqb (units_mode w) INCHES
                 then fmul (value (nvl w nv)) MM_PER_INCH
                 else value (nvl w nv))
           /\ value (nvl w' nv) = mem w' (cfg_target d)).
Proof.
  split.
  - intros s w' Hrun.
    destruct (descriptor_at b (index (nvl w nv))) as [d |] eqn:Hd.
    + destruct (set_flu_runs b nv w d Hd) as (w1 & Hrun1 & _).
      rewrite Hrun1 in Hrun. now injection Hrun as <- _.
    + exfalso. revert Hrun.
      unfold set_flu, bind, cm_get_units_mode, GET_TABLE, modify, ret.
      destruct (cmUnitsMode_eqb (units_mode w) INCHES);
        cbn [nvl set_nvl]; rewrite ?pool_set_same; cbn [index set_value];
        rewrite Hd; discriminate.
  - intros d Hd.
    destruct (set_flu_runs b nv w d Hd) as (w' & Hrun & Hmem & Hnv & _).
    exists w'. split; [exact Hrun |].
    rewrite Hmem, Hnv, storage_set_same. split; reflexivity.
Qed.

(** A NaN, a negative number and an infinity are all stored, in either
    unit mode, with status [STAT_OK]. *)
Lemma set_flu_never_fails_witness :
  (exists w',
      set_flu (arm_build 4) 0 (sample_world INCHES 93 S754_nan) = Ok STAT_OK w'
      /\ mem w' "cm.a[AXIS_X].travel_max" = S754_nan)
  /\ (exists w',
         set_flu (arm_build 4) 0 (sample_world INCHES 93 (float_of_Z (-3)))
         = Ok STAT_OK w'
         /\ mem w' "cm.a[AXIS_X].travel_max"
            = S754_finite true 9987686 (-17))
  /\ (exists w',
         set_flu (arm_build 4) 0
           (sample_world MILLIMETERS 93 (S754_infinity true))
         = Ok STAT_OK w'
         /\ mem w' "cm.a[AXIS_X].travel_max" = S754_infinity true).
Proof.
  pose (d := item "x" "xtm" _fipc 3 "cm.a[AXIS_X].travel_max").
  split; [| split].
  - destruct (proj2 (set_flu_never_fails (arm_build 4) 0
                       (sample_world INCHES 93 S754_nan)) d eq_refl)
      as (w' & Hrun & Hmem & _).
    exists w'. exact (conj Hrun Hmem).
  - destruct (proj2 (set_flu_never_fails (arm_build 4) 0
                       (sample_world INCHES 93 (float_of_Z (-3)))) d eq_refl)
      as (w' & Hrun & Hmem & _).
    exists w'. exact (conj Hrun Hmem).
  - destruct (proj2 (set_flu_never_fails (arm_build 4) 0
                       (sample_world MILLIMETERS 93 (S754_infinity true)))
                d eq_refl)
      as (w' & Hrun & Hmem & _).
    exists w'. exact (conj Hrun Hmem).
Defined.

(** C6: on a NaN or an infinity [preprocess_float] returns at once and
    leaves the whole state, the object's value included, as it was,
    whatever the unit mode, the descriptor's flags and the index. *)
Theorem preprocess_float_illegal (b : build) (nv : ptr) (w : world) :
  isnan (value (nvl w nv)) = true \/ isinf (value (nvl w nv)) = true ->
  preprocess_float b nv w = Ok tt w
  /\ (forall r w', preprocess_float b nv w = Ok r w' ->
                   value (nvl w' nv) = value (nvl w nv)).
Proof.
  intros Hill.
  assert (Hrun : preprocess_float b nv w = Ok tt w).
  { unfold preprocess_float, bind, load, ret.
    destruct Hill as [Hnan | Hinf].
    - now rewrite Hnan.
    - rewrite Hinf. now rewrite orb_true_r. }
  split; [exact Hrun |].
  intros r w' Hrun'. rewrite Hrun in Hrun'. now injection Hrun' as _ <-.
Qed.

(** An infinity and a NaN on [xtm], whose descriptor asks for unit
    conversion, in inches mode. *)
Lemma preprocess_float_illegal_witness :
  preprocess_float (arm_build 4) 0 (sample_world INCHES 93 (S754_infinity false))
  = Ok tt (sample_world INCHES 93 (S754_infinity false))
  /\ preprocess_float (arm_build 4) 0 (sample_world INCHES 93 S754_nan)
     = Ok tt (sample_world INCHES 93 S754_nan).
Proof.
  split.
  - exact (proj1 (preprocess_float_illegal (arm_build 4) 0
                    (sample_world INCHES 93 (S754_infinity false))
                    (or_intror eq_refl))).
  - exact (proj1 (preprocess_float_illegal (arm_build 4) 0
                    (sample_world INCHES 93 S754_nan) (or_introl eq_refl))).
Defined.

(** C7: every call of [preprocess_float] that returns leaves backing
    storage as it was; it changes at most the value field of the object it
    is given, and no other part of the state.  The only call that does not
    return is one on an object whose index lies outside the table. *)
Theorem preprocess_float_frame (b : build) (nv : ptr) (w : world) :
  match preprocess_float b nv w with
  | Ok _ w' =>
      mem w' = mem w
      /\ (forall p, p <> nv -> nvl w' p = nvl w p)
      /\ set_value (value (nvl w nv)) (nvl w' nv) = nvl w nv
      /\ units_mode w' = units_mode w
      /\ xio_usb_baud_rate w' = xio_usb_baud_rate w
      /\ xio_usb_baud_flag w' = xio_usb_baud_flag w
      /\ calls w' = calls w
  | Undefined => descriptor_at b (index (nvl w nv)) = None
  | OutOfFuel => False
  end.
Proof.
  assert (Hsame : set_value (value (nvl w nv)) (nvl w nv) = nvl w nv)
    by (destruct (nvl w nv); reflexivity).
  unfold preprocess_float, bind, load, ret, GET_TABLE, cm_get_units_mode,
    modify.
  destruct (isnan (value (nvl w nv)) || isinf (value (nvl w nv)));
    [tauto |].
  destruct (descriptor_at b (index (nvl w nv))) as [d |]; [| reflexivity].
  destruct (negb (Z.land (cfg_flags d) F_CONVERT =? 0)); [| tauto].
  destruct (cmUnitsMode_eqb (units_mode w) INCHES); [| tauto].
  cbn [mem nvl set_nvl units_mode xio_usb_baud_rate xio_usb_baud_flag calls].
  rewrite pool_set_same.
  repeat split.
  - intros p Hp. unfold pool_set.
    destruct (p =? nv) eqn:E; [apply Z.eqb_eq in E; contradiction | reflexivity].
  - destruct (nvl w nv); reflexivity.
Qed.

(** ** Group-prefix exception rule *)

Lemma uchar_inj (c d : ascii) : uchar c = uchar d -> c = d.
Proof.
  unfold uchar. intros H. apply N2Z.inj in H.
  rewrite <- (ascii_N_embedding c), <- (ascii_N_embedding d). now rewrite H.
Qed.

Lemma uchar_NUL (c : ascii) : uchar c = 0 -> c = NUL.
Proof. intros H. apply uchar_inj. rewrite H. reflexivity. Qed.

Lemma strcmp_zero (a b : string) : strcmp a b = 0 <-> cstring a = cstring b.
Proof.
  revert b. induction a as [| c a IH]; intros [| d b]; cbn [strcmp cstring].
  - tauto.
  - destruct (Ascii.eqb_spec d NUL) as [-> | Hd].
    + split; reflexivity.
    + split; [| discriminate]. intros H. exfalso. apply Hd, uchar_NUL. lia.
  - destruct (Ascii.eqb_spec c NUL) as [-> | Hc].
    + split; reflexivity.
    + split; [| discriminate]. intros H. exfalso. apply Hc, uchar_NUL. lia.
  - destruct (Ascii.eqb_spec c d) as [<- | Hcd].
    + destruct (Ascii.eqb_spec c NUL) as [-> | Hc]; [tauto |].
      rewrite IH. split; [intros ->; reflexivity | now intros [= ->]].
    + split.
      * intros H. exfalso. apply Hcd, uchar_inj. lia.
      * destruct (Ascii.eqb_spec c NUL) as [-> | Hc];
          destruct (Ascii.eqb_spec d NUL) as [-> | Hd];
          try discriminate; try contradiction.
        intros [= -> _]. contradiction.
Qed.

(** C8: [nv_group_is_prefixed] returns false for "sr" and for "sys", and
    true for every other group name. *)
Theorem nv_group_is_prefixed_exceptions (group : string) :
  nv_group_is_prefixed "sr" = false
  /\ nv_group_is_prefixed "sys" = false
  /\ (nv_group_is_prefixed group = false
      <-> cstring group = "sr" \/ cstring group = "sys")
  /\ (nv_group_is_prefixed group = true
      <-> cstring group <> "sr" /\ cstring group <> "sys").
Proof.
  split; [reflexivity |]. split; [reflexivity |].
  unfold nv_group_is_prefixed.
  pose proof (strcmp_zero "sr" group) as Hsr.
  pose proof (strcmp_zero "sys" group) as Hsys.
  change (cstring "sr") with "sr" in Hsr.
  change (cstring "sys") with "sys" in Hsys.
  destruct (Z.eqb_spec (strcmp "sr" group) 0) as [E1 | E1];
    destruct (Z.eqb_spec (strcmp "sys" group) 0) as [E2 | E2];
    rewrite ?Hsr, ?Hsys in *; split; split;
    try discriminate; try tauto; try congruence; intuition congruence.
Qed.

(** ** Baud rate *)

(** C9: when the byte the value truncates to is outside 1..6, [set_baud]
    returns [STAT_INPUT_VALUE_UNSUPPORTED], hands the warning text to
    [nv_add_conditional_message], and leaves [xio.usb_baud_rate],
    [xio.usb_baud_flag] and backing storage untouched. *)
Theorem set_baud_unsupported {C : Collaborators} (nv : ptr) (w : world) :
  float_to_uint8 (value (nvl w nv)) < 1
  \/ float_to_uint8 (value (nvl w nv)) > 6 ->
  exists w',
    set_baud nv w = Ok STAT_INPUT_VALUE_UNSUPPORTED w'
    /\ calls w'
       = calls w
         ++ [Call_nv_add_conditional_message
               "*** WARNING *** Unsupported baud rate specified"]
    /\ xio_usb_baud_rate w' = xio_usb_baud_rate w
    /\ xio_usb_baud_flag w' = xio_usb_baud_flag w
    /\ mem w' = mem w
    /\ units_mode w' = units_mode w.
Proof.
  intros Hout.
  unfold set_baud, bind, load, nv_add_conditional_message, ret.
  assert (Hguard : (float_to_uint8 (value (nvl w nv)) <? 1)
                   || (float_to_uint8 (value (nvl w nv)) >? 6) = true).
  { apply orb_true_iff. rewrite Z.ltb_lt, Z.gtb_ltb, Z.ltb_lt. lia. }
  rewrite Hguard. eexists. split; [reflexivity |].
  repeat split.
Qed.

(** Baud selector 7 on the AVR build's sample state. *)
Lemma set_baud_unsupported_witness :
  exists w',
    @set_baud sample_collaborators 0 (sample_world MILLIMETERS 293 (float_of_Z 7))
    = Ok STAT_INPUT_VALUE_UNSUPPORTED w'
    /\ calls w'
       = [Call_nv_add_conditional_message
            "*** WARNING *** Unsupported baud rate specified"]
    /\ xio_usb_baud_rate w' = 0
    /\ xio_usb_baud_flag w' = false.
Proof.
  destruct (@set_baud_unsupported sample_collaborators 0
              (sample_world MILLIMETERS 293 (float_of_Z 7)))
    as (w' & Hrun & Hcalls & Hrate & Hflag & _).
  - right. vm_compute. reflexivity.
  - exists w'. exact (conj Hrun (conj Hcalls (conj Hrate Hflag))).
Defined.

(** ** The table in every build *)

Lemma item_eqb_eq (x y : cfgItem_t) : item_eqb x y = true -> x = y.
Proof.
  unfold item_eqb.
  destruct x as [g1 t1 f1 p1 a1], y as [g2 t2 f2 p2 a2].
  cbn [cfg_token cfg_group cfg_flags cfg_precision cfg_target].
  rewrite !andb_true_iff, !String.eqb_eq, !Z.eqb_eq.
  intros ((((-> & ->) & ->) & ->) & ->). reflexivity.
Qed.

Lemma items_eqb_eq (l1 l2 : list cfgItem_t) : items_eqb l1 l2 = true -> l1 = l2.
Proof.
  revert l2. induction l1 as [| x l1 IH]; intros [| y l2]; cbn [items_eqb];
    try discriminate; [reflexivity |].
  rewrite andb_true_iff. intros [Hxy Hl].
  apply item_eqb_eq in Hxy. apply IH in Hl. now subst.
Qed.

Lemma subseqb_In (l2 l1 : list cfgItem_t) :
  subseqb l1 l2 = true -> forall x, In x l1 -> In x l2.
Proof.
  revert l1. induction l2 as [| y l2 IH]; intros [| x l1] Hsub z Hz;
    cbn [subseqb] in Hsub; try discriminate; try contradiction.
  destruct (item_eqb x y) eqn:E.
  - apply item_eqb_eq in E. subst y. destruct Hz as [-> | Hz].
    + now left.
    + right. now apply (IH l1).
  - right. now apply (IH (x :: l1)).
Qed.

Lemma subseqb_NoDup (l2 l1 : list cfgItem_t) :
  subseqb l1 l2 = true ->
  NoDup (map cfg_token l2) -> NoDup (map cfg_token l1).
Proof.
  revert l1. induction l2 as [| y l2 IH]; intros l1 Hsub Hnd.
  - destruct l1; [apply NoDup_nil | discriminate].
  - destruct l1 as [| x l1]; [apply NoDup_nil |].
    cbn [subseqb] in Hsub. cbn [map] in Hnd.
    inversion Hnd as [| ? ? Hnotin Hnd']; subst.
    destruct (item_eqb x y) eqn:E.
    + apply item_eqb_eq in E. subst y. cbn [map]. apply NoDup_cons.
      * intros Hin. apply Hnotin. apply in_map_iff in Hin.
        destruct Hin as (z & Hz & Hzin). apply in_map_iff. exists z.
        split; [assumption |]. now apply (subseqb_In l2 l1).
      * now apply IH.
    + now apply IH.
Qed.

Lemma memb_In (s : string) (l : list string) : memb s l = true <-> In s l.
Proof.
  unfold memb. rewrite existsb_exists. split.
  - intros (x & Hx & E). apply String.eqb_eq in E. now subst.
  - intros H. exists s. split; [assumption | apply String.eqb_refl].
Qed.

Lemma nodupb_NoDup (l : list string) : nodupb l = true -> NoDup l.
Proof.
  induction l as [| x l IH]; cbn [nodupb]; [constructor |].
  rewrite andb_true_iff, negb_true_iff. intros [Hx Hl]. constructor.
  - intros Hin. apply memb_In in Hin. unfold memb in Hin. congruence.
  - now apply IH.
Qed.

Lemma clamp_geb (m k : Z) :
  1 <= k <= 6 -> (Z.max 0 (Z.min 6 m) >=? k) = (m >=? k).
Proof.
  intros Hk. rewrite !Z.geb_leb.
  destruct (Z.leb_spec k m); [apply Z.leb_le | apply Z.leb_gt]; lia.
Qed.

Lemma din_geb (d : Z) : ((if d >=? 9 then 9 else 8) >=? 9) = (d >=? 9).
Proof. destruct (d >=? 9); reflexivity. Qed.

Lemma cfgArray_canonical (b : build) : cfgArray (canonical b) = cfgArray b.
Proof.
  unfold cfgArray.
  cbn [canonical MOTORS D_IN_CHANNELS __ARM __AVR __TEXT_MODE __HELP_SCREENS
         __USER_DATA __DIAGNOSTIC_PARAMETERS].
  rewrite !clamp_geb by lia. rewrite !din_geb. reflexivity.
Qed.

Lemma group_marker_tokens_canonical (b : build) :
  group_marker_tokens (canonical b) = group_marker_tokens b.
Proof.
  unfold group_marker_tokens.
  cbn [canonical MOTORS __USER_DATA __DIAGNOSTIC_PARAMETERS].
  rewrite !clamp_geb by lia. reflexivity.
Qed.

Lemma NV_INDEX_START_GROUPS_canonical (b : build) :
  NV_INDEX_START_GROUPS (canonical b) = NV_INDEX_START_GROUPS b.
Proof.
  unfold NV_INDEX_START_GROUPS, NV_INDEX_MAX, size_t_wrap, size_t_bits,
    NV_COUNT_GROUPS, MOTOR_GROUP_5, MOTOR_GROUP_6, USER_DATA_GROUPS,
    DIAGNOSTIC_GROUPS.
  rewrite cfgArray_canonical.
  cbn [canonical MOTORS __AVR __USER_DATA __DIAGNOSTIC_PARAMETERS].
  rewrite !clamp_geb by lia. reflexivity.
Qed.

Lemma canonical_in (b : build) : In (canonical b) canonical_builds.
Proof.
  unfold canonical, canonical_builds.
  assert (Hb : forall x : bool, In x bools) by (intros []; cbn; tauto).
  apply in_flat_map. exists (Z.max 0 (Z.min 6 (MOTORS b))). split.
  { assert (H : Z.max 0 (Z.min 6 (MOTORS b)) = 0
                \/ Z.max 0 (Z.min 6 (MOTORS b)) = 1
                \/ Z.max 0 (Z.min 6 (MOTORS b)) = 2
                \/ Z.max 0 (Z.min 6 (MOTORS b)) = 3
                \/ Z.max 0 (Z.min 6 (MOTORS b)) = 4
                \/ Z.max 0 (Z.min 6 (MOTORS b)) = 5
                \/ Z.max 0 (Z.min 6 (MOTORS b)) = 6) by lia.
    cbn [In]. intuition auto. }
  apply in_flat_map. exists (if D_IN_CHANNELS b >=? 9 then 9 else 8). split.
  { destruct (D_IN_CHANNELS b >=? 9); cbn; tauto. }
  do 6 (apply in_flat_map; eexists; split; [apply Hb |]).
  left. reflexivity.
Qed.

Lemma canonical_builds_checked : forallb table_check canonical_builds = true.
Proof. vm_compute. reflexivity. Qed.

Lemma full_tables_checked :
  full_table_check true = true /\ full_table_check false = true.
Proof. vm_compute. split; reflexivity. Qed.

Lemma table_check_canonical (b : build) : table_check (canonical b) = true.
Proof.
  exact (proj1 (forallb_forall _ _) canonical_builds_checked _ (canonical_in b)).
Qed.

Lemma table_checks (b : build) :
  layout_check (canonical b) = true
  /\ subtable_check (canonical b) = true
  /\ membership_check (canonical b) = true
  /\ uber_check (canonical b) = true.
Proof.
  pose proof (table_check_canonical b) as H. unfold table_check in H.
  rewrite !andb_true_iff in H. tauto.
Qed.

Lemma in_full_table (b : build) (d : cfgItem_t) :
  In d (cfgArray b) -> In d (cfgArray (full_build (__ARM b))).
Proof.
  rewrite <- (cfgArray_canonical b).
  destruct (table_checks b) as (_ & Hsub & _).
  unfold subtable_check in Hsub. cbn [canonical __ARM] in Hsub.
  now apply subseqb_In.
Qed.

Lemma full_table_checks (arm : bool) :
  nodupb (map cfg_token (cfgArray (full_build arm))) = true
  /\ forallb length_check (cfgArray (full_build arm)) = true
  /\ forallb prefix_check (cfgArray (full_build arm)) = true.
Proof.
  destruct full_tables_checked as [Ht Hf].
  unfold full_table_check in Ht, Hf. cbv zeta in Ht, Hf.
  rewrite !andb_true_iff in Ht, Hf. destruct arm; tauto.
Qed.

(** X1: in every build the tokens of the table are pairwise distinct. *)
Theorem cfgArray_tokens_unique (b : build) :
  NoDup (map cfg_token (cfgArray b)).
Proof.
  rewrite <- (cfgArray_canonical b).
  destruct (table_checks b) as (_ & Hsub & _).
  unfold subtable_check in Hsub. cbn [canonical __ARM] in Hsub.
  apply (subseqb_NoDup _ _ Hsub).
  apply nodupb_NoDup. exact (proj1 (full_table_checks (__ARM b))).
Qed.

(** X2: in every build a table token has one to five characters, none of
    them NUL, and a group name has at most three; so a token length of at
    least five makes [strncpy] copy every table token whole. *)
Theorem cfgArray_token_lengths (b : build) (d : cfgItem_t) :
  In d (cfgArray b) ->
  (1 <= String.length (cfg_token d) <= 5)%nat
  /\ (String.length (cfg_group d) <= 3)%nat
  /\ cstring (cfg_token d) = cfg_token d
  /\ ((5 <= TOKEN_LEN b)%nat -> as_copied b (cfg_token d) = cfg_token d).
Proof.
  intros Hin. apply in_full_table in Hin.
  destruct (full_table_checks (__ARM b)) as (_ & Hlen & _).
  rewrite forallb_forall in Hlen. specialize (Hlen d Hin).
  unfold length_check in Hlen.
  rewrite !andb_true_iff, !Nat.leb_le, String.eqb_eq in Hlen.
  destruct Hlen as (((H1 & H5) & H3) & Hc).
  repeat split; try assumption.
  intros Htok. apply as_copied_short; [assumption | lia].
Qed.

(** The token [alarm] of the four-motor ARM build. *)
Lemma cfgArray_token_lengths_witness :
  (1 <= String.length "alarm" <= 5)%nat
  /\ as_copied (arm_build 4) "alarm" = "alarm".
Proof.
  destruct (cfgArray_token_lengths (arm_build 4)
              (item "" "alarm" _f0 0 "cs.null"))
    as (Hlen & _ & _ & Hcopy).
  - apply (nth_error_In _ 324). reflexivity.
  - split; [exact Hlen | apply Hcopy; simpl; lia].
Defined.

(** X3: in every build, a table entry that has a group either carries the
    group name as a prefix of its token, and [nv_group_is_prefixed] says so,
    or belongs to group "sys", for which [nv_group_is_prefixed] is false. *)
Theorem cfgArray_prefix_convention (b : build) (d : cfgItem_t) :
  In d (cfgArray b) ->
  cfg_group d <> "" ->
  (String.prefix (cfg_group d) (cfg_token d) = true
   /\ nv_group_is_prefixed (cfg_group d) = true)
  \/ (cfg_group d = "sys" /\ nv_group_is_prefixed (cfg_group d) = false).
Proof.
  intros Hin Hgrp. apply in_full_table in Hin.
  destruct (full_table_checks (__ARM b)) as (_ & _ & Hpre).
  rewrite forallb_forall in Hpre. specialize (Hpre d Hin).
  unfold prefix_check in Hpre.
  rewrite !orb_true_iff, !andb_true_iff, negb_true_iff, !String.eqb_eq in Hpre.
  destruct Hpre as [[Hempty | Hsys] | Hp]; [contradiction | right | left];
    assumption.
Qed.

(** The entries [xvm] of group "x" and [ja] of group "sys". *)
Lemma cfgArray_prefix_convention_witness :
  (String.prefix "x" "xvm" = true /\ nv_group_is_prefixed "x" = true)
  /\ nv_group_is_prefixed "sys" = false.
Proof.
  split.
  - destruct (cfgArray_prefix_convention (arm_build 4)
                (item "x" "xvm" _fipc 0 "cm.a[AXIS_X].velocity_max"))
      as [H | [H _]].
    + apply (nth_error_In _ 90). reflexivity.
    + discriminate.
    + exact H.
    + discriminate H.
  - destruct (cfgArray_prefix_convention (arm_build 4)
                (item "sys" "ja" _fipn 2 "cm.junction_aggression"))
      as [[H _] | [_ H]].
    + apply (nth_error_In _ 278). reflexivity.
    + discriminate.
    + discriminate H.
    + exact H.
Defined.

Lemma cfgArray_tail (b : build) :
  skipn (Z.to_nat (NV_INDEX_START_GROUPS b - 40)) (cfgArray b) = table_tail b.
Proof.
  destruct (table_checks b) as (Hlay & _).
  unfold layout_check in Hlay. apply items_eqb_eq in Hlay.
  rewrite NV_INDEX_START_GROUPS_canonical, cfgArray_canonical in Hlay.
  unfold table_tail in *.
  now rewrite group_marker_tokens_canonical in Hlay.
Qed.

Lemma group_marker_count (b : build) :
  Z.of_nat (length (group_marker_tokens b)) = NV_COUNT_GROUPS b.
Proof.
  unfold group_marker_tokens, NV_COUNT_GROUPS, FIXED_GROUPS, MOTOR_GROUP_5,
    MOTOR_GROUP_6, USER_DATA_GROUPS, DIAGNOSTIC_GROUPS.
  rewrite !length_app, !length_if. cbn [length].
  destruct (MOTORS b >=? 5), (MOTORS b >=? 6), (__USER_DATA b),
    (__DIAGNOSTIC_PARAMETERS b); reflexivity.
Qed.

(** X4: in every build the table ends, from index
    [NV_INDEX_START_GROUPS - 40] on, with the forty status-report slots
    [se00] to [se39], then exactly the group markers, then the five
    uber-group markers m, q, o, di and $: the counting macros agree with
    the table. *)
Theorem cfgArray_layout (b : build) :
  skipn (Z.to_nat (NV_INDEX_START_GROUPS b - 40)) (cfgArray b) = table_tail b
  /\ Z.of_nat (length (group_marker_tokens b)) = NV_COUNT_GROUPS b
  /\ Z.of_nat (length uber_marker_tokens) = NV_COUNT_UBER_GROUPS.
Proof.
  split; [exact (cfgArray_tail b) |].
  split; [exact (group_marker_count b) | reflexivity].
Qed.

Lemma descriptor_at_tail (b : build) (k : nat) :
  descriptor_at b (NV_INDEX_START_GROUPS b - 40 + Z.of_nat k)
  = nth_error (table_tail b) k.
Proof.
  pose proof (cfgArray_tail b) as Hlay.
  pose proof (singles_count_range b) as Hs.
  rewrite NV_INDEX_START_GROUPS_eq in *. unfold status_report_entries in *.
  unfold descriptor_at.
  rewrite (proj2 (Z.ltb_ge _ _)) by lia.
  rewrite <- Hlay, nth_error_skipn. f_equal. lia.
Qed.

Lemma table_tail_status_report (b : build) (k : nat) :
  (k < 40)%nat -> nth_error (table_tail b) k = Some (status_report_item k).
Proof.
  intros Hk. unfold table_tail, status_report_items.
  rewrite nth_error_app1 by (rewrite length_map, length_seq; exact Hk).
  rewrite nth_error_map, nth_error_seq.
  destruct (Nat.ltb_spec k 40); [reflexivity | lia].
Qed.

Lemma table_tail_group (b : build) (k : nat) :
  (k < length (group_marker_tokens b))%nat ->
  nth_error (table_tail b) (40 + k)
  = option_map marker (nth_error (group_marker_tokens b) k).
Proof.
  intros Hk. unfold table_tail, status_report_items.
  rewrite nth_error_app2 by (rewrite length_map, length_seq; lia).
  rewrite length_map, length_seq.
  replace (40 + k - 40)%nat with k by lia.
  rewrite nth_error_app1 by (rewrite length_map; exact Hk).
  apply nth_error_map.
Qed.

Lemma table_tail_uber (b : build) (k : nat) :
  nth_error (table_tail b) (40 + length (group_marker_tokens b) + k)
  = option_map marker (nth_error uber_marker_tokens k).
Proof.
  unfold table_tail, status_report_items.
  rewrite nth_error_app2 by (rewrite length_map, length_seq; lia).
  rewrite length_map, length_seq.
  rewrite nth_error_app2 by (rewrite length_map; lia).
  rewrite length_map.
  replace (40 + length (group_marker_tokens b) + k - 40
           - length (group_marker_tokens b))%nat with k by lia.
  apply nth_error_map.
Qed.

(** X5: in every build, an in-range index that [nv_index_is_group]
    accepts holds a group marker, and an in-range index at or above
    [NV_INDEX_START_UBER_GROUPS] holds one of the five uber-group markers;
    both kinds of entry have no group, no flags and no storage. *)
Theorem nv_index_regions_hold_markers (b : build) (i : Z) :
  0 <= i < nv_index_max b ->
  (nv_index_is_group b i = true ->
   exists t, In t (group_marker_tokens b)
             /\ descriptor_at b i = Some (marker t))
  /\ (nv_index_is_uber_group b i = true ->
      exists t, In t uber_marker_tokens
                /\ descriptor_at b i = Some (marker t)).
Proof.
  intros Hrange.
  pose proof (group_marker_count b) as Hgroups.
  rewrite nv_index_max_eq, NV_INDEX_MAX_shape in Hrange.
  unfold nv_index_is_group, nv_index_is_uber_group.
  pose proof (descriptor_at_tail b) as Htail.
  rewrite NV_INDEX_START_GROUPS_eq, NV_INDEX_START_UBER_GROUPS_eq in *.
  pose proof (singles_count_range b) as Hs.
  unfold status_report_entries, NV_COUNT_UBER_GROUPS in *.
  rewrite !Z.geb_leb. split.
  - destruct (singles_count b + 40 <=? i) eqn:E1;
      destruct (i <? singles_count b + 40 + NV_COUNT_GROUPS b) eqn:E2;
      cbn [andb]; try discriminate. intros _.
    apply Z.leb_le in E1. apply Z.ltb_lt in E2.
    set (k := Z.to_nat (i - (singles_count b + 40))).
    assert (Hk : (k < length (group_marker_tokens b))%nat) by lia.
    replace i with (singles_count b + 40 - 40 + Z.of_nat (40 + k)) by lia.
    rewrite Htail, table_tail_group by exact Hk.
    destruct (nth_error (group_marker_tokens b) k) as [t |] eqn:Ek.
    + exists t. split; [eapply nth_error_In; eassumption | reflexivity].
    + apply nth_error_None in Ek. lia.
  - intros E. apply Z.leb_le in E.
    set (k := Z.to_nat (i - (singles_count b + 40 + NV_COUNT_GROUPS b))).
    assert (Hk : (k < length uber_marker_tokens)%nat)
      by (cbn [length uber_marker_tokens]; lia).
    replace i with (singles_count b + 40 - 40
                    + Z.of_nat (40 + length (group_marker_tokens b) + k))
      by lia.
    rewrite Htail, table_tail_uber.
    destruct (nth_error uber_marker_tokens k) as [t |] eqn:Ek.
    + exists t. split; [eapply nth_error_In; eassumption | reflexivity].
    + apply nth_error_None in Ek. lia.
Qed.

(** Index 380 of the four-motor ARM build holds the marker of group "2",
    index 419 the marker of the uber-group "di". *)
Lemma nv_index_regions_hold_markers_witness :
  (exists t, In t (group_marker_tokens (arm_build 4))
             /\ descriptor_at (arm_build 4) 380 = Some (marker t))
  /\ (exists t, In t uber_marker_tokens
                /\ descriptor_at (arm_build 4) 419 = Some (marker t)).
Proof.
  split.
  - apply (proj1 (nv_index_regions_hold_markers (arm_build 4) 380
                    ltac:(vm_compute; split; [discriminate | reflexivity]))).
    reflexivity.
  - apply (proj2 (nv_index_regions_hold_markers (arm_build 4) 419
                    ltac:(vm_compute; split; [discriminate | reflexivity]))).
    reflexivity.
Defined.

(** X6: when [NV_STATUS_REPORT_LEN] is 40, the count the table's comment
    gives, then in every build [NV_INDEX_END_SINGLES] is the index of [se00]
    and the slot [k] of the status-report list sits [k] entries above it. *)
Theorem status_report_block_agrees (b : build) (k : nat) :
  NV_STATUS_REPORT_LEN b = 40 ->
  (k < 40)%nat ->
  descriptor_at b (NV_INDEX_END_SINGLES b + Z.of_nat k)
  = Some (status_report_item k).
Proof.
  intros Hlen Hk.
  assert (Hfit : status_report_fits b).
  { unfold status_report_fits. rewrite NV_INDEX_MAX_shape, Hlen.
    pose proof (singles_count_range b).
    unfold status_report_entries, NV_COUNT_UBER_GROUPS. lia. }
  pose proof (descriptor_at_tail b k) as Htail.
  rewrite NV_INDEX_START_GROUPS_eq in Htail.
  rewrite NV_INDEX_END_SINGLES_eq, Hlen by assumption.
  rewrite Htail. now apply table_tail_status_report.
Qed.

(** Slot 17 of the four-motor ARM build. *)
Lemma status_report_block_agrees_witness :
  descriptor_at (arm_build 4) (NV_INDEX_END_SINGLES (arm_build 4) + 17)
  = Some (item "" "se17" _fp 0 "sr.status_report_list[17]").
Proof.
  exact (status_report_block_agrees (arm_build 4) 17 eq_refl
           ltac:(repeat constructor)).
Defined.

Lemma has_members_canonical (b : build) (g : string) :
  has_members (canonical b) g = has_members b g.
Proof. unfold has_members. now rewrite cfgArray_canonical. Qed.

Lemma index_of_group_marker (b : build) (g : string) :
  In g (group_marker_tokens b) ->
  exists i, 0 <= i < nv_index_max b
            /\ nv_index_is_group b i = true
            /\ descriptor_at b i = Some (marker g).
Proof.
  intros Hin. apply In_nth_error in Hin. destruct Hin as (k & Hk).
  assert (Hlt : (k < length (group_marker_tokens b))%nat)
    by (apply nth_error_Some; congruence).
  pose proof (group_marker_count b) as Hgroups.
  pose proof (singles_count_range b) as Hs.
  pose proof (NV_COUNT_GROUPS_range b) as Hg.
  exists (NV_INDEX_START_GROUPS b - 40 + Z.of_nat (40 + k)).
  rewrite descriptor_at_tail, table_tail_group, Hk by exact Hlt.
  rewrite nv_index_max_eq, NV_INDEX_MAX_shape.
  unfold nv_index_is_group.
  rewrite NV_INDEX_START_GROUPS_eq, NV_INDEX_START_UBER_GROUPS_eq.
  unfold status_report_entries, NV_COUNT_UBER_GROUPS.
  rewrite Z.geb_leb.
  rewrite (proj2 (Z.leb_le _ _)) by lia.
  rewrite (proj2 (Z.ltb_lt _ _)) by lia.
  repeat split; lia.
Qed.

(** X7: in every build, the group of a table entry that has one is itself
    in the table: its marker sits at an in-range index that
    [nv_index_is_group] accepts. *)
Theorem group_of_entry_has_marker (b : build) (d : cfgItem_t) :
  In d (cfgArray b) ->
  cfg_group d <> "" ->
  exists i, 0 <= i < nv_index_max b
            /\ nv_index_is_group b i = true
            /\ descriptor_at b i = Some (marker (cfg_group d)).
Proof.
  intros Hin Hgrp. apply index_of_group_marker.
  destruct (table_checks b) as (_ & _ & Hmem & _).
  unfold membership_check in Hmem. apply andb_true_iff in Hmem.
  destruct Hmem as [Hmem _]. rewrite forallb_forall in Hmem.
  rewrite cfgArray_canonical, group_marker_tokens_canonical in Hmem.
  specialize (Hmem d Hin).
  apply orb_true_iff in Hmem. destruct Hmem as [Hempty | Hmem].
  - apply String.eqb_eq in Hempty. contradiction.
  - now apply memb_In.
Qed.

(** The entry [g55y] of the four-motor ARM build and the marker of its
    group. *)
Lemma group_of_entry_has_marker_witness :
  exists i, 0 <= i < nv_index_max (arm_build 4)
            /\ nv_index_is_group (arm_build 4) i = true
            /\ descriptor_at (arm_build 4) i = Some (marker "g55").
Proof.
  apply (group_of_entry_has_marker (arm_build 4)
           (item "g55" "g55y" _fipc 3 "cm.offset[G55][AXIS_Y]")).
  - apply (nth_error_In _ 227). reflexivity.
  - discriminate.
Defined.

(** X8: in a build with at least two motors, a group marker has no member
    entries exactly when it is [pwr], or [di9] with fewer than nine input
    channels, or motor group 3 or 4 beyond the configured motor count. *)
Theorem memberless_group_markers (b : build) (g : string) :
  2 <= MOTORS b ->
  In g (group_marker_tokens b) ->
  (has_members b g = false <-> memberless_marker b g = true).
Proof.
  intros Hm Hin.
  destruct (table_checks b) as (_ & _ & Hmem & _).
  unfold membership_check in Hmem. apply andb_true_iff in Hmem.
  destruct Hmem as [_ Hmem].
  cbn [canonical MOTORS] in Hmem. rewrite clamp_geb in Hmem by lia.
  rewrite Z.geb_leb, (proj2 (Z.leb_le 2 (MOTORS b)) Hm) in Hmem.
  cbn [negb orb] in Hmem. rewrite forallb_forall in Hmem.
  rewrite group_marker_tokens_canonical in Hmem.
  specialize (Hmem g Hin). rewrite has_members_canonical in Hmem.
  assert (Hless : memberless_marker (canonical b) g = memberless_marker b g).
  { unfold memberless_marker. cbn [canonical MOTORS D_IN_CHANNELS].
    rewrite !clamp_geb by lia. now rewrite din_geb. }
  rewrite Hless in Hmem.
  destruct (has_members b g), (memberless_marker b g);
    cbn [xorb] in Hmem; try discriminate; split; congruence.
Qed.

(** Group "3" on a two-motor ARM build has a marker and no members; group
    "x" has members. *)
Lemma memberless_group_markers_witness :
  has_members (arm_build 2) "3" = false
  /\ memberless_marker (arm_build 2) "x" = false.
Proof.
  split.
  - apply (proj2 (memberless_group_markers (arm_build 2) "3"
                    ltac:(simpl; lia) ltac:(simpl; tauto))).
    reflexivity.
  - destruct (memberless_marker (arm_build 2) "x") eqn:E; [| reflexivity].
    apply (proj2 (memberless_group_markers (arm_build 2) "x"
                    ltac:(simpl; lia) ltac:(simpl; tauto))) in E.
    discriminate E.
Defined.

(** X9: in a build with two to six motors, every group that an uber-group
    handler names ("sys", "p1", the motor, axis, offset and input groups)
    has its marker in the table and at least one member entry. *)
Theorem uber_group_members_exist (b : build) (t : string) :
  2 <= MOTORS b <= 6 ->
  In t (uber_member_tokens b) ->
  has_members b t = true
  /\ exists i, 0 <= i < nv_index_max b
               /\ nv_index_is_group b i = true
               /\ descriptor_at b i = Some (marker t).
Proof.
  intros Hm Hin.
  destruct (table_checks b) as (_ & _ & _ & Huber).
  unfold uber_check in Huber. rewrite forallb_forall in Huber.
  assert (Hsame : uber_member_tokens (canonical b) = uber_member_tokens b).
  { unfold uber_member_tokens, motor_tokens, motors_list, input_tokens,
      inputs_list.
    cbn [canonical MOTORS D_IN_CHANNELS].
    replace (Z.max 0 (Z.min 6 (MOTORS b))) with (MOTORS b) by lia.
    rewrite Z.geb_leb.
    destruct (Z.leb_spec 9 (D_IN_CHANNELS b)) as [Hd | Hd].
    - rewrite (proj2 (Z.ltb_ge (D_IN_CHANNELS b) 9)) by lia. reflexivity.
    - rewrite (proj2 (Z.ltb_lt (D_IN_CHANNELS b) 9)) by lia. reflexivity. }
  rewrite Hsame in Huber. specialize (Huber t Hin).
  rewrite group_marker_tokens_canonical, has_members_canonical in Huber.
  apply andb_true_iff in Huber. destruct Huber as [Hmark Hmem].
  split; [exact Hmem |].
  apply index_of_group_marker. now apply memb_In.
Qed.

(** Input group "di9" on the four-motor ARM build, which has nine input
    channels. *)
Lemma uber_group_members_exist_witness :
  has_members (arm_build 4) "di9" = true
  /\ exists i, 0 <= i < nv_index_max (arm_build 4)
               /\ nv_index_is_group (arm_build 4) i = true
               /\ descriptor_at (arm_build 4) i = Some (marker "di9").
Proof.
  apply (uber_group_members_exist (arm_build 4) "di9").
  - simpl. lia.
  - vm_compute. tauto.
Defined.

(** ** More on the index classifiers *)

(** X10: [nv_index_lt_groups] accepts every index up to and including
    [NV_INDEX_START_GROUPS]: it accepts every single, and it also accepts
    exactly one index that [nv_index_is_group] accepts, the first group
    marker, which is that of "sys". *)
Theorem nv_index_lt_groups_boundary (b : build) (i : Z) :
  status_report_fits b ->
  0 <= i < nv_index_max b ->
  (nv_index_is_single b i = true -> nv_index_lt_groups b i = true)
  /\ (nv_index_lt_groups b i = true /\ nv_index_is_group b i = true
      <-> i = NV_INDEX_START_GROUPS b)
  /\ descriptor_at b (NV_INDEX_START_GROUPS b) = Some (marker "sys").
Proof.
  intros Hfit Hrange.
  assert (Hsys : descriptor_at b (NV_INDEX_START_GROUPS b)
                 = Some (marker "sys")).
  { replace (NV_INDEX_START_GROUPS b)
      with (NV_INDEX_START_GROUPS b - 40 + Z.of_nat (40 + 0)) at 1 by lia.
    rewrite descriptor_at_tail, table_tail_group; [reflexivity |].
    unfold group_marker_tokens. rewrite length_app. cbn [length]. lia. }
  rewrite nv_index_max_eq, NV_INDEX_MAX_shape in Hrange.
  unfold nv_index_is_single, nv_index_lt_groups, nv_index_is_group.
  rewrite NV_INDEX_END_SINGLES_eq by assumption.
  rewrite NV_INDEX_START_UBER_GROUPS_eq. rewrite NV_INDEX_START_GROUPS_eq in *.
  unfold status_report_fits in Hfit. rewrite NV_INDEX_MAX_shape in Hfit.
  pose proof (NV_COUNT_GROUPS_range b) as Hgroups.
  unfold status_report_entries, NV_COUNT_UBER_GROUPS in *.
  rewrite Z.geb_leb.
  split; [| split; [| exact Hsys]].
  - destruct (i <=? singles_count b + 40 - NV_STATUS_REPORT_LEN b) eqn:E1;
      [| discriminate].
    apply Z.leb_le in E1. rewrite (proj2 (Z.leb_le _ _)) by lia. reflexivity.
  - destruct (i <=? singles_count b + 40) eqn:E1;
      destruct (singles_count b + 40 <=? i) eqn:E2;
      destruct (i <? singles_count b + 40 + NV_COUNT_GROUPS b) eqn:E3;
      cbn [andb]; split; intros H; try (destruct H; discriminate); try lia;
      try (split; reflexivity).
Qed.

(** Index 377 of the four-motor ARM build, the marker of "sys". *)
Lemma nv_index_lt_groups_boundary_witness :
  nv_index_lt_groups (arm_build 4) 377 = true
  /\ nv_index_is_group (arm_build 4) 377 = true.
Proof.
  apply (proj1 (proj2 (nv_index_lt_groups_boundary (arm_build 4) 377
                         ltac:(unfold status_report_fits; vm_compute;
                               split; intro; discriminate)
                         ltac:(vm_compute; split;
                               [intro; discriminate | reflexivity])))).
  reflexivity.
Defined.

(** ** More on unit conversion *)

Lemma set_flu_state (b : build) (nv : ptr) (w : world) (d : cfgItem_t) :
  descriptor_at b (index (nvl w nv)) = Some d ->
  let v := if cmUnitsMode_eqb (units_mode w) INCHES
           then fmul (value (nvl w nv)) MM_PER_INCH
           else value (nvl w nv) in
  set_flu b nv w
  = Ok STAT_OK
      (mk_world
         (pool_set nv
            (set_valuetype TYPE_FLOAT
               (set_precision (cfg_precision d) (set_value v (nvl w nv))))
            (pool_set nv (set_precision (cfg_precision d)
                            (set_value v (nvl w nv)))
               (if cmUnitsMode_eqb (units_mode w) INCHES
                then pool_set nv (set_value v (nvl w nv)) (nvl w)
                else nvl w)))
         (storage_set (cfg_target d) v (mem w))
         (units_mode w) (xio_usb_baud_rate w) (xio_usb_baud_flag w)
         (calls w)).
Proof.
  intros Hd v. subst v.
  unfold set_flu, bind, cm_get_units_mode, GET_TABLE, load, write_target,
    modify, ret.
  destruct (cmUnitsMode_eqb (units_mode w) INCHES);
    cbn [nvl set_nvl set_mem mem units_mode calls xio_usb_baud_rate
           xio_usb_baud_flag];
    rewrite ?pool_set_same; cbn [index set_value set_precision];
    rewrite Hd; cbn [nvl set_nvl set_mem mem units_mode calls
                       xio_usb_baud_rate xio_usb_baud_flag];
    rewrite ?pool_set_same; reflexivity.
Qed.




(** X12: applying [set_flu] twice to the same object converts twice in
    inches mode, the object holding the converted value after the first
    call, and stores the input times [MM_PER_INCH] squared; in millimeters
    mode the second call changes nothing. *)
Theorem set_flu_twice (b : build) (nv : ptr) (w : world) (d : cfgItem_t) :
  descriptor_at b (index (nvl w nv)) = Some d ->
  exists w1 w2,
    set_flu b nv w = Ok STAT_OK w1
    /\ set_flu b nv w1 = Ok STAT_OK w2
    /\ (units_mode w = INCHES ->
        mem w2 (cfg_target d)
        = fmul (fmul (value (nvl w nv)) MM_PER_INCH) MM_PER_INCH
        /\ value (nvl w2 nv)
           = fmul (fmul (value (nvl w nv)) MM_PER_INCH) MM_PER_INCH)
    /\ (units_mode w = MILLIMETERS ->
        (forall t, mem w2 t = mem w1 t) /\ nvl w2 nv = nvl w1 nv).
Proof.
  intros Hd.
  destruct (set_flu_runs b nv w d Hd) as (w1 & Hrun1 & Hmem1 & Hnv1 & _).
  assert (Hunits : units_mode w1 = units_mode w).
  { pose proof (set_flu_state b nv w d Hd) as Hs. cbv zeta in Hs.
    rewrite Hrun1 in Hs. injection Hs as ->. reflexivity. }
  assert (Hd1 : descriptor_at b (index (nvl w1 nv)) = Some d).
  { rewrite Hnv1. exact Hd. }
  destruct (set_flu_runs b nv w1 d Hd1) as (w2 & Hrun2 & Hmem2 & Hnv2 & _).
  exists w1, w2. split; [exact Hrun1 |]. split; [exact Hrun2 |].
  rewrite Hmem2, Hnv2, Hunits, Hnv1, Hmem1. split.
  - intros Hin. rewrite Hin. cbn [cmUnitsMode_eqb value set_value
      set_precision set_valuetype].
    rewrite storage_set_same. split; reflexivity.
  - intros Hmm. rewrite Hmm. cbn [cmUnitsMode_eqb value set_value
      set_precision set_valuetype precision valuetype index group token].
    split; [| reflexivity].
    intros t. unfold storage_set.
    destruct (String.eqb t (cfg_target d)); reflexivity.
Qed.

(** Setting [xtm] twice to 1.0 in inches mode stores 25.4 * 25.4. *)
Lemma set_flu_twice_witness :
  exists w1 w2,
    set_flu (arm_build 4) 0 (sample_world INCHES 93 (float_of_Z 1))
    = Ok STAT_OK w1
    /\ set_flu (arm_build 4) 0 w1 = Ok STAT_OK w2
    /\ mem w2 "cm.a[AXIS_X].travel_max" = fmul MM_PER_INCH MM_PER_INCH.
Proof.
  destruct (set_flu_twice (arm_build 4) 0
              (sample_world INCHES 93 (float_of_Z 1))
              (item "x" "xtm" _fipc 3 "cm.a[AXIS_X].travel_max") eq_refl)
    as (w1 & w2 & Hrun1 & Hrun2 & Hin & _).
  exists w1, w2. split; [exact Hrun1 |]. split; [exact Hrun2 |].
  exact (proj1 (Hin eq_refl)).
Defined.

Lemma preprocess_float_state (b : build) (nv : ptr) (w : world)
    (d : cfgItem_t) :
  descriptor_at b (index (nvl w nv)) = Some d ->
  preprocess_float b nv w
  = Ok tt
      (if negb (isnan (value (nvl w nv)) || isinf (value (nvl w nv)))
          && negb (Z.land (cfg_flags d) F_CONVERT =? 0)
          && cmUnitsMode_eqb (units_mode w) INCHES
       then set_nvl
              (pool_set nv
                 (set_value (fmul (value (nvl w nv)) INCHES_PER_MM) (nvl w nv))
                 (nvl w)) w
       else w).
Proof.
  intros Hd.
  unfold preprocess_float, bind, load, GET_TABLE, cm_get_units_mode, modify,
    ret.
  destruct (isnan (value (nvl w nv)) || isinf (value (nvl w nv)));
    [reflexivity |].
  rewrite Hd.
  destruct (negb (Z.land (cfg_flags d) F_CONVERT =? 0)); [| reflexivity].
  destruct (cmUnitsMode_eqb (units_mode w) INCHES); reflexivity.
Qed.

(** X13: setting a value with [set_flu] and then preparing the object for
    display with [preprocess_float].  In millimeters mode the displayed
    value is the input.  In inches mode the stored value is the input
    times [MM_PER_INCH], and the displayed value is the stored one times
    [INCHES_PER_MM] only if the descriptor has the conversion flag and the
    stored value is neither NaN nor infinite; otherwise the stored value is
    displayed as it is.  Storage is what [set_flu] left. *)
Theorem set_then_display (b : build) (nv : ptr) (w : world) (d : cfgItem_t) :
  descriptor_at b (index (nvl w nv)) = Some d ->
  exists w1 w2,
    set_flu b nv w = Ok STAT_OK w1
    /\ preprocess_float b nv w1 = Ok tt w2
    /\ (forall t, mem w2 t = mem w1 t)
    /\ (units_mode w = MILLIMETERS ->
        mem w1 (cfg_target d) = value (nvl w nv)
        /\ value (nvl w2 nv) = value (nvl w nv))
    /\ (units_mode w = INCHES ->
        mem w1 (cfg_target d) = fmul (value (nvl w nv)) MM_PER_INCH
        /\ value (nvl w2 nv)
           = if negb (Z.land (cfg_flags d) F_CONVERT =? 0)
                && negb (isnan (mem w1 (cfg_target d))
                         || isinf (mem w1 (cfg_target d)))
             then fmul (mem w1 (cfg_target d)) INCHES_PER_MM
             else mem w1 (cfg_target d)).
Proof.
  intros Hd.
  destruct (set_flu_runs b nv w d Hd) as (w1 & Hrun1 & Hmem1 & Hnv1 & _).
  assert (Hunits : units_mode w1 = units_mode w).
  { pose proof (set_flu_state b nv w d Hd) as Hs. cbv zeta in Hs.
    rewrite Hrun1 in Hs. injection Hs as ->. reflexivity. }
  assert (Hd1 : descriptor_at b (index (nvl w1 nv)) = Some d).
  { rewrite Hnv1. exact Hd. }
  pose proof (preprocess_float_state b nv w1 d Hd1) as Hrun2.
  assert (Hv1 : value (nvl w1 nv)
                = if cmUnitsMode_eqb (units_mode w) INCHES
                  then fmul (value (nvl w nv)) MM_PER_INCH
                  else value (nvl w nv)).
  { rewrite Hnv1. reflexivity. }
  assert (Hm1 : mem w1 (cfg_target d) = value (nvl w1 nv)).
  { rewrite Hmem1, storage_set_same, Hv1. reflexivity. }
  match type of Hrun2 with
  | _ = Ok tt (if ?x then _ else _) => remember x as c eqn:Ec
  end.
  rewrite Hunits in Ec.
  exists w1. eexists. split; [exact Hrun1 |]. split; [exact Hrun2 |].
  split; [intros t; destruct c; reflexivity |].
  rewrite Hm1. split.
  - intros Hmm. rewrite Hmm in Ec, Hv1. cbn [cmUnitsMode_eqb] in Ec, Hv1.
    rewrite andb_false_r in Ec. subst c. now rewrite Hv1.
  - intros Hin. rewrite Hin in Ec, Hv1. cbn [cmUnitsMode_eqb] in Ec, Hv1.
    rewrite andb_true_r, andb_comm in Ec. rewrite <- Ec.
    split; [exact Hv1 |].
    destruct c; [| reflexivity].
    cbn [nvl set_nvl]. rewrite pool_set_same. reflexivity.
Qed.

(** Ten inches set on [xtm] are stored as 254 mm and displayed as 10. *)
Lemma set_then_display_witness :
  exists w1 w2,
    set_flu (arm_build 4) 0 (sample_world INCHES 93 (float_of_Z 10))
    = Ok STAT_OK w1
    /\ preprocess_float (arm_build 4) 0 w1 = Ok tt w2
    /\ mem w1 "cm.a[AXIS_X].travel_max" = float_of_Z 254
    /\ value (nvl w2 0) = float_of_Z 10.
Proof.
  destruct (set_then_display (arm_build 4) 0
              (sample_world INCHES 93 (float_of_Z 10))
              (item "x" "xtm" _fipc 3 "cm.a[AXIS_X].travel_max") eq_refl)
    as (w1 & w2 & Hrun1 & Hrun2 & _ & _ & Hin).
  destruct (Hin eq_refl) as (Hmem & Hval).
  exists w1, w2. split; [exact Hrun1 |]. split; [exact Hrun2 |].
  split; [exact Hmem |].
  rewrite Hval, Hmem. reflexivity.
Defined.

(** ** More on group expansion *)

Section GroupListSafety.
Context {C : Collaborators}.
Variable b : build.


(** The loop on an array of non-empty tokens that ends before the counter
    reaches [NV_MAX_OBJECTS]: it reads past the array. *)
Lemma _do_group_list_from_overruns (toks : list string) :
  forall (pre : list string) (fuel : nat) (w : world),
    Forall (fun t => first_is_NUL t = false) toks ->
    Z.of_nat (length pre + length toks) < NV_MAX_OBJECTS b ->
    Z.of_nat (length pre + length toks) <= 255 ->
    (length toks < fuel)%nat ->
    _do_group_list_from b fuel (Z.of_nat (length pre)) (pre ++ toks) w
    = Undefined.
Proof.
  induction toks as [| t toks IH]; intros pre fuel w Hne Hmax Hwrap Hfuel.
  - destruct fuel as [| fuel]; [simpl in Hfuel; lia |].
    cbn [_do_group_list_from length] in *. rewrite Nat.add_0_r in *.
    rewrite (proj2 (Z.ltb_lt _ _)) by lia.
    rewrite app_nil_r, Nat2Z.id.
    rewrite (proj2 (nth_error_None pre (length pre))) by lia. reflexivity.
  - destruct fuel as [| fuel]; [simpl in Hfuel; lia |].
    inversion Hne as [| ? ? Ht Hne']; subst.
    cbn [length] in *. cbn [_do_group_list_from].
    rewrite (proj2 (Z.ltb_lt _ _)) by lia.
    rewrite Nat2Z.id, nth_error_app2 by lia.
    rewrite Nat.sub_diag. cbn [nth_error]. rewrite Ht.
    unfold bind at 1. unfold nv_reset_nv_list at 1.
    unfold bind at 1. unfold modify at 1.
    unfold bind at 1. unfold load at 1.
    unfold bind at 1. unfold nv_get_index at 1.
    unfold bind at 1. unfold modify at 1.
    unfold bind at 1. unfold nv_get_nvObj at 1.
    unfold bind at 1. unfold nv_print_list at 1.
    rewrite uint8_wrap_small by lia.
    replace (Z.of_nat (length pre) + 1) with (Z.of_nat (length (pre ++ [t])))
      by (rewrite length_app; cbn [length]; lia).
    replace (pre ++ t :: toks) with ((pre ++ [t]) ++ toks)
      by (rewrite <- app_assoc; reflexivity).
    apply IH; try assumption; try (rewrite length_app; cbn [length]; lia).
    lia.
Qed.

(** With [NV_MAX_OBJECTS] above 255 the counter, a [uint8_t], never
    reaches it: on 256 non-empty tokens the loop goes round for ever. *)
Lemma _do_group_list_from_cycles (list : list string) :
  256 <= NV_MAX_OBJECTS b ->
  (256 <= length list)%nat ->
  Forall (fun t => first_is_NUL t = false) (firstn 256 list) ->
  forall (fuel : nat) (i : Z) (w : world),
    0 <= i <= 255 ->
    _do_group_list_from b fuel i list w = OutOfFuel.
Proof.
  intros Hmax Hlen Hne.
  induction fuel as [| fuel IH]; intros i w Hi; [reflexivity |].
  cbn [_do_group_list_from].
  rewrite (proj2 (Z.ltb_lt _ _)) by lia.
  destruct (nth_error list (Z.to_nat i)) as [tok |] eqn:Etok.
  - assert (Htok : first_is_NUL tok = false).
    { rewrite Forall_forall in Hne. apply Hne.
      apply (nth_error_In _ (Z.to_nat i)).
      rewrite nth_error_firstn.
      destruct (Nat.ltb_spec (Z.to_nat i) 256); [assumption | lia]. }
    rewrite Htok.
    unfold bind at 1. unfold nv_reset_nv_list at 1.
    unfold bind at 1. unfold modify at 1.
    unfold bind at 1. unfold load at 1.
    unfold bind at 1. unfold nv_get_index at 1.
    unfold bind at 1. unfold modify at 1.
    unfold bind at 1. unfold nv_get_nvObj at 1.
    unfold bind at 1. unfold nv_print_list at 1.
    apply IH. unfold uint8_wrap.
    pose proof (Z.mod_pos_bound (i + 1) (2 ^ 8) ltac:(reflexivity)) as Hb.
    change (2 ^ 8) with 256 in *. lia.
  - apply nth_error_None in Etok. lia.
Qed.
End GroupListSafety.



(** X15: a token list without its terminating empty element, shorter than
    [NV_MAX_OBJECTS], makes [_do_group_list] read past the end of the
    array once all its tokens are rendered. *)
Theorem _do_group_list_unterminated {C : Collaborators} (b : build)
    (fuel : nat) (nv : ptr) (list : list string) (w : world) :
  Forall (fun t => first_is_NUL t = false) list ->
  Z.of_nat (length list) < NV_MAX_OBJECTS b ->
  Z.of_nat (length list) <= 255 ->
  (length list < fuel)%nat ->
  _do_group_list b fuel nv list w = Undefined.
Proof.
  intros Hne Hmax Hwrap Hfuel.
  exact (_do_group_list_from_overruns b list [] fuel w Hne Hmax Hwrap Hfuel).
Qed.

(** The axes without the sentinel. *)
Lemma _do_group_list_unterminated_witness :
  @_do_group_list sample_collaborators (arm_build 4) 30 0
    ["x"; "y"; "z"; "a"; "b"; "c"]
    (sample_world MILLIMETERS 0 (S754_zero false))
  = Undefined.
Proof.
  apply (@_do_group_list_unterminated sample_collaborators (arm_build 4)).
  - repeat constructor.
  - simpl. lia.
  - simpl. lia.
  - simpl. lia.
Defined.

(** X16: when [NV_MAX_OBJECTS] exceeds 255, the loop counter, a [uint8_t],
    wraps before it reaches the bound: on a list whose first 256 tokens are
    non-empty [_do_group_list] does not return, whatever the fuel. *)
Theorem _do_group_list_counter_wraps {C : Collaborators} (b : build)
    (nv : ptr) (list : list string) (w : world) :
  256 <= NV_MAX_OBJECTS b ->
  (256 <= length list)%nat ->
  Forall (fun t => first_is_NUL t = false) (firstn 256 list) ->
  forall fuel : nat, _do_group_list b fuel nv list w = OutOfFuel.
Proof.
  intros Hmax Hlen Hne fuel.
  apply (_do_group_list_from_cycles b list Hmax Hlen Hne fuel 0 w). lia.
Qed.

(** Two hundred and fifty-six times "x" under a bound of 300. *)
Lemma _do_group_list_counter_wraps_witness :
  @_do_group_list sample_collaborators wide_list_build 1000 0
    (repeat "x" 256) (sample_world MILLIMETERS 0 (S754_zero false))
  = OutOfFuel.
Proof.
  apply (@_do_group_list_counter_wraps sample_collaborators wide_list_build).
  - simpl. lia.
  - rewrite repeat_length. lia.
  - change (firstn 256 (repeat "x" 256)) with (repeat "x" 256).
    apply Forall_forall. intros t Ht.
    apply repeat_spec in Ht. subst t. reflexivity.
Defined.

(** X17: with room for ten objects, the motors, offsets and inputs
    handlers each fetch and render exactly their member groups, in order,
    and return [STAT_COMPLETE]; the inputs handler renders [di9] exactly
    when the build has nine input channels or more, and never returns the
    [STAT_OK] of its last line. *)
Theorem uber_group_handlers_render_members {C : Collaborators} (b : build)
    (fuel : nat) (nv : ptr) (w : world) :
  2 <= MOTORS b <= 6 ->
  9 <= NV_MAX_OBJECTS b ->
  (3 <= TOKEN_LEN b)%nat ->
  (10 <= fuel)%nat ->
  (exists w',
      _do_motors b fuel nv w = Ok STAT_COMPLETE w'
      /\ calls w' = calls w ++ group_list_calls (motor_tokens b)
      /\ Z.of_nat (length (motor_tokens b)) = MOTORS b)
  /\ (exists w',
         _do_offsets b fuel nv w = Ok STAT_COMPLETE w'
         /\ calls w' = calls w ++ group_list_calls offset_tokens)
  /\ (exists w',
         _do_inputs b fuel nv w = Ok STAT_COMPLETE w'
         /\ calls w' = calls w ++ group_list_calls (input_tokens b)
         /\ input_tokens b
            = ["di1"; "di2"; "di3"; "di4"; "di5"; "di6"; "di7"; "di8"]
              ++ (if D_IN_CHANNELS b <? 9 then [] else ["di9"])).
Proof.
  intros Hm Hmax Htok Hfuel.
  assert (Hcopy : forall toks,
             Forall (fun t => cstring t = t /\ (String.length t <= 3)%nat) toks ->
             map (as_copied b) toks = toks).
  { intros toks Hs. induction Hs as [| t toks' [Hc Hl] _ IH]; [reflexivity |].
    cbn [map]. rewrite IH, as_copied_short; [reflexivity | exact Hc | lia]. }
  assert (Hrun : forall toks,
             Forall (fun t => first_is_NUL t = false) toks ->
             (length toks <= 9)%nat ->
             Forall (fun t => cstring t = t /\ (String.length t <= 3)%nat) toks ->
             exists w',
               _do_group_list b fuel nv (toks ++ [""]) w = Ok STAT_COMPLETE w'
               /\ calls w' = calls w ++ group_list_calls toks).
  { intros toks Hne Hlen Hs.
    destruct (_do_group_list_from_runs b toks [] [""] fuel w)
      as (w' & Hrun & Hcalls & _).
    - exact Hne.
    - cbn [length]. lia.
    - cbn [length]. lia.
    - right. exists "", []. split; reflexivity.
    - lia.
    - exists w'. split; [exact Hrun |]. now rewrite Hcalls, Hcopy. }
  destruct (motor_tokens_cases b Hm) as (Hlist & Hcases).
  split; [| split].
  - unfold _do_motors. rewrite Hlist.
    destruct (Hrun (motor_tokens b)) as (w' & Hw & Hc).
    + by_motor_cases Hcases ltac:(repeat constructor).
    + by_motor_cases Hcases ltac:(cbn [length]; lia).
    + by_motor_cases Hcases
        ltac:(repeat (constructor;
                      [split; [reflexivity | cbn [String.length]; lia] |]);
              constructor).
    + exists w'. split; [exact Hw |]. split; [exact Hc |].
      revert Hlist. unfold motor_tokens, motors_list.
      assert (Hk : MOTORS b = 2 \/ MOTORS b = 3 \/ MOTORS b = 4
                   \/ MOTORS b = 5 \/ MOTORS b = 6) by lia.
      destruct Hk as [E | [E | [E | [E | E]]]]; rewrite E; reflexivity.
  - unfold _do_offsets.
    destruct (Hrun offset_tokens) as (w' & Hw & Hc).
    + repeat constructor.
    + cbn [length offset_tokens offsets_list removelast]. lia.
    + repeat (constructor;
              [split; [reflexivity | cbn [String.length]; lia] |]);
        constructor.
    + exists w'. split; [exact Hw | exact Hc].
  - unfold _do_inputs, input_tokens, inputs_list.
    destruct (D_IN_CHANNELS b <? 9).
    + destruct (Hrun ["di1"; "di2"; "di3"; "di4"; "di5"; "di6"; "di7"; "di8"])
        as (w' & Hw & Hc).
      * repeat constructor.
      * cbn [length]. lia.
      * repeat (constructor;
                [split; [reflexivity | cbn [String.length]; lia] |]);
          constructor.
      * exists w'. split; [exact Hw |]. split; [exact Hc | reflexivity].
    + destruct (Hrun ["di1"; "di2"; "di3"; "di4"; "di5"; "di6"; "di7"; "di8";
                      "di9"])
        as (w' & Hw & Hc).
      * repeat constructor.
      * cbn [length]. lia.
      * repeat (constructor;
                [split; [reflexivity | cbn [String.length]; lia] |]);
          constructor.
      * exists w'. split; [exact Hw |]. split; [exact Hc | reflexivity].
Qed.

(** The inputs handler on the four-motor AVR build, which has eight input
    channels. *)
Lemma uber_group_handlers_render_members_witness :
  exists w',
    @_do_inputs sample_collaborators (avr_build 4) 16 0
      (sample_world MILLIMETERS 0 (S754_zero false))
    = Ok STAT_COMPLETE w'
    /\ rendered (calls w')
       = ["di1"; "di2"; "di3"; "di4"; "di5"; "di6"; "di7"; "di8"].
Proof.
  destruct (@uber_group_handlers_render_members sample_collaborators
              (avr_build 4) 16 0
              (sample_world MILLIMETERS 0 (S754_zero false)))
    as (_ & _ & w' & Hrun & Hcalls & Htoks).
  - simpl. lia.
  - simpl. lia.
  - simpl. lia.
  - lia.
  - exists w'. split; [exact Hrun |].
    rewrite Hcalls, Htoks. reflexivity.
Defined.

(** ** Communications settings *)

Section CommProperties.
Variable fp_NOT_ZERO : float -> bool.
Variable FLOW_CONTROL_RTS : Z.

(** X18: each of [set_ec], [set_ee] and [set_ex] rejects a value exactly
    when it is greater than its limit (1, 1 and [FLOW_CONTROL_RTS]), and a
    rejected call changes nothing and calls nothing. *)
Theorem comm_setters_reject (nv : ptr) (s : avr_state) :
  let v := value (nvl (base s) nv) in
  (fst (set_ec fp_NOT_ZERO nv s) = STAT_INPUT_VALUE_UNSUPPORTED
   <-> fgt v (float_of_Z 1) = true)
  /\ (fst (set_ee fp_NOT_ZERO nv s) = STAT_INPUT_VALUE_UNSUPPORTED
      <-> fgt v (float_of_Z 1) = true)
  /\ (fst (set_ex fp_NOT_ZERO FLOW_CONTROL_RTS nv s)
      = STAT_INPUT_VALUE_UNSUPPORTED
      <-> fgt v (float_of_Z FLOW_CONTROL_RTS) = true)
  /\ (fgt v (float_of_Z 1) = true ->
      snd (set_ec fp_NOT_ZERO nv s) = s /\ snd (set_ee fp_NOT_ZERO nv s) = s)
  /\ (fgt v (float_of_Z FLOW_CONTROL_RTS) = true ->
      snd (set_ex fp_NOT_ZERO FLOW_CONTROL_RTS nv s) = s).
Proof.
  intros v. subst v.
  unfold set_ec, set_ee, set_ex, _set_comm_helper. cbv zeta.
  cbn [base set_cfg_enable_cr set_cfg_enable_echo set_cfg_enable_flow_control].
  destruct (fgt (value (nvl (base s) nv)) (float_of_Z 1));
    destruct (fgt (value (nvl (base s) nv)) (float_of_Z FLOW_CONTROL_RTS));
    destruct (fp_NOT_ZERO (value (nvl (base s) nv)));
    cbn [fst snd]; repeat split; intros; try discriminate; reflexivity.
Qed.

(** X19: a value that is not greater than the limit is accepted, whatever
    else it is (a fraction, a negative number, a NaN): the setter returns
    [STAT_OK], stores the value cast to [uint8_t] in its own field of
    [cfg], and makes exactly one call of [xio_ctrl] on the USB device,
    with the enabling flag when [fp_NOT_ZERO] holds of the value and the
    disabling flag otherwise.  The stored byte and the flag are chosen
    independently, so a value that the cast takes to 0 and that is
    not zero stores "off" and switches the device on. *)
Theorem comm_setters_accept (nv : ptr) (s : avr_state) :
  let v := value (nvl (base s) nv) in
  (fgt v (float_of_Z 1) = false ->
   set_ec fp_NOT_ZERO nv s
   = (STAT_OK,
      add_xio_call
        (Call_xio_ctrl XIO_DEV_USB
           (if fp_NOT_ZERO v then XIO_CRLF else XIO_NOCRLF))
        (set_cfg_enable_cr (float_to_uint8 v) s))
   /\ set_ee fp_NOT_ZERO nv s
      = (STAT_OK,
         add_xio_call
           (Call_xio_ctrl XIO_DEV_USB
              (if fp_NOT_ZERO v then XIO_ECHO else XIO_NOECHO))
           (set_cfg_enable_echo (float_to_uint8 v) s)))
  /\ (fgt v (float_of_Z FLOW_CONTROL_RTS) = false ->
      set_ex fp_NOT_ZERO FLOW_CONTROL_RTS nv s
      = (STAT_OK,
         add_xio_call
           (Call_xio_ctrl XIO_DEV_USB
              (if fp_NOT_ZERO v then XIO_XOFF else XIO_NOXOFF))
           (set_cfg_enable_flow_control (float_to_uint8 v) s)))
  /\ (isnan v = true ->
      fgt v (float_of_Z 1) = false
      /\ fgt v (float_of_Z FLOW_CONTROL_RTS) = false).
Proof.
  intros v. subst v.
  unfold set_ec, set_ee, set_ex, _set_comm_helper, xio_ctrl. cbv zeta.
  cbn [base set_cfg_enable_cr set_cfg_enable_echo set_cfg_enable_flow_control].
  split; [| split].
  - intros ->. destruct (fp_NOT_ZERO (value (nvl (base s) nv)));
      split; reflexivity.
  - intros ->. destruct (fp_NOT_ZERO (value (nvl (base s) nv))); reflexivity.
  - intros Hnan. destruct (value (nvl (base s) nv)); try discriminate.
    unfold fgt, SFltb. cbn [SFcompare].
    destruct (float_of_Z 1), (float_of_Z FLOW_CONTROL_RTS); split; reflexivity.
Qed.
End CommProperties.

(** One half: rounded to the byte 0 and not zero. *)
Lemma comm_setters_accept_witness :
  set_ec sample_fp_NOT_ZERO 0
    (sample_avr_state (fdiv (float_of_Z 1) (float_of_Z 2)))
  = (STAT_OK,
     add_xio_call (Call_xio_ctrl XIO_DEV_USB XIO_CRLF)
       (set_cfg_enable_cr 0
          (sample_avr_state (fdiv (float_of_Z 1) (float_of_Z 2))))).
Proof.
  exact (proj1 (proj1 (comm_setters_accept sample_fp_NOT_ZERO 2 0
                         (sample_avr_state (fdiv (float_of_Z 1) (float_of_Z 2))))
                  eq_refl)).
Defined.

(** The value 2 is above the limit of [set_ec]. *)
Lemma comm_setters_reject_witness :
  set_ec sample_fp_NOT_ZERO 0 (sample_avr_state (float_of_Z 2))
  = (STAT_INPUT_VALUE_UNSUPPORTED, sample_avr_state (float_of_Z 2)).
Proof.
  pose proof (comm_setters_reject sample_fp_NOT_ZERO 2 0
                (sample_avr_state (float_of_Z 2))) as H.
  cbv zeta in H. destruct H as (Hst & _ & _ & Hsame & _).
  apply injective_projections.
  - exact (proj2 Hst eq_refl).
  - exact (proj1 (Hsame eq_refl)).
Defined.

(** ** Baud rate: the accepted case and the callback *)

Lemma set_baud_state {C : Collaborators} (nv : ptr) (w : world) :
  1 <= float_to_uint8 (value (nvl w nv)) <= 6 ->
  set_baud nv w
  = Ok STAT_OK
      (add_call
         (Call_nv_add_conditional_message
            (String.append "*** NOTICE *** Resetting baud rate to "
               (GET_TEXT_ITEM msg_baud (float_to_uint8 (value (nvl w nv))))))
         (set_nvl
            (nv_add_conditional_message_fx
               (String.append "*** NOTICE *** Resetting baud rate to "
                  (GET_TEXT_ITEM msg_baud
                     (float_to_uint8 (value (nvl w nv)))))
               (nvl w))
            (set_xio_usb_baud_flag true
               (set_xio_usb_baud_rate (float_to_uint8 (value (nvl w nv)))
                  w)))).
Proof.
  intros Hin.
  unfold set_baud, bind, load, nv_add_conditional_message, ret.
  assert (Hguard : (float_to_uint8 (value (nvl w nv)) <? 1)
                   || (float_to_uint8 (value (nvl w nv)) >? 6) = false).
  { apply orb_false_iff. rewrite Z.ltb_ge, Z.gtb_ltb, Z.ltb_ge. lia. }
  rewrite Hguard. reflexivity.
Qed.

(** X20: when the value cast to [uint8_t] is in 1..6, [set_baud] returns
    [STAT_OK], records that byte as the pending baud selector, raises the
    pending flag, and hands [nv_add_conditional_message] the notice that
    ends in the baud rate the selector stands for; backing storage and the
    unit mode are untouched. *)
Theorem set_baud_accepts {C : Collaborators} (nv : ptr) (w : world) :
  1 <= float_to_uint8 (value (nvl w nv)) <= 6 ->
  exists w',
    set_baud nv w = Ok STAT_OK w'
    /\ xio_usb_baud_rate w' = float_to_uint8 (value (nvl w nv))
    /\ xio_usb_baud_flag w' = true
    /\ calls w'
       = calls w
         ++ [Call_nv_add_conditional_message
               (String.append "*** NOTICE *** Resetting baud rate to "
                  (nth (Z.to_nat (float_to_uint8 (value (nvl w nv)) - 1))
                     ["9600"; "19200"; "38400"; "57600"; "115200"; "230400"]
                     ""))]
    /\ mem w' = mem w
    /\ units_mode w' = units_mode w.
Proof.
  intros Hin. rewrite (set_baud_state nv w Hin).
  eexists. split; [reflexivity |].
  cbn [xio_usb_baud_rate xio_usb_baud_flag calls mem units_mode add_call
         set_nvl set_xio_usb_baud_flag set_xio_usb_baud_rate nvl].
  repeat split.
  do 3 f_equal. unfold GET_TEXT_ITEM, msg_baud.
  assert (Hk : float_to_uint8 (value (nvl w nv)) = 1
               \/ float_to_uint8 (value (nvl w nv)) = 2
               \/ float_to_uint8 (value (nvl w nv)) = 3
               \/ float_to_uint8 (value (nvl w nv)) = 4
               \/ float_to_uint8 (value (nvl w nv)) = 5
               \/ float_to_uint8 (value (nvl w nv)) = 6) by lia.
  destruct Hk as [E | [E | [E | [E | [E | E]]]]]; rewrite E; reflexivity.
Qed.

(** Selector 3. *)
Lemma set_baud_accepts_witness :
  exists w',
    @set_baud sample_collaborators 0
      (sample_world MILLIMETERS 293 (float_of_Z 3))
    = Ok STAT_OK w'
    /\ xio_usb_baud_rate w' = 3
    /\ xio_usb_baud_flag w' = true
    /\ calls w'
       = [Call_nv_add_conditional_message
            "*** NOTICE *** Resetting baud rate to 38400"].
Proof.
  destruct (@set_baud_accepts sample_collaborators 0
              (sample_world MILLIMETERS 293 (float_of_Z 3)))
    as (w' & Hrun & Hrate & Hflag & Hcalls & _).
  - vm_compute. split; discriminate.
  - exists w'. exact (conj Hrun (conj Hrate (conj Hflag Hcalls))).
Defined.

(** X21: an accepted [set_baud] followed by the callback applies the baud
    rate exactly once: the first [set_baud_callback] returns [STAT_OK] and
    calls [xio_set_baud] on the USB device with the selected byte, a second
    one returns [STAT_NOOP] and calls nothing. *)
Theorem set_baud_applied_once {C : Collaborators} (nv : ptr) (s : avr_state) :
  1 <= float_to_uint8 (value (nvl (base s) nv)) <= 6 ->
  exists s1,
    avr_set_baud nv s = Some (STAT_OK, s1)
    /\ fst (set_baud_callback s1) = STAT_OK
    /\ xio_calls (snd (set_baud_callback s1))
       = xio_calls s
         ++ [Call_xio_set_baud XIO_DEV_USB
               (float_to_uint8 (value (nvl (base s) nv)))]
    /\ set_baud_callback (snd (set_baud_callback s1))
       = (STAT_NOOP, snd (set_baud_callback s1)).
Proof.
  intros Hin.
  eexists. unfold avr_set_baud. rewrite (set_baud_state nv (base s) Hin).
  split; [reflexivity |].
  unfold set_baud_callback.
  cbn [base set_base Bool.eqb fst snd xio_set_baud add_xio_call xio_calls
         xio_usb_baud_flag xio_usb_baud_rate set_xio_usb_baud_flag
         set_xio_usb_baud_rate add_call set_nvl].
  repeat split.
Qed.

(** Selector 3 on the sample state. *)
Lemma set_baud_applied_once_witness :
  exists s1,
    @avr_set_baud sample_collaborators 0 (sample_avr_state (float_of_Z 3))
    = Some (STAT_OK, s1)
    /\ fst (set_baud_callback s1) = STAT_OK
    /\ xio_calls (snd (set_baud_callback s1))
       = [Call_xio_set_baud XIO_DEV_USB 3].
Proof.
  destruct (@set_baud_applied_once sample_collaborators 0
              (sample_avr_state (float_of_Z 3)))
    as (s1 & Hrun & Hst & Hcalls & _).
  - vm_compute. split; discriminate.
  - exists s1. exact (conj Hrun (conj Hst Hcalls)).
Defined.

(** X22: a rejected [set_baud] never reaches the device: the callback that
    follows it returns the status and makes the serial-driver calls it
    would have made without the rejected call; in particular it returns
    [STAT_NOOP] and calls nothing when no baud change was pending. *)
Theorem set_baud_rejected_not_applied {C : Collaborators} (nv : ptr)
    (s : avr_state) :
  float_to_uint8 (value (nvl (base s) nv)) < 1
  \/ float_to_uint8 (value (nvl (base s) nv)) > 6 ->
  exists s1,
    avr_set_baud nv s = Some (STAT_INPUT_VALUE_UNSUPPORTED, s1)
    /\ fst (set_baud_callback s1) = fst (set_baud_callback s)
    /\ xio_calls (snd (set_baud_callback s1))
       = xio_calls (snd (set_baud_callback s))
    /\ (xio_usb_baud_flag (base s) = false ->
        fst (set_baud_callback s1) = STAT_NOOP
        /\ xio_calls (snd (set_baud_callback s1)) = xio_calls s).
Proof.
  intros Hout.
  unfold avr_set_baud, set_baud, bind, load, nv_add_conditional_message, ret.
  assert (Hguard : (float_to_uint8 (value (nvl (base s) nv)) <? 1)
                   || (float_to_uint8 (value (nvl (base s) nv)) >? 6) = true).
  { apply orb_true_iff. rewrite Z.ltb_lt, Z.gtb_ltb, Z.ltb_lt. lia. }
  rewrite Hguard. eexists. split; [reflexivity |].
  unfold set_baud_callback.
  cbn [base set_base xio_usb_baud_flag xio_usb_baud_rate add_call set_nvl].
  destruct (xio_usb_baud_flag (base s));
    cbn [Bool.eqb fst snd xio_calls xio_set_baud add_xio_call set_base base
           xio_usb_baud_rate set_xio_usb_baud_flag];
    repeat split; intros; try discriminate; reflexivity.
Qed.

(** Selector 7 on the sample state, with nothing pending. *)
Lemma set_baud_rejected_not_applied_witness :
  exists s1,
    @avr_set_baud sample_collaborators 0 (sample_avr_state (float_of_Z 7))
    = Some (STAT_INPUT_VALUE_UNSUPPORTED, s1)
    /\ fst (set_baud_callback s1) = STAT_NOOP
    /\ xio_calls (snd (set_baud_callback s1)) = [].
Proof.
  destruct (@set_baud_rejected_not_applied sample_collaborators 0
              (sample_avr_state (float_of_Z 7)))
    as (s1 & Hrun & _ & _ & Hnone).
  - right. vm_compute. reflexivity.
  - exists s1. split; [exact Hrun |]. exact (Hnone eq_refl).
Defined.
